(** * MMAR resolver: descriptor lookup, nested configuration search and
      the configuration-source fallback of [load_from_mmar]

    Shallow embedding of [monai/apps/mmars/mmars.py] and
    [monai/apps/mmars/model_desc.py].

    - Python objects that the code inspects are values of [value]: [None],
      booleans, integers, strings, lists and string-keyed dictionaries.
      A dictionary is an association list in insertion order; a Python
      dictionary never holds a key twice, which [wf_value] records.
    - [_get_val] is a total function on dictionaries; [_get_val_obj] adds
      what Python does when the searched object is not a mapping.
    - [load_from_mmar] runs in a small error-and-log monad [M]: the external
      collaborators (download, deserializers, file system, class registry,
      constructors) are oracles of an environment record [Env], and every
      call to one of them is recorded as an [event].
    - Strings are sequences of code points below 256. *)

From Stdlib Require Import List String Ascii ZArith Bool Arith Lia.
Import ListNotations.
#[local] Set Warnings "-register-all".
Local Open Scope string_scope.
Local Open Scope list_scope.

(** ** Python values *)

Inductive value : Type :=
| VNone
| VBool (b : bool)
| VInt (z : Z)
| VStr (s : string)
| VList (l : list value)
| VDict (d : list (string * value)).

(** A dictionary with string keys, in insertion order. *)
Definition dict : Type := list (string * value).

(** [key in d] *)
Fixpoint contains (key : string) (d : dict) : bool :=
  match d with
  | [] => false
  | (k, _) :: d' => if String.eqb key k then true else contains key d'
  end.

(** [d[key]] when [key in d], [d.get(key)] in general. *)
Fixpoint getitem (key : string) (d : dict) : option value :=
  match d with
  | [] => None
  | (k, v) :: d' => if String.eqb key k then Some v else getitem key d'
  end.

(** [d.get(key, default)] *)
Definition get_default (key : string) (d : dict) (default : value) : value :=
  match getitem key d with
  | Some v => v
  | None => default
  end.

(** [isinstance(v, Mapping)] *)
Definition is_mapping (v : value) : bool :=
  match v with
  | VDict _ => true
  | _ => false
  end.

(** [v is None] *)
Definition is_None (v : value) : bool :=
  match v with
  | VNone => true
  | _ => false
  end.

(** Truth value of an object, as tested by [if v] and [not v]. *)
Definition truthy (v : value) : bool :=
  match v with
  | VNone => false
  | VBool b => b
  | VInt z => negb (Z.eqb z 0)
  | VStr s => negb (String.eqb s "")
  | VList l => match l with [] => false | _ => true end
  | VDict d => match d with [] => false | _ => true end
  end.

(** ** Nested search: [_get_val]

<<
def _get_val(input_dict: Mapping, key="model", default=None):
    if key in input_dict:
        return input_dict[key]
    for sub_dict in input_dict:
        val = input_dict[sub_dict]
        if isinstance(val, Mapping):
            found_val = _get_val(val, key=key, default=None)
            if found_val is not None:
                return found_val
    return default
>>

    The loop visits the keys in insertion order and reads [input_dict[sub_dict]];
    as no key occurs twice this is the value of the visited entry
    ([getitem_entry] below), so the embedding walks the entries. *)

Fixpoint get_val_rec (v : value) (key : string) (default : value) {struct v} : value :=
  match v with
  | VDict input_dict =>
      match getitem key input_dict with
      | Some hit => hit
      | None =>
          (fix loop (entries : list (string * value)) : value :=
             match entries with
             | [] => default
             | (_, val) :: rest =>
                 match val with
                 | VDict _ =>
                     let found_val := get_val_rec val key VNone in
                     if is_None found_val then loop rest else found_val
                 | _ => loop rest
                 end
             end) input_dict
      end
  | _ => default
  end.

Definition _get_val (input_dict : dict) (key : string) (default : value) : value :=
  get_val_rec (VDict input_dict) key default.

(** The [for] loop of [_get_val] on its own, over the entries still to visit. *)
Fixpoint search_entries (entries : dict) (key : string) (default : value) : value :=
  match entries with
  | [] => default
  | (_, val) :: rest =>
      match val with
      | VDict sub =>
          let found_val := _get_val sub key VNone in
          if is_None found_val then search_entries rest key default else found_val
      | _ => search_entries rest key default
      end
  end.

(** Every value stored under [key] in [v], at any depth reached through
    nested mappings, in the order of a depth-first walk. *)
Fixpoint values_at (key : string) (v : value) {struct v} : list value :=
  match v with
  | VDict d =>
      (fix walk (entries : list (string * value)) : list value :=
         match entries with
         | [] => []
         | (k, val) :: rest =>
             (if String.eqb key k then [val] else [])
               ++ values_at key val ++ walk rest
         end) d
  | _ => []
  end.

(** [key] has an entry somewhere in the nested mapping [d]. *)
Definition occurs (key : string) (d : dict) : bool :=
  match values_at key (VDict d) with
  | [] => false
  | _ => true
  end.

(** No dictionary inside [v] holds a key twice. *)
Fixpoint wf_value (v : value) {struct v} : Prop :=
  match v with
  | VDict d =>
      NoDup (map fst d) /\
      (fix all (entries : list (string * value)) : Prop :=
         match entries with
         | [] => True
         | (_, val) :: rest => wf_value val /\ all rest
         end) d
  | VList l =>
      (fix all (items : list value) : Prop :=
         match items with
         | [] => True
         | val :: rest => wf_value val /\ all rest
         end) l
  | _ => True
  end.

(** Nesting depth of mappings: the number of nested [_get_val] calls that a
    search of [v] can need. *)
Fixpoint depth (v : value) {struct v} : nat :=
  match v with
  | VDict d =>
      S ((fix deepest (entries : list (string * value)) : nat :=
            match entries with
            | [] => 0
            | (_, val) :: rest => Nat.max (depth val) (deepest rest)
            end) d)
  | _ => 0
  end.

(** Induction on values that reaches the values inside lists and
    dictionaries. *)
Section ValueInduction.
Variable P : value -> Prop.
Hypothesis HNone : P VNone.
Hypothesis HBool : forall b, P (VBool b).
Hypothesis HInt : forall z, P (VInt z).
Hypothesis HStr : forall s, P (VStr s).
Hypothesis HList : forall l, Forall P l -> P (VList l).
Hypothesis HDict : forall d, Forall (fun e => P (snd e)) d -> P (VDict d).

Fixpoint value_nested_ind (v : value) : P v :=
  match v with
  | VNone => HNone
  | VBool b => HBool b
  | VInt z => HInt z
  | VStr s => HStr s
  | VList l =>
      HList l
        ((fix items (l : list value) : Forall P l :=
            match l with
            | [] => Forall_nil P
            | x :: l' => Forall_cons x (value_nested_ind x) (items l')
            end) l)
  | VDict d =>
      HDict d
        ((fix entries (d : list (string * value)) : Forall (fun e => P (snd e)) d :=
            match d with
            | [] => Forall_nil _
            | e :: d' =>
                Forall_cons (P := fun e => P (snd e)) e
                  (value_nested_ind (snd e)) (entries d')
            end) d)
  end.
End ValueInduction.

(** ** Strings *)

(** The line feed of ["\n"]. *)
Definition nl : string := String (ascii_of_nat 10) "".

(** [c.isspace()] for a code point below 256: tab to carriage return, the
    four separators 28 to 31, space, next line (133) and no-break space (160). *)
Definition isspace (c : ascii) : bool :=
  let n := nat_of_ascii c in
  (((9 <=? n) && (n <=? 13)) || ((28 <=? n) && (n <=? 32))
   || (n =? 133) || (n =? 160))%nat.

(** [c.lower()] for a code point below 256: A to Z, and the capital
    letters 192 to 222 of Latin-1 but for the multiplication sign 215. *)
Definition lower_char (c : ascii) : ascii :=
  let n := nat_of_ascii c in
  if (((65 <=? n) && (n <=? 90))
      || ((192 <=? n) && (n <=? 222) && negb (n =? 215)))%nat
  then ascii_of_nat (n + 32)
  else c.

(** [s.lower()] *)
Fixpoint lower (s : string) : string :=
  match s with
  | EmptyString => EmptyString
  | String c s' => String (lower_char c) (lower s')
  end.

(** [s.lstrip()] *)
Fixpoint lstrip (s : string) : string :=
  match s with
  | EmptyString => EmptyString
  | String c s' => if isspace c then lstrip s' else s
  end.

(** [s.rstrip()] *)
Fixpoint rstrip (s : string) : string :=
  match s with
  | EmptyString => EmptyString
  | String c s' =>
      match rstrip s' with
      | EmptyString => if isspace c then EmptyString else String c EmptyString
      | kept => String c kept
      end
  end.

(** [s.strip()] *)
Definition strip (s : string) : string := rstrip (lstrip s).

(** [s.startswith(p)] *)
Definition startswith (s p : string) : bool := String.prefix p s.

(** [s.endswith(suffix)] *)
Definition endswith (s suffix : string) : bool :=
  let n := String.length s in
  let m := String.length suffix in
  (m <=? n)%nat && String.eqb (String.substring (n - m) m s) suffix.

(** [os.path.join(a, b)] of [posixpath]. *)
Definition path_join (a b : string) : string :=
  if startswith b "/" then b
  else if String.eqb a "" || endswith a "/" then a ++ b
  else a ++ "/" ++ b.

(** [s.rsplit(".", 1)] when it has two parts: the text before and after the
    last dot; [None] when [s] has no dot and the split has one part. *)
Fixpoint rsplit_dot (s : string) : option (string * string) :=
  match s with
  | EmptyString => None
  | String c s' =>
      match rsplit_dot s' with
      | Some (front, back) => Some (String c front, back)
      | None => if Ascii.eqb c "."%char then Some (EmptyString, s') else None
      end
  end.

(** ** The descriptor table of [model_desc.py] *)

(** A descriptor: the dictionary with the keys of [RemoteMMARKeys]. The
    entries read with [item[...]] are fields; [hash_val] may hold [None],
    and [config_file], read with [item.get], may be missing. *)
Record ModelDescriptor : Type := {
  ID : string;
  NAME : string;
  URL : string;
  DOC : string;
  FILE_TYPE : string;
  HASH_TYPE : string;
  HASH_VAL : option string;
  MODEL_FILE : string;
  CONFIG_FILE : option string
}.

Definition ngc_models : string := "https://api.ngc.nvidia.com/v2/models/nvidia/".
Definition ngc_catalog : string := "https://ngc.nvidia.com/catalog/models/".

Definition MODEL_DESC : list ModelDescriptor := [
  {| ID := "clara_pt_prostate_mri_segmentation_1";
     NAME := "clara_pt_prostate_mri_segmentation";
     URL := ngc_models ++ "med/clara_pt_prostate_mri_segmentation/versions/1/zip";
     DOC := ngc_catalog ++ "nvidia:med:clara_pt_prostate_mri_segmentation";
     FILE_TYPE := "zip"; HASH_TYPE := "md5"; HASH_VAL := None;
     MODEL_FILE := path_join "models" "model.pt";
     CONFIG_FILE := None |};
  {| ID := "clara_pt_covid19_ct_lesion_segmentation_1";
     NAME := "clara_pt_covid19_ct_lesion_segmentation";
     URL := ngc_models ++ "med/clara_pt_covid19_ct_lesion_segmentation/versions/1/zip";
     DOC := ngc_catalog ++ "nvidia:med:clara_pt_covid19_ct_lesion_segmentation";
     FILE_TYPE := "zip"; HASH_TYPE := "md5"; HASH_VAL := None;
     MODEL_FILE := path_join "models" "model.pt";
     CONFIG_FILE := None |};
  {| ID := "clara_pt_fed_learning_brain_tumor_mri_segmentation_1";
     NAME := "clara_pt_fed_learning_brain_tumor_mri_segmentation";
     URL := ngc_models
            ++ "med/clara_pt_fed_learning_brain_tumor_mri_segmentation/versions/1/zip";
     DOC := ngc_catalog
            ++ "nvidia:med:clara_pt_fed_learning_brain_tumor_mri_segmentation";
     FILE_TYPE := "zip"; HASH_TYPE := "md5"; HASH_VAL := None;
     MODEL_FILE := path_join (path_join "models" "server") "best_FL_global_model.pt";
     CONFIG_FILE := None |};
  {| ID := "clara_pt_pathology_metastasis_detection_1";
     NAME := "clara_pt_pathology_metastasis_detection";
     URL := ngc_models ++ "med/clara_pt_pathology_metastasis_detection/versions/1/zip";
     DOC := ngc_catalog ++ "nvidia:med:clara_pt_pathology_metastasis_detection";
     FILE_TYPE := "zip"; HASH_TYPE := "md5"; HASH_VAL := None;
     MODEL_FILE := path_join "models" "model.pt";
     CONFIG_FILE := Some (path_join "config" "config_train.json") |};
  {| ID := "clara_pt_brain_mri_segmentation_1";
     NAME := "clara_pt_brain_mri_segmentation";
     URL := ngc_models ++ "med/clara_pt_brain_mri_segmentation/versions/1/zip";
     DOC := ngc_catalog ++ "nvidia:med:clara_pt_brain_mri_segmentation";
     FILE_TYPE := "zip"; HASH_TYPE := "md5"; HASH_VAL := None;
     MODEL_FILE := path_join "models" "model.pt";
     CONFIG_FILE := None |};
  {| ID := "clara_pt_brain_mri_segmentation_t1c_1";
     NAME := "clara_pt_brain_mri_segmentation_t1c";
     URL := ngc_models ++ "med/clara_pt_brain_mri_segmentation_t1c/versions/1/zip";
     DOC := ngc_catalog ++ "nvidia:med:clara_pt_brain_mri_segmentation_t1c";
     FILE_TYPE := "zip"; HASH_TYPE := "md5"; HASH_VAL := None;
     MODEL_FILE := path_join "models" "model.pt";
     CONFIG_FILE := None |};
  {| ID := "clara_pt_liver_and_tumor_ct_segmentation_1";
     NAME := "clara_pt_liver_and_tumor_ct_segmentation";
     URL := ngc_models ++ "med/clara_pt_liver_and_tumor_ct_segmentation/versions/1/zip";
     DOC := ngc_catalog ++ "nvidia:med:clara_pt_liver_and_tumor_ct_segmentation";
     FILE_TYPE := "zip"; HASH_TYPE := "md5"; HASH_VAL := None;
     MODEL_FILE := path_join "models" "model.pt";
     CONFIG_FILE := Some (path_join "config" "config_train.json") |};
  {| ID := "clara_pt_pancreas_and_tumor_ct_segmentation_1";
     NAME := "clara_pt_pancreas_and_tumor_ct_segmentation";
     URL := ngc_models ++ "med/clara_pt_pancreas_and_tumor_ct_segmentation/versions/1/zip";
     DOC := ngc_catalog ++ "nvidia:med:clara_pt_pancreas_and_tumor_ct_segmentation";
     FILE_TYPE := "zip"; HASH_TYPE := "md5"; HASH_VAL := None;
     MODEL_FILE := path_join "models" "model.pt";
     CONFIG_FILE := Some (path_join "config" "config_train.json") |}
].

(** [t[i]] on a tuple: a negative index counts from the end; [None] stands
    for [IndexError]. *)
Definition tuple_index {A : Type} (t : list A) (i : Z) : option A :=
  let n := Z.of_nat (List.length t) in
  let j := if (i <? 0)%Z then (i + n)%Z else i in
  if ((j <? 0) || (n <=? j))%Z then None else nth_error t (Z.to_nat j).

(** The [for cand in MODEL_DESC] loop of [_get_model_spec]: the first
    descriptor whose stripped, lower-cased id is [key]. *)
Fixpoint scan_ids (key : string) (table : list ModelDescriptor) : option ModelDescriptor :=
  match table with
  | [] => None
  | cand :: rest =>
      if String.eqb (lower (strip (ID cand))) key then Some cand
      else scan_ids key rest
  end.

(** ** Effects: errors, the event log and the external collaborators *)

(** What the caller passes as [item] where a descriptor is not given:
    an [int] (a [bool] counts as the integer it is), a [str], or an object
    of another type, kept with the text [str()] gives for it. *)
Inductive index : Type :=
| IdxInt (i : Z)
| IdxStr (s : string)
| IdxOther (shown : string).

(** The [item] argument of [download_mmar] and [load_from_mmar]. *)
Inductive item_arg : Type :=
| ItemDesc (d : ModelDescriptor)
| ItemIdx (idx : index).

(** The arguments of a call of [download_and_extract]. *)
Record download_request : Type := {
  dl_url : string;
  dl_filepath : string;
  dl_output_dir : string;
  dl_hash_val : option string;
  dl_hash_type : string;
  dl_file_type : string;
  dl_has_base : bool;
  dl_progress : bool
}.

(** The three places searched for the model configuration. *)
Inductive config_source : Type :=
| SrcTrainConf
| SrcConfigFile
| SrcModelDict.

Section Runtime.

(** Objects of the neural-network runtime (script modules, classes, model
    instances): opaque here. *)
Context {obj : Type}.

(** A formatted text: literal text and interpolated strings, and the
    objects an f-string renders with [repr]. *)
Inductive fragment : Type :=
| Lit (s : string)
| ReprTable (t : list ModelDescriptor)
| ReprValue (v : value)
| ReprObj (o : obj).

Definition text : Type := list fragment.

Inductive exn : Type :=
| ValueError (msg : text)
| IndexError
| KeyError (key : value)
| TypeError
| AttributeError
| ExternalError (what : string).

Inductive result (A : Type) : Type :=
| Ok (a : A)
| Raise (e : exn).
Arguments Ok {A} a.
Arguments Raise {A} e.

(** One entry of the log for each output and each call of a collaborator;
    [EvSearch] marks a call of [_get_val] made by [load_from_mmar]. *)
Inductive event : Type :=
| EvPrint (t : text)
| EvWarn (msg : string)
| EvDownload (r : download_request)
| EvJitLoad (path : string) (map_location : option string)
| EvTorchLoad (path : string) (map_location : option string)
| EvOpenJson (path : string)
| EvSearch (src : config_source)
| EvRegistry (name : value)
| EvImport (module name : string)
| EvConstruct (cls : obj) (kwargs : option dict)
| EvLoadStateDict (inst : obj) (weights : value).

(** The collaborators. [hub_get_dir] is [torch.hub.get_dir()], [None] when
    [optional_import] does not find it; [download_and_extract] returns the
    error it raises, if any; [torch_load] is [torch.load] on a file that
    holds a string-keyed dictionary; [read_json_dict] stands for
    [open], [json.load] and [dict(...)] on the configuration file;
    [nets_lookup] is [monai_nets.__dict__]; [import_class] is
    [optional_import(module=..., name=...)], [None] when it reports failure;
    [construct] calls a class, with keyword arguments or without;
    [load_state_dict] returns the error it raises, if any. *)
Record Env : Type := {
  hub_get_dir : option string;
  download_and_extract : download_request -> option exn;
  torch_jit_load : string -> option string -> result obj;
  torch_load : string -> option string -> result dict;
  read_json_dict : string -> result dict;
  nets_lookup : string -> option obj;
  import_class : string -> string -> option obj;
  construct : obj -> option dict -> result obj;
  load_state_dict : obj -> value -> option exn
}.

(** A computation: its outcome and the events it logged, in order. *)
Definition M (A : Type) : Type := (result A * list event)%type.

Definition ret {A : Type} (a : A) : M A := (Ok a, []).

Definition raise {A : Type} (e : exn) : M A := (Raise e, []).

Definition bind {A B : Type} (m : M A) (f : A -> M B) : M B :=
  match m with
  | (Ok a, log) => let (r, log') := f a in (r, log ++ log')
  | (Raise e, log) => (Raise e, log)
  end.

Definition emit (ev : event) : M unit := (Ok tt, [ev]).

Definition lift {A : Type} (r : result A) : M A := (r, []).

(** A collaborator that returns nothing: [None] is a normal return. *)
Definition lift_unit (r : option exn) : M unit :=
  match r with
  | None => ret tt
  | Some e => raise e
  end.

(** [when c m]: run [m] if [c] holds. *)
Definition when (c : bool) (m : M unit) : M unit := if c then m else ret tt.

Definition outcome {A : Type} (m : M A) : result A := fst m.
Definition log_of {A : Type} (m : M A) : list event := snd m.

End Runtime.

Arguments fragment : clear implicits.
Arguments text : clear implicits.
Arguments exn : clear implicits.
Arguments result : clear implicits.
Arguments event : clear implicits.
Arguments Env : clear implicits.
Arguments M : clear implicits.
Arguments Ok {obj A} a.
Arguments Raise {obj A} e.

Declare Scope mmar_scope.
Delimit Scope mmar_scope with mmar.
Notation "x <- m ;; k" := (bind m (fun x => k))
  (at level 61, m at next level, right associativity) : mmar_scope.
Notation "m ;; k" := (bind m (fun _ => k))
  (at level 61, right associativity) : mmar_scope.

Section Resolver.

Context {obj : Type}.
Variable env : Env obj.

Local Open Scope mmar_scope.

(** *** [_get_val] on an object of any type

    [load_from_mmar] passes whatever is stored under ["train_conf"]. On an
    object that is not a mapping, [key in input_dict], the iteration and
    the subscript behave as follows: [None], booleans and integers are
    not iterable; a string is subscripted with [key] or with its first
    character, which is a [TypeError], unless it is empty and [key] is
    not; a list is subscripted with [key] when it holds it, and else with
    each of its elements in turn, which have to be integers in range. *)

(** [l[x]] for a list [l] and an object [x]. *)
Definition list_subscript (l : list value) (x : value) : result obj value :=
  match x with
  | VInt i =>
      match tuple_index l i with Some v => Ok v | None => Raise IndexError end
  | VBool b =>
      match tuple_index l (if b then 1%Z else 0%Z) with
      | Some v => Ok v
      | None => Raise IndexError
      end
  | _ => Raise TypeError
  end.

(** The loop of [_get_val] over the elements [todo] of a list [l]. *)
Fixpoint search_list (l todo : list value) (key : string) (default : value)
  : result obj value :=
  match todo with
  | [] => Ok default
  | sub_dict :: rest =>
      match list_subscript l sub_dict with
      | Raise e => Raise e
      | Ok (VDict sub) =>
          let found_val := _get_val sub key VNone in
          if is_None found_val then search_list l rest key default else Ok found_val
      | Ok _ => search_list l rest key default
      end
  end.

Definition is_str (key : string) (v : value) : bool :=
  match v with
  | VStr s => String.eqb s key
  | _ => false
  end.

Definition _get_val_obj (input_dict : value) (key : string) (default : value)
  : result obj value :=
  match input_dict with
  | VDict d => Ok (_get_val d key default)
  | VNone | VBool _ | VInt _ => Raise TypeError
  | VStr s =>
      if String.eqb s "" && negb (String.eqb key "") then Ok default
      else Raise TypeError
  | VList l =>
      if existsb (is_str key) l then Raise TypeError
      else search_list l l key default
  end.

(** *** [_get_model_spec]
<<
def _get_model_spec(idx):
    if isinstance(idx, int):
        return MODEL_DESC[idx]
    if isinstance(idx, str):
        key = idx.strip().lower()
        for cand in MODEL_DESC:
            if cand[Keys.ID].strip().lower() == key:
                return cand
    print(f"Available specs are: {MODEL_DESC}.")
    raise ValueError(f"Unknown MODEL_DESC request: {idx}")
>> *)

(** The last two lines of [_get_model_spec]; [shown] is [str(idx)], which
    for a string is the string. *)
Definition unknown_request (shown : string) : M obj ModelDescriptor :=
  emit (EvPrint [Lit "Available specs are: "; ReprTable MODEL_DESC; Lit "."]) ;;
  raise (ValueError [Lit ("Unknown MODEL_DESC request: " ++ shown)]).

Definition _get_model_spec (idx : index) : M obj ModelDescriptor :=
  match idx with
  | IdxInt i =>
      match tuple_index MODEL_DESC i with
      | Some d => ret d
      | None => raise IndexError
      end
  | IdxStr s =>
      let key := lower (strip s) in
      match scan_ids key MODEL_DESC with
      | Some cand => ret cand
      | None => unknown_request s
      end
  | IdxOther shown => unknown_request shown
  end.

(** [if not isinstance(item, Mapping): item = _get_model_spec(item)] *)
Definition resolve_item (item : item_arg) : M obj ModelDescriptor :=
  match item with
  | ItemDesc d => ret d
  | ItemIdx idx => _get_model_spec idx
  end.

(** *** [download_mmar] *)

(** [not mmar_dir]: no directory, or the empty string. *)
Definition no_dir (mmar_dir : option string) : bool :=
  match mmar_dir with
  | None => true
  | Some d => String.eqb d ""
  end.

Definition download_mmar (item : item_arg) (mmar_dir : option string)
  (progress : bool) : M obj string :=
  item <- resolve_item item ;;
  mmar_dir <-
    (if no_dir mmar_dir then
       match hub_get_dir env with
       | Some home => ret (path_join home "mmars")
       | None =>
           raise (ValueError [Lit
             "mmar_dir=None, but no suitable default directory computed. Upgrade Pytorch to 1.6+ ?"])
       end
     else ret (match mmar_dir with Some d => d | None => "" end)) ;;
  let model_dir := path_join mmar_dir (ID item) in
  let request :=
    {| dl_url := URL item;
       dl_filepath := path_join mmar_dir (ID item ++ "." ++ FILE_TYPE item);
       dl_output_dir := model_dir;
       dl_hash_val := HASH_VAL item;
       dl_hash_type := HASH_TYPE item;
       dl_file_type := FILE_TYPE item;
       dl_has_base := false;
       dl_progress := progress |} in
  emit (EvDownload request) ;;
  lift_unit (download_and_extract env request) ;;
  ret model_dir.

(** *** [load_from_mmar] *)

(** What [load_from_mmar] returns: the script module of [torch.jit.load],
    the weights, or the model instance. *)
Inductive loaded : Type :=
| Script (module : obj)
| Weights (w : value)
| Model (inst : obj).

(** [model_dict.get(model_key, model_dict)] *)
Definition weights_of (model_dict : dict) (model_key : string) : value :=
  get_default model_key model_dict (VDict model_dict).

(** [item.get(Keys.CONFIG_FILE, "config_train.json")] *)
Definition config_file_or_default (item : ModelDescriptor) : string :=
  match CONFIG_FILE item with
  | Some c => c
  | None => "config_train.json"
  end.

(** [str(item.get(key))] for a key that may be missing. *)
Definition show_opt (o : option string) : string :=
  match o with
  | Some s => s
  | None => "None"
  end.

(** Lines 143 to 154: the three searches for the model configuration. *)
Definition find_model_config (item : ModelDescriptor) (model_dir : string)
  (model_dict : dict) (model_key : string) : M obj value :=
  (* 1. search model_dict["train_conf"] *)
  emit (EvSearch SrcTrainConf) ;;
  model_config <-
    lift (_get_val_obj (get_default "train_conf" model_dict (VDict []))
            model_key (VDict [])) ;;
  model_config <-
    (if negb (truthy model_config) then
       (* 2. search the json CONFIG_FILE *)
       let json_path := path_join model_dir (config_file_or_default item) in
       emit (EvOpenJson json_path) ;;
       conf_dict <- lift (read_json_dict env json_path) ;;
       emit (EvSearch SrcConfigFile) ;;
       ret (_get_val conf_dict model_key (VDict []))
     else ret model_config) ;;
  (if negb (truthy model_config) then
     (* 3. search model_dict *)
     emit (EvSearch SrcModelDict) ;;
     ret (_get_val model_dict model_key (VDict []))
   else ret model_config).

(** The message of the error raised at lines 157 to 160. *)
Definition config_error (item : ModelDescriptor) : exn obj :=
  ValueError [Lit ("Could not load model config dictionary from config: "
                   ++ show_opt (CONFIG_FILE item)
                   ++ ", or from model file: "
                   ++ show_opt (Some (MODEL_FILE item)) ++ ".")].

(** Lines 156 to 160: the configuration has to be a non-empty mapping. *)
Definition check_model_config (item : ModelDescriptor) (model_config : value)
  : M obj dict :=
  match model_config with
  | VDict cfg => if truthy model_config then ret cfg else raise (config_error item)
  | _ => raise (config_error item)
  end.

(** [monai_nets.__dict__[model_name]]: a list or a dictionary is not
    hashable, any other object that is not a known name is a [KeyError]. *)
Definition registry_class (model_name : value) : M obj obj :=
  emit (EvRegistry model_name) ;;
  match model_name with
  | VStr s =>
      match nets_lookup env s with
      | Some cls => ret cls
      | None => raise (KeyError model_name)
      end
  | VList _ | VDict _ => raise TypeError
  | _ => raise (KeyError model_name)
  end.

(** Lines 168 to 175: the class named by a dotted path. *)
Definition path_class (model_dir : string) (path : value) : M obj obj :=
  match path with
  | VStr s =>
      match rsplit_dot s with
      | None => raise (ValueError [Lit "not enough values to unpack (expected 2, got 1)"])
      | Some (model_module, model_name) =>
          emit (EvImport model_module model_name) ;;
          match import_class env model_module model_name with
          | Some cls => ret cls
          | None =>
              raise (ValueError [Lit
                ("Could not load MMAR model config " ++ s
                 ++ ", Please make sure MMAR's sub-folders in '" ++ model_dir
                 ++ "' is on the PYTHONPATH."
                 ++ "See also: https://docs.nvidia.com/clara/clara-train-sdk/pt/byom.html")])
          end
      end
  | _ => raise AttributeError
  end.

(** Lines 162 to 177: the model class of the configuration. *)
Definition resolve_model_class (model_dir : string) (model_config : dict) : M obj obj :=
  if truthy (get_default "name" model_config VNone) then
    registry_class (get_default "name" model_config VNone)
  else if truthy (get_default "path" model_config VNone) then
    path_class model_dir (get_default "path" model_config VNone)
  else
    raise (ValueError [Lit "Could not load model config ";
                       ReprValue (VDict model_config); Lit "."]).

(** Lines 179 to 190: instantiate the class and load the weights. *)
Definition build_model (item : ModelDescriptor) (model_dict : dict)
  (model_key : string) (pretrained : bool) (model_config : dict) (model_cls : obj)
  : M obj loaded :=
  emit (EvPrint [Lit "*** Model: "; ReprObj model_cls]) ;;
  let model_kwargs := get_default "args" model_config VNone in
  model_inst <-
    (if truthy model_kwargs then
       match model_kwargs with
       | VDict kwargs =>
           emit (EvConstruct model_cls (Some kwargs)) ;;
           inst <- lift (construct env model_cls (Some kwargs)) ;;
           emit (EvPrint [Lit "*** Model params: "; ReprValue model_kwargs]) ;;
           ret inst
       | _ => raise TypeError
       end
     else
       emit (EvConstruct model_cls None) ;;
       lift (construct env model_cls None)) ;;
  when pretrained
    (emit (EvLoadStateDict model_inst (weights_of model_dict model_key)) ;;
     lift_unit (load_state_dict env model_inst (weights_of model_dict model_key))) ;;
  emit (EvPrint [Lit (nl ++ "---")]) ;;
  emit (EvPrint [Lit ("For more information, please visit " ++ DOC item ++ nl)]) ;;
  ret (Model model_inst).

(** Lines 143 to 190: from the weights dictionary to the model. *)
Definition model_from_config (item : ModelDescriptor) (model_dir : string)
  (model_dict : dict) (model_key : string) (pretrained : bool) : M obj loaded :=
  model_config <- find_model_config item model_dir model_dict model_key ;;
  model_config <- check_model_config item model_config ;;
  model_cls <- resolve_model_class model_dir model_config ;;
  build_model item model_dict model_key pretrained model_config model_cls.

(** Line 128: the notice that names the id, in double quotes, and the
    directory of the archive. *)
Definition available_notice (item : ModelDescriptor) (model_dir : string) : event obj :=
  EvPrint [Lit (nl ++ "*** " ++ String (ascii_of_nat 34) (ID item)
                ++ String (ascii_of_nat 34) " available at "
                ++ model_dir ++ ".")].

Definition load_from_mmar (item : item_arg) (mmar_dir : option string)
  (progress : bool) (map_location : option string)
  (pretrained weights_only : bool) (model_key : string) : M obj loaded :=
  item <- resolve_item item ;;
  model_dir <- download_mmar (ItemDesc item) mmar_dir progress ;;
  let model_file := path_join model_dir (MODEL_FILE item) in
  emit (available_notice item model_dir) ;;
  if endswith model_file ".ts" then
    (* loading with torch.jit.load *)
    when (negb pretrained)
      (emit (EvWarn "Loading a ScriptModule, 'pretrained' option ignored.")) ;;
    when weights_only
      (emit (EvWarn "Loading a ScriptModule, 'weights_only' option ignored.")) ;;
    emit (EvJitLoad model_file map_location) ;;
    module <- lift (torch_jit_load env model_file map_location) ;;
    ret (Script module)
  else
    (* loading with torch.load *)
    emit (EvTorchLoad model_file map_location) ;;
    model_dict <- lift (torch_load env model_file map_location) ;;
    if weights_only then ret (Weights (weights_of model_dict model_key))
    else model_from_config item model_dir model_dict model_key pretrained.

End Resolver.

(** ** The search on an object graph

    A Python mapping holds references: a nested mapping is an object of the
    heap, and a mapping can be reached from itself. Here the mappings live
    in a store and a value refers to a nested mapping by its location. The
    search is transcribed with its recursion depth bounded by [fuel]:
    [None] means that [fuel] nested calls did not suffice. *)

Module ObjectGraph.

Definition loc : Type := nat.

Inductive ref_value : Type :=
| RNone
| RBool (b : bool)
| RInt (z : Z)
| RStr (s : string)
| ROther
| RMap (l : loc).

(** A mapping object: its entries in insertion order. *)
Definition mapping : Type := list (string * ref_value).

(** The store: the mapping objects, by location. It is finite. *)
Definition store : Type := list mapping.

Fixpoint getitem_ref (key : string) (m : mapping) : option ref_value :=
  match m with
  | [] => None
  | (k, v) :: m' => if String.eqb key k then Some v else getitem_ref key m'
  end.

Definition is_None_ref (v : ref_value) : bool :=
  match v with
  | RNone => true
  | _ => false
  end.

(** [_get_val] with the nested calls counted: the loop visits the keys of
    [input_dict] and reads [input_dict[sub_dict]]; a value is a mapping when
    it refers to an object of the store. *)
Fixpoint _get_val_ref (fuel : nat) (st : store) (input_dict : mapping)
  (key : string) (default : ref_value) {struct fuel} : option ref_value :=
  match fuel with
  | O => None
  | S fuel' =>
      match getitem_ref key input_dict with
      | Some hit => Some hit
      | None =>
          (fix loop (keys : list string) : option ref_value :=
             match keys with
             | [] => Some default
             | sub_dict :: rest =>
                 match getitem_ref sub_dict input_dict with
                 | Some (RMap l) =>
                     match nth_error st l with
                     | Some val =>
                         match _get_val_ref fuel' st val key RNone with
                         | None => None
                         | Some found_val =>
                             if is_None_ref found_val then loop rest else Some found_val
                         end
                     | None => loop rest
                     end
                 | _ => loop rest
                 end
             end) (map fst input_dict)
      end
  end.

(** The [for] loop of [_get_val_ref] on its own, over the keys still to
    visit; [nested] is the nested call. *)
Fixpoint search_keys (nested : mapping -> option ref_value) (st : store)
  (input_dict : mapping) (keys : list string) (default : ref_value)
  : option ref_value :=
  match keys with
  | [] => Some default
  | sub_dict :: rest =>
      match getitem_ref sub_dict input_dict with
      | Some (RMap l) =>
          match nth_error st l with
          | Some val =>
              match nested val with
              | None => None
              | Some found_val =>
                  if is_None_ref found_val
                  then search_keys nested st input_dict rest default
                  else Some found_val
              end
          | None => search_keys nested st input_dict rest default
          end
      | _ => search_keys nested st input_dict rest default
      end
  end.

(** A mapping that holds itself under ["self"], and nothing else. *)
Definition self_nested : store := [[("self", RMap 0)]].

(** The store of [{"a": {"b": {"model": 1}}, "c": {"model": 2}}], the outer
    mapping at location 0. *)
Definition nested_store : store :=
  [ [("a", RMap 1); ("c", RMap 3)];
    [("b", RMap 2)];
    [("model", RInt 1)];
    [("model", RInt 2)] ].

(** [edge st l l']: the mapping at [l] has an entry that refers to the
    mapping at [l']. *)
Definition edge (st : store) (l l' : loc) : Prop :=
  exists m k m', nth_error st l = Some m /\ In (k, RMap l') m
                 /\ nth_error st l' = Some m'.

(** [path st l l']: [l'] is reached from [l] in one step or more. *)
Inductive path (st : store) : loc -> loc -> Prop :=
| path_step l l' : edge st l l' -> path st l l'
| path_more l l' l'' : edge st l l' -> path st l' l'' -> path st l l''.

(** No mapping of the store is nested in itself. *)
Definition acyclic (st : store) : Prop := forall l, ~ path st l l.

(** The locations reached from [l] in any number of steps, [l] included:
    the sub-mappings of the mapping at [l]. *)
Definition within (st : store) (l l' : loc) : Prop := l = l' \/ path st l l'.

(** How a store represents the nested value of the tree model: scalars by
    themselves, a list by [ROther], a dictionary by a location whose
    mapping represents it entry by entry. *)
Fixpoint represents (st : store) (r : ref_value) (v : value) {struct v} : Prop :=
  match v with
  | VNone => r = RNone
  | VBool b => r = RBool b
  | VInt z => r = RInt z
  | VStr s => r = RStr s
  | VList _ => r = ROther
  | VDict d =>
      exists l m, r = RMap l /\ nth_error st l = Some m /\
        (fix entries (d : list (string * value)) (m : mapping) {struct d} : Prop :=
           match d, m with
           | [], [] => True
           | (k', v') :: d', (k, r') :: m' =>
               k = k' /\ represents st r' v' /\ entries d' m'
           | _, _ => False
           end) d m
  end.

(** A mapping of the store represents a dictionary, entry by entry. *)
Fixpoint represents_entries (st : store) (d : dict) (m : mapping) : Prop :=
  match d, m with
  | [], [] => True
  | (k', v') :: d', (k, r') :: m' =>
      k = k' /\ represents st r' v' /\ represents_entries st d' m'
  | _, _ => False
  end.

End ObjectGraph.

(** ** Matching an id up to letter case and surrounding whitespace *)

(** Every character of [s] is whitespace. *)
Fixpoint all_space (s : string) : bool :=
  match s with
  | EmptyString => true
  | String c s' => isspace c && all_space s'
  end.

(** [s] is [id] written in any letter case, with whitespace before and
    after it. *)
Definition matches_id (s id : string) : Prop :=
  exists pre core post,
    s = (pre ++ core ++ post)%string
    /\ all_space pre = true /\ all_space post = true
    /\ lower core = lower id.

(** The comparison key of [_get_model_spec]. *)
Definition normalized (s : string) : string := lower (strip s).

(** ** Reading the event log *)

Section LogViews.

Context {obj : Type}.

(** The events of the search for the configuration: a call of [_get_val]
    on one of the three sources, or the opening of the configuration file. *)
Definition is_consultation (ev : event obj) : bool :=
  match ev with
  | EvSearch _ | EvOpenJson _ => true
  | _ => false
  end.

Definition consultations (log : list (event obj)) : list (event obj) :=
  filter is_consultation log.

(** The events of the class resolution and of the instantiation. *)
Definition is_build (ev : event obj) : bool :=
  match ev with
  | EvRegistry _ | EvImport _ _ | EvConstruct _ _ | EvLoadStateDict _ _ => true
  | _ => false
  end.

(** The events that come after the deserialization of the weights. *)
Definition after_loading (ev : event obj) : bool :=
  is_consultation ev || is_build ev.

(** The events of the descriptor resolution and of the download. *)
Definition is_setup (ev : event obj) : bool :=
  match ev with
  | EvPrint _ | EvDownload _ => true
  | _ => false
  end.

Definition is_warning (ev : event obj) : bool :=
  match ev with
  | EvWarn _ => true
  | _ => false
  end.

(** The environment [env] with another configuration file reader. *)
Definition with_read_json (env : Env obj) (reader : string -> result obj dict)
  : Env obj :=
  {| hub_get_dir := hub_get_dir env;
     download_and_extract := download_and_extract env;
     torch_jit_load := torch_jit_load env;
     torch_load := torch_load env;
     read_json_dict := reader;
     nets_lookup := nets_lookup env;
     import_class := import_class env;
     construct := construct env;
     load_state_dict := load_state_dict env |}.

(** [log] is an initial part of [full]. *)
Definition is_prefix (log full : list (event obj)) : Prop :=
  exists rest, full = log ++ rest.

End LogViews.

(** ** Sample environments

    Runtime objects are named by strings here. *)

(** An archive whose weights file embeds the training configuration; its
    configuration file cannot be read. *)
Definition env_embedded_conf : Env string :=
  {| hub_get_dir := Some "/home/user/.cache/torch/hub";
     download_and_extract := fun _ => None;
     torch_jit_load := fun path _ => Ok ("ScriptModule:" ++ path)%string;
     torch_load := fun _ _ =>
       Ok [("train_conf",
            VDict [("epochs", VInt 100);
                   ("train",
                    VDict [("model",
                            VDict [("name", VStr "UNet");
                                   ("args", VDict [("dimensions", VInt 3)])])])]);
           ("model", VDict [("conv.weight", VList [VInt 1; VInt 2])])];
     read_json_dict := fun _ => Raise (ExternalError "config file read");
     nets_lookup := fun name => if String.eqb name "UNet" then Some "UNet" else None;
     import_class := fun _ _ => None;
     construct := fun cls _ => Ok (cls ++ "()")%string;
     load_state_dict := fun _ _ => None |}.

(** An archive that holds a configuration nowhere: the weights file is a
    bare state dictionary and the configuration file has no model entry. *)
Definition env_no_conf : Env string :=
  {| hub_get_dir := None;
     download_and_extract := fun _ => None;
     torch_jit_load := fun path _ => Ok ("ScriptModule:" ++ path)%string;
     torch_load := fun _ _ => Ok [("conv.weight", VList [VInt 1; VInt 2])];
     read_json_dict := fun _ => Ok [("epochs", VInt 100)];
     nets_lookup := fun _ => None;
     import_class := fun _ _ => None;
     construct := fun cls _ => Ok (cls ++ "()")%string;
     load_state_dict := fun _ _ => None |}.

(** A descriptor whose model file is a script module. *)
Definition script_descriptor : ModelDescriptor :=
  {| ID := "traced_model_1";
     NAME := "traced_model";
     URL := "https://example.org/traced_model/versions/1/zip";
     DOC := "https://example.org/traced_model";
     FILE_TYPE := "zip"; HASH_TYPE := "md5"; HASH_VAL := None;
     MODEL_FILE := path_join "models" "model.ts";
     CONFIG_FILE := None |}.

(** ** More views of the log and of strings *)

Section LoaderViews.

Context {obj : Type}.

(** The calls of the two deserializers. *)
Definition is_loader (ev : event obj) : bool :=
  match ev with
  | EvJitLoad _ _ | EvTorchLoad _ _ => true
  | _ => false
  end.

Definition is_load_state (ev : event obj) : bool :=
  match ev with
  | EvLoadStateDict _ _ => true
  | _ => false
  end.

Definition is_import (ev : event obj) : bool :=
  match ev with
  | EvImport _ _ => true
  | _ => false
  end.

Definition is_download (ev : event obj) : bool :=
  match ev with
  | EvDownload _ => true
  | _ => false
  end.

(** The request that [download_mmar] hands to [download_and_extract] for
    the descriptor [item] under the directory [base]. *)
Definition request_for (item : ModelDescriptor) (base : string) (progress : bool)
  : download_request :=
  {| dl_url := URL item;
     dl_filepath := path_join base (ID item ++ "." ++ FILE_TYPE item);
     dl_output_dir := path_join base (ID item);
     dl_hash_val := HASH_VAL item;
     dl_hash_type := HASH_TYPE item;
     dl_file_type := FILE_TYPE item;
     dl_has_base := false;
     dl_progress := progress |}.

(** The directory under which [download_mmar] stores the archives: the one
    given, or [mmars] under the directory of [torch.hub]; [None] when there
    is neither. *)
Definition base_dir (env : Env obj) (mmar_dir : option string) : option string :=
  if no_dir mmar_dir then
    match hub_get_dir env with
    | Some home => Some (path_join home "mmars")
    | None => None
    end
  else mmar_dir.

End LoaderViews.

(** The keyword arguments that [build_model] passes to the class: the
    ["args"] entry when it is a non-empty mapping, none when the entry is
    missing or has no truth value. *)
Definition kwargs_of (model_config : dict) : option dict :=
  match get_default "args" model_config VNone with
  | VDict (e :: kwargs) => Some (e :: kwargs)
  | _ => None
  end.

(** An archive given by what its weights file and its configuration file
    deserialize to; the registry knows [UNet] and the importer knows
    [custom.nets.MyNet]. *)
Definition env_with_archive (model_dict : dict) (config : result string dict)
  : Env string :=
  {| hub_get_dir := Some "/home/user/.cache/torch/hub";
     download_and_extract := fun _ => None;
     torch_jit_load := fun path _ => Ok ("ScriptModule:" ++ path)%string;
     torch_load := fun _ _ => Ok model_dict;
     read_json_dict := fun _ => config;
     nets_lookup := fun name => if String.eqb name "UNet" then Some "UNet" else None;
     import_class := fun module name =>
       if String.eqb module "custom.nets" && String.eqb name "MyNet"
       then Some "custom.nets.MyNet" else None;
     construct := fun cls _ => Ok (cls ++ "()")%string;
     load_state_dict := fun _ _ => None |}.

(** [s] holds no dot. *)
Fixpoint no_dot (s : string) : bool :=
  match s with
  | EmptyString => true
  | String c s' => negb (Ascii.eqb c "."%char) && no_dot s'
  end.

(** No value under the keys [keys] of the mapping [m] refers to a mapping
    of the store [st]. *)
Definition no_nested_mapping (st : ObjectGraph.store) (m : ObjectGraph.mapping)
  (keys : list string) : Prop :=
  forall k l, In k keys -> ObjectGraph.getitem_ref k m = Some (ObjectGraph.RMap l) ->
              nth_error st l = None.

(** * Properties *)

(** ** Dictionaries *)

Lemma contains_getitem (key : string) (d : dict) :
  contains key d = match getitem key d with Some _ => true | None => false end.
Proof.
  induction d as [|[k v] d IH]; simpl; [reflexivity|].
  destruct (String.eqb key k); [reflexivity | exact IH].
Qed.

(** In a dictionary without repeated keys, reading the key of an entry gives
    the value of that entry: the loop of [_get_val] may walk the entries. *)
Lemma getitem_entry (d : dict) (k : string) (v : value) :
  NoDup (map fst d) -> In (k, v) d -> getitem k d = Some v.
Proof.
  induction d as [|[k0 v0] d IH]; simpl; intros Hnd Hin; [contradiction|].
  inversion Hnd as [|? ? Hnotin Hnd']; subst.
  destruct Hin as [Heq | Hin].
  - inversion Heq; subst. rewrite String.eqb_refl. reflexivity.
  - destruct (String.eqb_spec k k0) as [->|Hne].
    + exfalso. apply Hnotin. change k0 with (fst (k0, v)). apply in_map. exact Hin.
    + apply IH; assumption.
Qed.

Lemma getitem_some_in (key : string) (d : dict) (v : value) :
  getitem key d = Some v -> In (key, v) d.
Proof.
  induction d as [|[k0 v0] d IH]; simpl; [discriminate|].
  destruct (String.eqb_spec key k0) as [->|Hne]; intros H.
  - inversion H; subst. left. reflexivity.
  - right. apply IH. exact H.
Qed.

Lemma is_None_true (v : value) : is_None v = true <-> v = VNone.
Proof. destruct v; simpl; split; intros H; try reflexivity; try discriminate. Qed.

Lemma is_None_false (v : value) : is_None v = false <-> v <> VNone.
Proof.
  destruct v; simpl; split; intros H; try reflexivity; try discriminate;
    try congruence.
Qed.

(** ** The nested search *)

Lemma _get_val_unfold (input_dict : dict) (key : string) (default : value) :
  _get_val input_dict key default =
  match getitem key input_dict with
  | Some hit => hit
  | None => search_entries input_dict key default
  end.
Proof.
  unfold _get_val at 1. simpl.
  destruct (getitem key input_dict) as [hit|]; [reflexivity|].
  induction input_dict as [|[k val] rest IH]; simpl; [reflexivity|].
  destruct val; try exact IH.
  fold (_get_val d key VNone).
  destruct (is_None (_get_val d key VNone)); [exact IH | reflexivity].
Qed.

Lemma values_at_cons (key k : string) (val : value) (rest : dict) :
  values_at key (VDict ((k, val) :: rest)) =
  (if String.eqb key k then [val] else [])
    ++ values_at key val ++ values_at key (VDict rest).
Proof. reflexivity. Qed.

Lemma values_at_leaf (key : string) (v : value) :
  is_mapping v = false -> values_at key v = [].
Proof. destruct v; simpl; intros H; try reflexivity. discriminate. Qed.

Lemma getitem_in_values (key : string) (d : dict) (v : value) :
  getitem key d = Some v -> In v (values_at key (VDict d)).
Proof.
  induction d as [|[k0 v0] d IH]; [discriminate|].
  rewrite values_at_cons. simpl getitem.
  destruct (String.eqb key k0); intros H.
  - inversion H; subst. left. reflexivity.
  - simpl. apply in_or_app. right. apply IH. exact H.
Qed.

Lemma values_at_nil_getitem (key : string) (d : dict) :
  values_at key (VDict d) = [] -> getitem key d = None.
Proof.
  induction d as [|[k0 v0] d IH]; [reflexivity|].
  rewrite values_at_cons. simpl getitem.
  destruct (String.eqb key k0); simpl; [discriminate|].
  intros H. apply app_eq_nil in H. apply IH. exact (proj2 H).
Qed.

(** A search of a mapping that holds the key nowhere returns the default. *)
Lemma search_without_occurrence (key : string) (v : value) :
  forall default, values_at key v = [] -> get_val_rec v key default = default.
Proof.
  induction v as [| | | | l _ | d IH] using value_nested_ind;
    intros default Hnil; try reflexivity.
  change (_get_val d key default = default).
  rewrite _get_val_unfold, (values_at_nil_getitem _ _ Hnil).
  induction d as [|[k val] rest IHd]; simpl; [reflexivity|].
  rewrite values_at_cons in Hnil.
  apply app_eq_nil in Hnil. destruct Hnil as [_ Hnil].
  apply app_eq_nil in Hnil. destruct Hnil as [Hval Hrest].
  inversion IH as [|? ? IHval IHrest]; subst.
  specialize (IHd IHrest Hrest).
  destruct val; try exact IHd.
  cbn [snd] in IHval. specialize (IHval VNone Hval).
  change (get_val_rec (VDict d) key VNone) with (_get_val d key VNone) in IHval.
  rewrite IHval. simpl. exact IHd.
Qed.

(** What a search returns is the default or a value stored under the key. *)
Lemma search_sound (key : string) (v : value) :
  forall default,
    get_val_rec v key default = default
    \/ In (get_val_rec v key default) (values_at key v).
Proof.
  induction v as [| | | | l _ | d IH] using value_nested_ind;
    intros default; try (left; reflexivity).
  change (get_val_rec (VDict d) key default) with (_get_val d key default).
  rewrite _get_val_unfold.
  destruct (getitem key d) as [hit|] eqn:Hget.
  - right. apply getitem_in_values. exact Hget.
  - clear Hget.
    induction d as [|[k val] rest IHd]; simpl search_entries; [left; reflexivity|].
    inversion IH as [|? ? IHval IHrest]; subst.
    specialize (IHd IHrest).
    assert (Hweak : search_entries rest key default = default \/
                    In (search_entries rest key default)
                       (values_at key (VDict ((k, val) :: rest)))).
    { destruct IHd as [E|I]; [left; exact E|right].
      rewrite values_at_cons. apply in_or_app. right. apply in_or_app. right. exact I. }
    destruct val; try exact Hweak.
    destruct (is_None (_get_val d key VNone)) eqn:Hn; [exact Hweak|].
    right. apply is_None_false in Hn.
    cbn [snd] in IHval. destruct (IHval VNone) as [E|I].
    + exfalso. apply Hn. exact E.
    + rewrite values_at_cons. apply in_or_app. right. apply in_or_app. left. exact I.
Qed.

Lemma search_entries_skip (key k : string) (val : value) (rest : dict) (default : value) :
  values_at key val = [] ->
  search_entries ((k, val) :: rest) key default = search_entries rest key default.
Proof.
  intros Hnil. destruct val; try reflexivity.
  simpl search_entries.
  pose proof (search_without_occurrence key (VDict d) VNone Hnil) as Hnone.
  change (get_val_rec (VDict d) key VNone) with (_get_val d key VNone) in Hnone.
  rewrite Hnone. reflexivity.
Qed.

(** When no value stored under the key is [None], a search of a mapping
    that holds the key returns one of the stored values. *)
Lemma search_complete (key : string) (v : value) :
  forall default,
    (forall x, In x (values_at key v) -> x <> VNone) ->
    values_at key v <> [] ->
    In (get_val_rec v key default) (values_at key v).
Proof.
  induction v as [| | | | l _ | d IH] using value_nested_ind;
    intros default Hnn Hocc; try (exfalso; apply Hocc; reflexivity).
  change (get_val_rec (VDict d) key default) with (_get_val d key default).
  rewrite _get_val_unfold.
  destruct (getitem key d) as [hit|] eqn:Hget.
  - apply getitem_in_values. exact Hget.
  - induction d as [|[k val] rest IHd]; [exfalso; apply Hocc; reflexivity|].
    inversion IH as [|? ? IHval IHrest]; subst. cbn [snd] in IHval.
    simpl getitem in Hget. rewrite values_at_cons in Hnn, Hocc |- *.
    destruct (String.eqb key k); [discriminate|].
    change (([] : list value) ++ ?x) with x in *.
    cbn [app] in Hnn, Hocc |- *.
    destruct (values_at key val) as [|x xs] eqn:Hsub.
    + rewrite (search_entries_skip key k val rest default Hsub).
      cbn [app] in Hnn, Hocc |- *. apply IHd; assumption.
    + destruct val; try discriminate Hsub.
      simpl search_entries.
      assert (Hin : In (_get_val d key VNone) (x :: xs)).
      { apply IHval.
        - intros y Hy. apply Hnn. apply in_or_app. left. exact Hy.
        - discriminate. }
      assert (Hn : is_None (_get_val d key VNone) = false).
      { apply is_None_false. apply Hnn. apply in_or_app. left. exact Hin. }
      rewrite Hn. apply in_or_app. left. exact Hin.
Qed.

(** Entries whose nested searches all come back with [None] are passed over. *)
Lemma search_entries_pass (pre rest : dict) (key : string) (default : value) :
  (forall n s, In (n, VDict s) pre -> _get_val s key VNone = VNone) ->
  search_entries (pre ++ rest) key default = search_entries rest key default.
Proof.
  induction pre as [|[k val] pre IH]; intros Hpre; [reflexivity|].
  simpl app. simpl search_entries.
  assert (Hrest : search_entries (pre ++ rest) key default
                  = search_entries rest key default).
  { apply IH. intros n s Hin. apply (Hpre n s). right. exact Hin. }
  destruct val; try exact Hrest.
  rewrite (Hpre k d (or_introl eq_refl)). simpl. exact Hrest.
Qed.

Lemma ObjectGraph_direct_hit (st : ObjectGraph.store) (m : ObjectGraph.mapping)
  (key : string) (hit default : ObjectGraph.ref_value) :
  ObjectGraph.getitem_ref key m = Some hit ->
  ObjectGraph._get_val_ref 1 st m key default = Some hit.
Proof. intros H. simpl. rewrite H. reflexivity. Qed.

(** C2. A key that is a direct entry of the mapping is answered with that
    entry, whatever the nested mappings hold: on the object graph a single
    call, with no nested call, suffices (even when the store has cycles).
    Searching [{"a": {"b": {"model": 1}}, "model": 2}] for ["model"]
    returns 2. *)
Theorem direct_entry_wins :
  (forall (m : dict) (key : string) (hit default : value),
      getitem key m = Some hit -> _get_val m key default = hit)
  /\ (forall (st : ObjectGraph.store) (m : ObjectGraph.mapping) (key : string)
             (hit default : ObjectGraph.ref_value),
         ObjectGraph.getitem_ref key m = Some hit ->
         ObjectGraph._get_val_ref 1 st m key default = Some hit)
  /\ _get_val [("a", VDict [("b", VDict [("model", VInt 1)])]); ("model", VInt 2)]
       "model" VNone = VInt 2.
Proof.
  split; [|split].
  - intros m key hit default H. rewrite _get_val_unfold, H. reflexivity.
  - exact ObjectGraph_direct_hit.
  - reflexivity.
Qed.

Lemma direct_entry_wins_witness :
  getitem "model" [("a", VDict [("model", VInt 1)]); ("model", VStr "hit")]
  = Some (VStr "hit")
  /\ _get_val [("a", VDict [("model", VInt 1)]); ("model", VStr "hit")]
       "model" (VInt 0) = VStr "hit".
Proof.
  split; [reflexivity|].
  apply (proj1 direct_entry_wins). reflexivity.
Defined.

(** C3 as the specification states it fails: in
    [{"a": {"model": None}, "b": {"model": 2}}] the key is no direct entry
    and the first sibling holds it, so the search of the first sibling
    finds an entry; the result is nevertheless the 2 of the second
    sibling. *)
Lemma sibling_holding_null_is_passed_over :
  getitem "model" [("a", VDict [("model", VNone)]); ("b", VDict [("model", VInt 2)])]
  = None
  /\ getitem "model" [("model", VNone)] = Some VNone
  /\ _get_val [("a", VDict [("model", VNone)]); ("b", VDict [("model", VInt 2)])]
       "model" VNone = VInt 2
  /\ _get_val [("a", VDict [("model", VNone)]); ("b", VDict [("model", VInt 2)])]
       "model" VNone <> VNone.
Proof. repeat split. discriminate. Qed.

(** C3, amended. When the key is not a direct entry, the entries are tried
    in insertion order; each mapping-valued entry is searched to its full
    depth before the next sibling is looked at, and the first nested search
    that does not come back with [None] gives the result (a sibling whose
    nested search comes back with [None] is passed over); if there is none
    the default is returned. Searching
    [{"a": {"model": 1}, "b": {"model": 2}}] for ["model"] returns 1, and a
    deep hit in an earlier sibling wins over a shallow hit in a later one. *)
Theorem first_sibling_in_order_wins :
  (forall (m : dict) (key : string) (default : value),
      getitem key m = None ->
      (forall pre name sub post found,
          m = pre ++ (name, VDict sub) :: post ->
          (forall n s, In (n, VDict s) pre -> _get_val s key VNone = VNone) ->
          _get_val sub key VNone = found ->
          found <> VNone ->
          _get_val m key default = found)
      /\ ((forall n s, In (n, VDict s) m -> _get_val s key VNone = VNone) ->
          _get_val m key default = default))
  /\ _get_val [("a", VDict [("model", VInt 1)]); ("b", VDict [("model", VInt 2)])]
       "model" VNone = VInt 1
  /\ _get_val [("a", VDict [("x", VDict [("y", VDict [("model", VInt 1)])])]);
               ("b", VDict [("model", VInt 2)])]
       "model" VNone = VInt 1.
Proof.
  split; [|split; reflexivity].
  intros m key default Hdirect. split.
  - intros pre name sub post found Hm Hpre Hsub Hfound.
    rewrite _get_val_unfold, Hdirect, Hm.
    rewrite (search_entries_pass pre _ key default Hpre).
    simpl. rewrite Hsub.
    apply is_None_false in Hfound. rewrite Hfound. reflexivity.
  - intros Hall.
    rewrite _get_val_unfold, Hdirect.
    rewrite <- (app_nil_r m) at 1.
    rewrite (search_entries_pass m [] key default Hall). reflexivity.
Qed.

Lemma first_sibling_in_order_wins_witness :
  _get_val [("n", VInt 7); ("a", VDict [("z", VInt 0)]);
            ("b", VDict [("c", VDict [("model", VStr "deep")])]);
            ("d", VDict [("model", VStr "shallow")])]
    "model" VNone = VStr "deep".
Proof.
  refine (proj1 (proj1 first_sibling_in_order_wins _ "model" VNone _)
            [("n", VInt 7); ("a", VDict [("z", VInt 0)])] "b"
            [("c", VDict [("model", VStr "deep")])]
            [("d", VDict [("model", VStr "shallow")])]
            (VStr "deep") _ _ _ _).
  - reflexivity.
  - reflexivity.
  - intros n s [H|[H|[]]]; inversion H; subst. reflexivity.
  - reflexivity.
  - discriminate.
Defined.

(** C4 as the specification states it fails: a key found with the value
    [None] gives the very result of a search that finds nothing, a found
    empty mapping equals the default [{}] that [load_from_mmar] passes, and
    a nested entry holding [None] is passed over in favour of a later one. *)
Lemma found_null_confused_with_absence :
  occurs "model" [("model", VNone)] = true
  /\ occurs "model" [] = false
  /\ _get_val [("model", VNone)] "model" VNone = _get_val [] "model" VNone
  /\ _get_val [("model", VDict [])] "model" (VDict []) = _get_val [] "model" (VDict [])
  /\ _get_val [("a", VDict [("model", VNone)]); ("b", VDict [("model", VInt 2)])]
       "model" VNone = VInt 2.
Proof. repeat split. Qed.

(** The loop hands on to the entries that follow: the default is what the
    rest of the entries gives. *)
Lemma search_entries_app (pre rest : dict) (key : string) (default : value) :
  search_entries (pre ++ rest) key default
  = search_entries pre key (search_entries rest key default).
Proof.
  induction pre as [|[k val] pre IH]; [reflexivity|].
  simpl app. simpl search_entries.
  destruct val; try exact IH.
  destruct (is_None (_get_val d key VNone)); [exact IH | reflexivity].
Qed.

Lemma getitem_app_skip (pre post : dict) (key k : string) (v : value) :
  k <> key -> getitem key (pre ++ (k, v) :: post) = getitem key (pre ++ post).
Proof.
  intros Hne. induction pre as [|[k0 v0] pre IH]; simpl.
  - destruct (String.eqb_spec key k) as [Heq|_]; [|reflexivity].
    exfalso. apply Hne. symmetry. exact Heq.
  - rewrite IH. reflexivity.
Qed.

(** C4, amended. A mapping that holds the key at no depth is answered with
    the default the caller passed ([None] when none is passed). Absence is
    told from a found value only by comparing with that default: whenever
    the result differs from the default it is a value stored under the key,
    and when no value stored under the key is [None] or equal to the
    default, a search of a mapping that holds the key returns a value other
    than the default. A value stored directly under the key is returned as
    it is, [None] included. A nested mapping, under another key, whose own
    search comes back with [None] is passed over: the result is that of
    the mapping without this entry. *)
Theorem absence_returns_default :
  forall (m : dict) (key : string) (default : value),
    (occurs key m = false -> _get_val m key default = default)
    /\ (_get_val m key default <> default ->
        In (_get_val m key default) (values_at key (VDict m)))
    /\ ((forall x, In x (values_at key (VDict m)) -> x <> VNone /\ x <> default) ->
        occurs key m = true -> _get_val m key default <> default)
    /\ (forall v, getitem key m = Some v -> _get_val m key default = v)
    /\ (forall pre name sub post,
          m = pre ++ (name, VDict sub) :: post ->
          name <> key ->
          _get_val sub key VNone = VNone ->
          _get_val m key default = _get_val (pre ++ post) key default).
Proof.
  intros m key default. unfold occurs. split; [|split; [|split; [|split]]].
  - intros H. apply (search_without_occurrence key (VDict m) default).
    destruct (values_at key (VDict m)); [reflexivity | discriminate].
  - intros Hne. destruct (search_sound key (VDict m) default) as [E|I].
    + exfalso. apply Hne. exact E.
    + exact I.
  - intros Hstored Hocc Hres.
    assert (Hin : In (_get_val m key default) (values_at key (VDict m))).
    { apply (search_complete key (VDict m) default).
      - intros y Hy. exact (proj1 (Hstored y Hy)).
      - intros Hnil. rewrite Hnil in Hocc. discriminate. }
    apply (proj2 (Hstored _ Hin)). exact Hres.
  - intros v Hdirect. rewrite _get_val_unfold, Hdirect. reflexivity.
  - intros pre name sub post -> Hname Hsub.
    rewrite !_get_val_unfold, (getitem_app_skip pre post key name (VDict sub) Hname).
    destruct (getitem key (pre ++ post)); [reflexivity|].
    rewrite !search_entries_app. f_equal.
    simpl. rewrite Hsub. reflexivity.
Qed.

Lemma absence_returns_default_witness :
  _get_val [("a", VDict [("b", VInt 1)]); ("c", VStr "x")] "model" (VDict []) = VDict []
  /\ In (_get_val [("a", VDict [("model", VInt 1)])] "model" (VDict []))
        (values_at "model" (VDict [("a", VDict [("model", VInt 1)])]))
  /\ _get_val [("a", VDict [("model", VDict [("name", VStr "UNet")])])]
       "model" (VDict []) <> VDict []
  /\ _get_val [("a", VDict [("model", VInt 1)]); ("model", VNone)] "model" (VDict [])
     = VNone
  /\ _get_val [("a", VDict [("model", VNone)]); ("b", VDict [("model", VInt 2)])]
       "model" (VDict [])
     = _get_val [("b", VDict [("model", VInt 2)])] "model" (VDict []).
Proof.
  split; [|split; [|split; [|split]]].
  - apply (proj1 (absence_returns_default _ "model" (VDict []))). reflexivity.
  - apply (proj1 (proj2 (absence_returns_default _ "model" (VDict [])))).
    discriminate.
  - apply (proj1 (proj2 (proj2 (absence_returns_default _ "model" (VDict []))))).
    + intros x [H|[]]. subst x. split; discriminate.
    + reflexivity.
  - apply (proj1 (proj2 (proj2 (proj2
             (absence_returns_default _ "model" (VDict [])))))).
    reflexivity.
  - refine (proj2 (proj2 (proj2 (proj2
              (absence_returns_default _ "model" (VDict []))))) [] "a"
              [("model", VNone)] [("b", VDict [("model", VInt 2)])] eq_refl _ eq_refl).
    discriminate.
Defined.

(** The search on objects that are not mappings. *)
Example _get_val_obj_examples :
  @_get_val_obj unit VNone "model" (VDict []) = Raise TypeError
  /\ @_get_val_obj unit (VStr "") "model" (VDict []) = Ok (VDict [])
  /\ @_get_val_obj unit (VStr "a model") "model" (VDict []) = Raise TypeError
  /\ @_get_val_obj unit (VList []) "model" (VDict []) = Ok (VDict [])
  /\ @_get_val_obj unit (VList [VStr "model"]) "model" (VDict []) = Raise TypeError
  /\ @_get_val_obj unit (VList [VInt 1; VDict [("model", VInt 3)]]) "model" VNone
     = Ok (VInt 3)
  /\ @_get_val_obj unit (VList [VInt 5]) "model" VNone = Raise IndexError.
Proof. repeat split. Qed.

(** ** Strings: [strip] and [lower] *)

Lemma isspace_lower_char (c : ascii) : isspace (lower_char c) = isspace c.
Proof.
  destruct c as [[] [] [] [] [] [] [] []]; vm_compute; reflexivity.
Qed.

Lemma lower_nil (s : string) : lower s = EmptyString -> s = EmptyString.
Proof. destruct s; simpl; [reflexivity | discriminate]. Qed.

Lemma lower_lstrip (s : string) : lower (lstrip s) = lstrip (lower s).
Proof.
  induction s as [|c s IH]; simpl; [reflexivity|].
  rewrite isspace_lower_char.
  destruct (isspace c); [exact IH | reflexivity].
Qed.

Lemma lower_rstrip (s : string) : lower (rstrip s) = rstrip (lower s).
Proof.
  induction s as [|c s IH]; simpl; [reflexivity|].
  rewrite <- IH, isspace_lower_char.
  destruct (rstrip s) as [|c' kept]; simpl.
  - destruct (isspace c); reflexivity.
  - reflexivity.
Qed.

Lemma lower_strip (s : string) : lower (strip s) = strip (lower s).
Proof. unfold strip. rewrite lower_rstrip, lower_lstrip. reflexivity. Qed.

Lemma append_nil_r (s : string) : (s ++ "")%string = s.
Proof. induction s as [|c s IH]; simpl; [reflexivity | rewrite IH; reflexivity]. Qed.

Lemma append_assoc (a b c : string) : ((a ++ b) ++ c)%string = (a ++ (b ++ c))%string.
Proof. induction a as [|x a IH]; simpl; [reflexivity | rewrite IH; reflexivity]. Qed.

Lemma lstrip_all_space (s : string) : all_space s = true -> lstrip s = EmptyString.
Proof.
  induction s as [|c s IH]; simpl; [reflexivity|].
  destruct (isspace c); simpl; [exact IH | discriminate].
Qed.

Lemma rstrip_all_space (s : string) : all_space s = true -> rstrip s = EmptyString.
Proof.
  induction s as [|c s IH]; simpl; [reflexivity|].
  destruct (isspace c); simpl; [|discriminate].
  intros H. rewrite (IH H). reflexivity.
Qed.

Lemma lstrip_padding (pre s : string) :
  all_space pre = true -> lstrip (pre ++ s)%string = lstrip s.
Proof.
  induction pre as [|c pre IH]; simpl; [reflexivity|].
  destruct (isspace c); simpl; [exact IH | discriminate].
Qed.

Lemma rstrip_padding (s post : string) :
  all_space post = true -> rstrip (s ++ post)%string = rstrip s.
Proof.
  intros Hpost. induction s as [|c s IH]; simpl.
  - apply rstrip_all_space. exact Hpost.
  - rewrite IH. reflexivity.
Qed.

Lemma lstrip_append (s post : string) :
  lstrip (s ++ post)%string = if all_space s then lstrip post else (lstrip s ++ post)%string.
Proof.
  induction s as [|c s IH]; simpl; [reflexivity|].
  destruct (isspace c); simpl; [exact IH | reflexivity].
Qed.

(** Whitespace around a string does not change what [strip] keeps. *)
Lemma strip_padding (pre core post : string) :
  all_space pre = true -> all_space post = true ->
  strip (pre ++ core ++ post)%string = strip core.
Proof.
  intros Hpre Hpost. unfold strip.
  rewrite (lstrip_padding pre _ Hpre), lstrip_append.
  destruct (all_space core) eqn:Hcore.
  - rewrite (lstrip_all_space post Hpost), (lstrip_all_space core Hcore). reflexivity.
  - apply rstrip_padding. exact Hpost.
Qed.

(** [lstrip] and [rstrip] remove whitespace only. *)
Lemma lstrip_decompose (s : string) :
  exists pre, all_space pre = true /\ s = (pre ++ lstrip s)%string.
Proof.
  induction s as [|c s [pre [Hpre Hs]]]; simpl.
  - exists EmptyString. split; reflexivity.
  - destruct (isspace c) eqn:Hc.
    + exists (String c pre). simpl. rewrite Hc, Hpre. split; [reflexivity|].
      rewrite <- Hs. reflexivity.
    + exists EmptyString. split; reflexivity.
Qed.

Lemma rstrip_decompose (s : string) :
  exists post, all_space post = true /\ s = (rstrip s ++ post)%string.
Proof.
  induction s as [|c s [post [Hpost Hs]]]; simpl.
  - exists EmptyString. split; reflexivity.
  - destruct (rstrip s) as [|c' kept] eqn:Hr.
    + destruct (isspace c) eqn:Hc.
      * exists (String c post). simpl. rewrite Hc, Hpost. split; [reflexivity|].
        simpl in Hs. rewrite <- Hs. reflexivity.
      * exists post. split; [exact Hpost|]. simpl. simpl in Hs.
        rewrite <- Hs. reflexivity.
    + exists post. split; [exact Hpost|]. simpl. rewrite Hs at 1. reflexivity.
Qed.

Lemma strip_decompose (s : string) :
  exists pre post,
    all_space pre = true /\ all_space post = true
    /\ s = (pre ++ strip s ++ post)%string.
Proof.
  destruct (lstrip_decompose s) as [pre [Hpre Hs]].
  destruct (rstrip_decompose (lstrip s)) as [post [Hpost Hl]].
  exists pre, post. repeat split; try assumption.
  unfold strip. rewrite <- Hl. exact Hs.
Qed.

(** For an id without surrounding whitespace, [matches_id] is the
    comparison that [_get_model_spec] makes. *)
Lemma matches_id_normalized (s id : string) :
  strip id = id -> (matches_id s id <-> normalized s = normalized id).
Proof.
  intros Hid. unfold normalized. split.
  - intros [pre [core [post [Hs [Hpre [Hpost Hcore]]]]]].
    rewrite Hs, (strip_padding pre core post Hpre Hpost).
    rewrite !lower_strip, Hcore. reflexivity.
  - intros Hnorm. destruct (strip_decompose s) as [pre [post [Hpre [Hpost Hs]]]].
    exists pre, (strip s), post. repeat split; try assumption.
    rewrite Hnorm, Hid. reflexivity.
Qed.

(** [strip] and [lower] on a padded id; the padding holds a tab and a
    line feed. *)
Example normalized_padded_id :
  normalized (String (ascii_of_nat 9) " Clara_PT_Brain_MRI_Segmentation_1 " ++ nl)
  = "clara_pt_brain_mri_segmentation_1".
Proof. reflexivity. Qed.

Example strip_keeps_inner_space : strip "  a b  " = "a b".
Proof. reflexivity. Qed.

Example path_join_examples :
  path_join "models" "model.pt" = "models/model.pt"
  /\ path_join "/data/" "models" = "/data/models"
  /\ path_join "/data" "/abs/model.ts" = "/abs/model.ts"
  /\ path_join "" "model.pt" = "model.pt".
Proof. repeat split. Qed.

Example rsplit_dot_examples :
  rsplit_dot "monai.networks.nets.UNet" = Some ("monai.networks.nets", "UNet")
  /\ rsplit_dot "UNet" = None
  /\ rsplit_dot "nets." = Some ("nets", "").
Proof. repeat split. Qed.

Example endswith_examples :
  endswith "/data/m/models/model.ts" ".ts" = true
  /\ endswith "/data/m/models/model.pt" ".ts" = false
  /\ endswith "ts" ".ts" = false.
Proof. repeat split. Qed.

(** ** Descriptor resolution *)

Lemma scan_ids_none (key : string) (table : list ModelDescriptor) :
  scan_ids key table = None <->
  (forall d, In d table -> normalized (ID d) <> key).
Proof.
  induction table as [|cand rest IH]; simpl.
  - split; [intros _ d [] | reflexivity].
  - fold (normalized (ID cand)).
    destruct (String.eqb_spec (normalized (ID cand)) key) as [Heq|Hne].
    + split; [discriminate|]. intros H. exfalso. apply (H cand); auto.
    + rewrite IH. split.
      * intros H d [<-|Hin]; [exact Hne | apply H; exact Hin].
      * intros H d Hin. apply H. right. exact Hin.
Qed.

(** What the scan returns is an entry of the table with the searched key. *)
Lemma scan_ids_some (key : string) (table : list ModelDescriptor) (d : ModelDescriptor) :
  scan_ids key table = Some d -> In d table /\ normalized (ID d) = key.
Proof.
  induction table as [|cand rest IH]; simpl; [discriminate|].
  fold (normalized (ID cand)).
  destruct (String.eqb_spec (normalized (ID cand)) key) as [Heq|Hne]; intros H.
  - inversion H; subst. split; [left|]; reflexivity.
  - destruct (IH H) as [Hin Hk]. split; [right; exact Hin | exact Hk].
Qed.

(** The ids of the table carry no surrounding whitespace. *)
Lemma MODEL_DESC_ids_stripped :
  Forall (fun d => strip (ID d) = ID d) MODEL_DESC.
Proof. repeat constructor. Qed.

(** The ids of the table are distinct, also up to letter case: the scan
    for the key of an entry stops at that entry. *)
Lemma MODEL_DESC_scan_own_id :
  Forall (fun d => scan_ids (normalized (ID d)) MODEL_DESC = Some d) MODEL_DESC.
Proof. repeat constructor. Qed.

Lemma tuple_index_negative {A : Type} (t : list A) (i : Z) :
  (- Z.of_nat (List.length t) <= i < 0)%Z ->
  exists x,
    nth_error t (Z.to_nat (Z.of_nat (List.length t) + i)) = Some x
    /\ tuple_index t i = Some x.
Proof.
  intros [Hlo Hhi]. unfold tuple_index.
  destruct (Z.ltb_spec i 0) as [_|Hge]; [|lia].
  destruct (Z.ltb_spec (i + Z.of_nat (List.length t)) 0) as [Hneg|_]; [lia|].
  destruct (Z.leb_spec (Z.of_nat (List.length t)) (i + Z.of_nat (List.length t)))
    as [Hbig|_]; [lia|].
  simpl orb. cbv iota.
  replace (Z.of_nat (List.length t) + i)%Z with (i + Z.of_nat (List.length t))%Z by lia.
  destruct (nth_error t (Z.to_nat (i + Z.of_nat (List.length t)))) as [x|] eqn:Hnth.
  - exists x. split; reflexivity.
  - exfalso. apply nth_error_None in Hnth. lia.
Qed.

Lemma tuple_index_in_range {A : Type} (t : list A) (i : Z) :
  (0 <= i < Z.of_nat (List.length t))%Z ->
  exists x, nth_error t (Z.to_nat i) = Some x /\ tuple_index t i = Some x.
Proof.
  intros [Hlo Hhi]. unfold tuple_index.
  destruct (Z.ltb_spec i 0) as [Hneg|_]; [lia|].
  destruct (Z.ltb_spec i 0) as [Hneg|_]; [lia|].
  destruct (Z.leb_spec (Z.of_nat (List.length t)) i) as [Hbig|_]; [lia|].
  simpl orb. cbv iota.
  destruct (nth_error t (Z.to_nat i)) as [x|] eqn:Hnth.
  - exists x. split; reflexivity.
  - exfalso. apply nth_error_None in Hnth. lia.
Qed.

(** An index outside [-len, len) is an [IndexError]. *)
Lemma tuple_index_out_of_range {A : Type} (t : list A) (i : Z) :
  (i < - Z.of_nat (List.length t) \/ Z.of_nat (List.length t) <= i)%Z ->
  tuple_index t i = None.
Proof.
  intros H. unfold tuple_index.
  destruct (Z.ltb_spec i 0) as [Hneg|Hpos].
  - destruct (Z.ltb_spec (i + Z.of_nat (List.length t)) 0) as [_|Hge];
      [reflexivity | lia].
  - destruct (Z.ltb_spec i 0) as [Hneg|_]; [lia|].
    destruct (Z.leb_spec (Z.of_nat (List.length t)) i) as [_|Hsmall];
      [reflexivity | lia].
Qed.

(** For every valid non-negative index the descriptor at that position is
    returned. *)
Lemma _get_model_spec_position (obj : Type) (i : Z) :
  (0 <= i < Z.of_nat (List.length MODEL_DESC))%Z ->
  exists d,
    nth_error MODEL_DESC (Z.to_nat i) = Some d
    /\ @_get_model_spec obj (IdxInt i) = (Ok d, []).
Proof.
  intros H. destruct (tuple_index_in_range MODEL_DESC i H) as [d [Hnth Hidx]].
  exists d. split; [exact Hnth|]. unfold _get_model_spec. rewrite Hidx. reflexivity.
Qed.

(** The scan is linear, in table order: it returns the first entry with
    the searched key. *)
Lemma scan_ids_first_match (key : string) (pre post : list ModelDescriptor)
  (d : ModelDescriptor) :
  (forall c, In c pre -> normalized (ID c) <> key) ->
  normalized (ID d) = key ->
  scan_ids key (pre ++ d :: post) = Some d.
Proof.
  intros Hpre Hd. induction pre as [|c pre IH]; simpl.
  - fold (normalized (ID d)). rewrite Hd, String.eqb_refl. reflexivity.
  - fold (normalized (ID c)).
    destruct (String.eqb_spec (normalized (ID c)) key) as [Heq|_].
    + exfalso. apply (Hpre c); [left; reflexivity | exact Heq].
    + apply IH. intros c' Hin. apply Hpre. right. exact Hin.
Qed.

(** C6. A string that is an id of the table up to letter case and
    surrounding whitespace resolves to the descriptor with that id, which
    the scan, linear in table order, meets first and returns without
    output; a string that matches no id prints the table and fails with the
    error that names the request. *)
Theorem descriptor_lookup_by_id (obj : Type) :
  (forall (d : ModelDescriptor) (s : string),
      In d MODEL_DESC -> matches_id s (ID d) ->
      @_get_model_spec obj (IdxStr s) = (Ok d, [])
      /\ exists pre post,
          MODEL_DESC = pre ++ d :: post
          /\ forall c, In c pre -> ~ matches_id s (ID c))
  /\ (forall (s : string),
         (forall d, In d MODEL_DESC -> ~ matches_id s (ID d)) ->
         @_get_model_spec obj (IdxStr s) =
         (Raise (ValueError [Lit ("Unknown MODEL_DESC request: " ++ s)]),
          [EvPrint [Lit "Available specs are: "; ReprTable MODEL_DESC; Lit "."]])).
Proof.
  split.
  - intros d s Hin Hmatch.
    pose proof (proj1 (Forall_forall _ _) MODEL_DESC_ids_stripped d Hin) as Hstrip.
    pose proof (proj1 (Forall_forall _ _) MODEL_DESC_scan_own_id d Hin) as Hscan.
    apply (matches_id_normalized s (ID d) Hstrip) in Hmatch.
    split.
    + unfold _get_model_spec. fold (normalized s). rewrite Hmatch, Hscan. reflexivity.
    + destruct (in_split d MODEL_DESC Hin) as [pre [post Hsplit]].
      exists pre, post. split; [exact Hsplit|].
      intros c Hc Hcmatch.
      assert (Hcin : In c MODEL_DESC).
      { rewrite Hsplit. apply in_or_app. left. exact Hc. }
      pose proof (proj1 (Forall_forall _ _) MODEL_DESC_ids_stripped c Hcin) as Hcs.
      pose proof (proj1 (Forall_forall _ _) MODEL_DESC_scan_own_id c Hcin) as Hcscan.
      apply (matches_id_normalized s (ID c) Hcs) in Hcmatch.
      cbv beta in Hcscan, Hscan.
      rewrite <- Hcmatch, Hmatch, Hscan in Hcscan.
      inversion Hcscan as [Heq]. subst c.
      clear - Hsplit Hc.
      assert (Hcount : forall l, NoDup (map ID l) -> forall a b x,
                 l = a ++ x :: b -> ~ In x a).
      { intros l Hnd a b x -> Hx. rewrite map_app in Hnd. simpl in Hnd.
        apply NoDup_remove_2 in Hnd. apply Hnd. apply in_or_app. left.
        apply in_map. exact Hx. }
      apply (Hcount MODEL_DESC) with (a := pre) (b := post) (x := d);
        [|exact Hsplit|exact Hc].
      repeat constructor; simpl; intuition discriminate.
  - intros s Hnone.
    assert (Hscan : scan_ids (normalized s) MODEL_DESC = None).
    { apply scan_ids_none. intros d Hin Heq. apply (Hnone d Hin).
      pose proof (proj1 (Forall_forall _ _) MODEL_DESC_ids_stripped d Hin) as Hstrip.
      apply (matches_id_normalized s (ID d) Hstrip). symmetry. exact Heq. }
    unfold _get_model_spec. fold (normalized s). rewrite Hscan. reflexivity.
Qed.

Lemma descriptor_lookup_by_id_witness :
  (exists d,
      nth_error MODEL_DESC 5 = Some d
      /\ @_get_model_spec unit (IdxStr "  Clara_PT_Brain_MRI_Segmentation_T1C_1 ")
         = (Ok d, []))
  /\ @_get_model_spec unit (IdxStr "clara_pt_brain") =
     (Raise (ValueError [Lit "Unknown MODEL_DESC request: clara_pt_brain"]),
      [EvPrint [Lit "Available specs are: "; ReprTable MODEL_DESC; Lit "."]]).
Proof.
  split.
  - eexists. split; [reflexivity|].
    apply (proj1 (descriptor_lookup_by_id unit)).
    + do 5 right. left. reflexivity.
    + exists "  ", "Clara_PT_Brain_MRI_Segmentation_T1C_1", " ".
      repeat split.
  - apply (proj2 (descriptor_lookup_by_id unit) "clara_pt_brain").
    intros d Hin Hmatch.
    pose proof (proj1 (Forall_forall _ _) MODEL_DESC_ids_stripped d Hin) as Hstrip.
    apply (matches_id_normalized _ _ Hstrip) in Hmatch.
    simpl in Hin.
    repeat (destruct Hin as [<-|Hin]; [vm_compute in Hmatch; discriminate|]).
    contradiction.
Defined.

(** C9. A negative index from [-len(MODEL_DESC)] to [-1] counts from the
    end of the table: [_get_model_spec(i)] returns the descriptor at
    position [len(MODEL_DESC) + i], with no error and no output. *)
Theorem negative_index_counts_from_end (obj : Type) (i : Z) :
  (- Z.of_nat (List.length MODEL_DESC) <= i < 0)%Z ->
  exists d,
    nth_error MODEL_DESC (Z.to_nat (Z.of_nat (List.length MODEL_DESC) + i)) = Some d
    /\ @_get_model_spec obj (IdxInt i) = (Ok d, []).
Proof.
  intros H. destruct (tuple_index_negative MODEL_DESC i H) as [d [Hnth Hidx]].
  exists d. split; [exact Hnth|]. unfold _get_model_spec. rewrite Hidx. reflexivity.
Qed.

Lemma negative_index_counts_from_end_witness :
  (- Z.of_nat (List.length MODEL_DESC) <= -1 < 0)%Z
  /\ exists d,
       nth_error MODEL_DESC 7 = Some d
       /\ ID d = "clara_pt_pancreas_and_tumor_ct_segmentation_1"
       /\ @_get_model_spec unit (IdxInt (-1)) = (Ok d, []).
Proof.
  assert (Hrange : (- Z.of_nat (List.length MODEL_DESC) <= -1 < 0)%Z)
    by (simpl; lia).
  split; [exact Hrange|].
  destruct (negative_index_counts_from_end unit (-1) Hrange) as [d [Hnth Hspec]].
  exists d. split; [exact Hnth|]. split; [|exact Hspec].
  simpl in Hnth. inversion Hnth. reflexivity.
Defined.

(** ** The monad *)

Section MonadLaws.

Context {obj : Type}.

Local Open Scope mmar_scope.

Lemma bind_Ok {A B : Type} (m : M obj A) (f : A -> M obj B) (a : A)
  (log : list (event obj)) :
  m = (Ok a, log) -> bind m f = (outcome (f a), log ++ log_of (f a)).
Proof. intros ->. unfold bind, outcome, log_of. destruct (f a); reflexivity. Qed.

Lemma bind_Raise {A B : Type} (m : M obj A) (f : A -> M obj B) (e : exn obj)
  (log : list (event obj)) :
  m = (Raise e, log) -> bind m f = (Raise e, log).
Proof. intros ->. reflexivity. Qed.

Lemma pair_outcome_log {A : Type} (m : M obj A) : m = (outcome m, log_of m).
Proof. destruct m; reflexivity. Qed.

(** The log of a sequence is the log of its first part, followed by the
    log of what ran after it, if anything did. *)
Lemma log_of_bind {A B : Type} (m : M obj A) (f : A -> M obj B) :
  log_of (bind m f) =
  log_of m ++ match outcome m with
              | Ok a => log_of (f a)
              | Raise _ => []
              end.
Proof.
  destruct m as [[a|e] log]; unfold bind, outcome, log_of; simpl.
  - destruct (f a); reflexivity.
  - rewrite app_nil_r. reflexivity.
Qed.

Lemma log_of_bind_Forall {A B : Type} (P : event obj -> Prop)
  (m : M obj A) (f : A -> M obj B) :
  Forall P (log_of m) -> (forall a, Forall P (log_of (f a))) ->
  Forall P (log_of (bind m f)).
Proof.
  intros Hm Hf. rewrite log_of_bind. apply Forall_app. split; [exact Hm|].
  destruct (outcome m); [apply Hf | constructor].
Qed.

End MonadLaws.

(** Splits a statement about every event of a log along the sequence of
    the computation. *)
Ltac split_log :=
  repeat first
    [ progress cbv beta iota zeta
    | apply log_of_bind_Forall; [|intros ?]
    | match goal with
      | |- Forall _ (log_of (match ?x with _ => _ end)) => destruct x
      | |- Forall _ (log_of (if ?c then _ else _)) => destruct c
      end
    | (constructor; reflexivity)
    | constructor ].

(** ** The stages of [load_from_mmar] and their events *)

Section StageLogs.

Context {obj : Type}.
Variable env : Env obj.

Local Open Scope mmar_scope.

(** A resolution that succeeds prints nothing. *)
Lemma resolve_item_success (item : item_arg) (d : ModelDescriptor) :
  outcome (@resolve_item obj item) = Ok d -> @resolve_item obj item = (Ok d, []).
Proof.
  destruct item as [d0|[i|s|shown]]; unfold resolve_item, _get_model_spec, unknown_request.
  - intros H; inversion H; reflexivity.
  - destruct (tuple_index MODEL_DESC i); intros H; inversion H; reflexivity.
  - destruct (scan_ids (lower (strip s)) MODEL_DESC); intros H; inversion H; reflexivity.
  - intros H; inversion H.
Qed.

Lemma resolve_item_log (item : item_arg) :
  Forall (fun ev => is_setup ev = true) (log_of (@resolve_item obj item)).
Proof.
  destruct item as [d0|[i|s|shown]];
    unfold resolve_item, _get_model_spec, unknown_request; split_log.
Qed.

Lemma download_mmar_log (item : item_arg) (mmar_dir : option string) (progress : bool) :
  Forall (fun ev => is_setup ev = true) (log_of (download_mmar env item mmar_dir progress)).
Proof.
  unfold download_mmar, lift_unit. split_log.
  apply resolve_item_log.
Qed.

Lemma find_model_config_log (item : ModelDescriptor) (model_dir : string)
  (model_dict : dict) (model_key : string) :
  Forall (fun ev => is_consultation ev = true)
         (log_of (find_model_config env item model_dir model_dict model_key)).
Proof. unfold find_model_config, lift. split_log. Qed.

Lemma check_model_config_log (item : ModelDescriptor) (model_config : value) :
  log_of (@check_model_config obj item model_config) = [].
Proof.
  unfold check_model_config. destruct model_config; try reflexivity.
  destruct (truthy (VDict d)); reflexivity.
Qed.

Lemma resolve_model_class_log (model_dir : string) (model_config : dict) :
  Forall (fun ev => is_build ev = true)
         (log_of (resolve_model_class env model_dir model_config)).
Proof.
  unfold resolve_model_class, registry_class, path_class. split_log.
Qed.

Lemma build_model_log (item : ModelDescriptor) (model_dict : dict) (model_key : string)
  (pretrained : bool) (model_config : dict) (model_cls : obj) :
  Forall (fun ev => is_consultation ev = false /\ is_warning ev = false)
         (log_of (build_model env item model_dict model_key pretrained
                    model_config model_cls)).
Proof. unfold build_model, when, lift, lift_unit. split_log. Qed.
End StageLogs.

(** ** [load_from_mmar] once the archive is in place *)

Section Loading.

Context {obj : Type}.
Variable env : Env obj.
Context (item : item_arg) (mmar_dir : option string) (progress : bool)
  (map_location : option string) (model_key : string).
Context (d : ModelDescriptor) (model_dir : string).

Hypothesis Hitem : outcome (@resolve_item obj item) = Ok d.
Hypothesis Hdir : outcome (download_mmar env (ItemDesc d) mmar_dir progress) = Ok model_dir.

Local Abbreviation model_file := (path_join model_dir (MODEL_FILE d)).
Local Abbreviation setup :=
  (log_of (download_mmar env (ItemDesc d) mmar_dir progress)
     ++ [available_notice d model_dir]).

Lemma load_from_mmar_located (pretrained weights_only : bool) :
  load_from_mmar env item mmar_dir progress map_location pretrained weights_only model_key
  = if endswith model_file ".ts" then
      (match torch_jit_load env model_file map_location with
       | Ok module => Ok (Script module)
       | Raise e => Raise e
       end,
       setup
         ++ (if pretrained then []
             else [EvWarn "Loading a ScriptModule, 'pretrained' option ignored."])
         ++ (if weights_only
             then [EvWarn "Loading a ScriptModule, 'weights_only' option ignored."]
             else [])
         ++ [EvJitLoad model_file map_location])
    else
      match torch_load env model_file map_location with
      | Raise e => (Raise e, setup ++ [EvTorchLoad model_file map_location])
      | Ok model_dict =>
          if weights_only then
            (Ok (Weights (weights_of model_dict model_key)),
             setup ++ [EvTorchLoad model_file map_location])
          else
            (outcome (model_from_config env d model_dir model_dict model_key pretrained),
             setup ++ [EvTorchLoad model_file map_location]
               ++ log_of (model_from_config env d model_dir model_dict model_key
                            pretrained))
      end.
Proof.
  unfold load_from_mmar.
  rewrite (bind_Ok _ _ d [] (resolve_item_success item d Hitem)).
  assert (Hdl : download_mmar env (ItemDesc d) mmar_dir progress
                = (Ok model_dir,
                   log_of (download_mmar env (ItemDesc d) mmar_dir progress))).
  { rewrite <- Hdir. apply pair_outcome_log. }
  rewrite (bind_Ok _ _ model_dir _ Hdl).
  destruct (endswith model_file ".ts").
  - destruct pretrained, weights_only;
      destruct (torch_jit_load env model_file map_location);
      unfold outcome, log_of; simpl; rewrite <- ?app_assoc; reflexivity.
  - destruct (torch_load env model_file map_location) as [model_dict|e].
    + destruct weights_only.
      * unfold outcome, log_of; simpl; rewrite <- ?app_assoc; reflexivity.
      * unfold outcome, log_of; simpl.
        destruct (model_from_config env d model_dir model_dict model_key pretrained).
        simpl. rewrite <- ?app_assoc. reflexivity.
    + unfold outcome, log_of; simpl; rewrite <- ?app_assoc; reflexivity.
Qed.

End Loading.

(** ** The three configuration sources *)

Section ConfigSources.

Context {obj : Type}.
Variable env : Env obj.
Context (item : ModelDescriptor) (model_dir : string) (model_dict : dict)
  (model_key : string).

Local Abbreviation json_path := (path_join model_dir (config_file_or_default item)).
Local Abbreviation train_conf := (get_default "train_conf" model_dict (VDict [])).

(** The first source wins when its search gives a non-empty result. *)
Lemma find_in_train_conf (cfg : value) :
  @_get_val_obj obj train_conf model_key (VDict []) = Ok cfg ->
  truthy cfg = true ->
  find_model_config env item model_dir model_dict model_key
  = (Ok cfg, [EvSearch SrcTrainConf]).
Proof.
  intros Hsearch Htruthy. unfold find_model_config.
  rewrite Hsearch. unfold lift, bind, emit, ret. simpl.
  rewrite Htruthy. simpl. rewrite Htruthy. reflexivity.
Qed.

(** When it gives nothing the configuration file is read and searched, and
    only when that gives nothing is the weights dictionary searched. *)
Lemma find_after_train_conf (c1 : value) (conf_dict : dict) :
  @_get_val_obj obj train_conf model_key (VDict []) = Ok c1 ->
  truthy c1 = false ->
  read_json_dict env json_path = Ok conf_dict ->
  find_model_config env item model_dir model_dict model_key
  = if truthy (_get_val conf_dict model_key (VDict [])) then
      (Ok (_get_val conf_dict model_key (VDict [])),
       [EvSearch SrcTrainConf; EvOpenJson json_path; EvSearch SrcConfigFile])
    else
      (Ok (_get_val model_dict model_key (VDict [])),
       [EvSearch SrcTrainConf; EvOpenJson json_path; EvSearch SrcConfigFile;
        EvSearch SrcModelDict]).
Proof.
  intros Hsearch Hfalsy Hread. unfold find_model_config.
  rewrite Hsearch. unfold lift, bind, emit, ret. simpl.
  rewrite Hfalsy. simpl. rewrite Hread. simpl.
  destruct (truthy (_get_val conf_dict model_key (VDict []))); reflexivity.
Qed.

(** A configuration file that cannot be read ends the search with its error. *)
Lemma find_unreadable_config (c1 : value) (e : exn obj) :
  @_get_val_obj obj train_conf model_key (VDict []) = Ok c1 ->
  truthy c1 = false ->
  read_json_dict env json_path = Raise e ->
  find_model_config env item model_dir model_dict model_key
  = (Raise e, [EvSearch SrcTrainConf; EvOpenJson json_path]).
Proof.
  intros Hsearch Hfalsy Hread. unfold find_model_config.
  rewrite Hsearch. unfold lift, bind, emit, ret. simpl.
  rewrite Hfalsy. simpl. rewrite Hread. reflexivity.
Qed.

(** In every run the sources are consulted in the one order. *)
Lemma find_model_config_order :
  is_prefix (log_of (find_model_config env item model_dir model_dict model_key))
    [EvSearch SrcTrainConf; EvOpenJson json_path; EvSearch SrcConfigFile;
     EvSearch SrcModelDict].
Proof.
  unfold find_model_config, is_prefix.
  destruct (@_get_val_obj obj train_conf model_key (VDict [])) as [c1|e];
    unfold lift, bind, emit, ret, log_of; simpl.
  - destruct (truthy c1) eqn:H1; simpl.
    + rewrite H1. simpl. eexists. reflexivity.
    + destruct (read_json_dict env json_path) as [conf_dict|e]; simpl.
      * destruct (truthy (_get_val conf_dict model_key (VDict []))); simpl;
          eexists; reflexivity.
      * eexists. reflexivity.
  - eexists. reflexivity.
Qed.

End ConfigSources.

(** ** Events of the stages, filtered *)

Lemma filter_none {A : Type} (f : A -> bool) (l : list A) :
  Forall (fun x => f x = false) l -> filter f l = [].
Proof.
  induction 1 as [|x l Hx _ IH]; simpl; [reflexivity|]. rewrite Hx. exact IH.
Qed.

Lemma filter_all {A : Type} (f : A -> bool) (l : list A) :
  Forall (fun x => f x = true) l -> filter f l = l.
Proof.
  induction 1 as [|x l Hx _ IH]; simpl; [reflexivity|]. rewrite Hx, IH. reflexivity.
Qed.

Lemma setup_not_after_loading {obj : Type} (log : list (event obj)) :
  Forall (fun ev => is_setup ev = true) log ->
  Forall (fun ev => after_loading ev = false) log.
Proof.
  apply Forall_impl. intros [] H; try discriminate H; reflexivity.
Qed.

Lemma setup_not_consultation {obj : Type} (log : list (event obj)) :
  Forall (fun ev => is_setup ev = true) log ->
  Forall (fun ev => is_consultation ev = false) log.
Proof.
  apply Forall_impl. intros [] H; try discriminate H; reflexivity.
Qed.

Lemma setup_not_warning {obj : Type} (log : list (event obj)) :
  Forall (fun ev => is_setup ev = true) log ->
  Forall (fun ev => is_warning ev = false) log.
Proof.
  apply Forall_impl. intros [] H; try discriminate H; reflexivity.
Qed.

Section FromConfig.

Context {obj : Type}.
Variable env : Env obj.
Context (item : ModelDescriptor) (model_dir : string) (model_dict : dict)
  (model_key : string) (pretrained : bool).

Local Open Scope mmar_scope.

(** Once the configuration is found, nothing consults a source again. *)
Lemma after_find_no_consultation (found : value) :
  Forall (fun ev => is_consultation ev = false)
    (log_of (model_config <- check_model_config item found ;;
             model_cls <- resolve_model_class env model_dir model_config ;;
             build_model env item model_dict model_key pretrained
               model_config model_cls)).
Proof.
  apply log_of_bind_Forall.
  - rewrite check_model_config_log. constructor.
  - intros model_config. apply log_of_bind_Forall.
    + eapply Forall_impl; [|apply resolve_model_class_log].
      intros [] H; try discriminate H; reflexivity.
    + intros model_cls. eapply Forall_impl; [|apply build_model_log].
      intros ev [H _]. exact H.
Qed.

Lemma model_from_config_consultations :
  consultations (log_of (model_from_config env item model_dir model_dict
                           model_key pretrained))
  = log_of (find_model_config env item model_dir model_dict model_key).
Proof.
  unfold model_from_config, consultations.
  rewrite log_of_bind, filter_app.
  rewrite (filter_all _ _ (find_model_config_log env item model_dir model_dict model_key)).
  destruct (outcome (find_model_config env item model_dir model_dict model_key))
    as [found|e].
  - rewrite (filter_none _ _ (after_find_no_consultation found)).
    apply app_nil_r.
  - apply app_nil_r.
Qed.

(** Lines 156 to 160: a configuration that is empty or not a mapping is
    refused with the configuration error. *)
Lemma missing_config_raises (found : value) (log : list (event obj)) :
  find_model_config env item model_dir model_dict model_key = (Ok found, log) ->
  truthy found = false \/ is_mapping found = false ->
  model_from_config env item model_dir model_dict model_key pretrained
  = (Raise (config_error item), log).
Proof.
  intros Hfind Hbad. unfold model_from_config.
  rewrite (bind_Ok _ _ found log Hfind).
  assert (Hcheck : @check_model_config obj item found = (Raise (config_error item), [])).
  { unfold check_model_config. destruct found; try reflexivity.
    destruct Hbad as [H|H]; [rewrite H; reflexivity | discriminate H]. }
  rewrite (bind_Raise _ _ _ _ Hcheck). unfold outcome, log_of. simpl.
  rewrite app_nil_r. reflexivity.
Qed.

(** The error quotes the [config_file] and [model_file] entries of the
    descriptor when it has both. *)
Lemma config_error_quotes_entries (config_file : string) :
  CONFIG_FILE item = Some config_file ->
  @config_error obj item
  = ValueError [Lit ("Could not load model config dictionary from config: "
                     ++ config_file ++ ", or from model file: "
                     ++ MODEL_FILE item ++ ".")].
Proof. intros H. unfold config_error. rewrite H. reflexivity. Qed.

End FromConfig.

(** ** The claims about [load_from_mmar] *)

Lemma outcome_pair {obj A : Type} (r : result obj A) (log : list (event obj)) :
  outcome (r, log) = r.
Proof. reflexivity. Qed.

Lemma log_of_pair {obj A : Type} (r : result obj A) (log : list (event obj)) :
  log_of (r, log) = log.
Proof. reflexivity. Qed.

(** C5. With [weights_only] set and a model file that is not a script
    module, [load_from_mmar] returns the entry of the loaded dictionary
    under [model_key] when there is one and else the dictionary itself,
    unchanged; the run ends with the call of [torch.load]. In no run with
    [weights_only] set is a configuration source consulted, a class
    resolved or a model instantiated. *)
Theorem weights_only_short_circuit (obj : Type) (env : Env obj) (item : item_arg)
  (mmar_dir : option string) (progress : bool) (map_location : option string)
  (pretrained : bool) (model_key : string) :
  Forall (fun ev => after_loading ev = false)
    (log_of (load_from_mmar env item mmar_dir progress map_location
               pretrained true model_key))
  /\ forall (d : ModelDescriptor) (model_dir : string) (model_dict : dict),
      outcome (@resolve_item obj item) = Ok d ->
      outcome (download_mmar env (ItemDesc d) mmar_dir progress) = Ok model_dir ->
      endswith (path_join model_dir (MODEL_FILE d)) ".ts" = false ->
      torch_load env (path_join model_dir (MODEL_FILE d)) map_location = Ok model_dict ->
      load_from_mmar env item mmar_dir progress map_location pretrained true model_key
      = (Ok (Weights (match getitem model_key model_dict with
                      | Some sub => sub
                      | None => VDict model_dict
                      end)),
         log_of (download_mmar env (ItemDesc d) mmar_dir progress)
           ++ [available_notice d model_dir;
               EvTorchLoad (path_join model_dir (MODEL_FILE d)) map_location]).
Proof.
  split.
  - unfold load_from_mmar, when, lift.
    apply log_of_bind_Forall;
      [apply setup_not_after_loading, resolve_item_log | intros d].
    apply log_of_bind_Forall;
      [apply setup_not_after_loading, download_mmar_log | intros model_dir].
    split_log.
  - intros d model_dir model_dict Hitem Hdir Hts Hload.
    rewrite (load_from_mmar_located env item mmar_dir progress map_location
               model_key d model_dir Hitem Hdir).
    rewrite Hts, Hload. rewrite <- app_assoc. reflexivity.
Qed.

Lemma weights_only_short_circuit_witness :
  load_from_mmar env_embedded_conf (ItemIdx (IdxStr "clara_pt_brain_mri_segmentation_1"))
    (Some "/data") true None true true "model"
  = (Ok (Weights (VDict [("conv.weight", VList [VInt 1; VInt 2])])),
     log_of (download_mmar env_embedded_conf
               (ItemDesc (nth 4 MODEL_DESC script_descriptor)) (Some "/data") true)
       ++ [available_notice (nth 4 MODEL_DESC script_descriptor)
             "/data/clara_pt_brain_mri_segmentation_1";
           EvTorchLoad "/data/clara_pt_brain_mri_segmentation_1/models/model.pt" None])
  /\ load_from_mmar env_no_conf (ItemIdx (IdxInt 0)) (Some ".") false None false true "model"
     = (Ok (Weights (VDict [("conv.weight", VList [VInt 1; VInt 2])])),
        log_of (download_mmar env_no_conf
                  (ItemDesc (nth 0 MODEL_DESC script_descriptor)) (Some ".") false)
          ++ [available_notice (nth 0 MODEL_DESC script_descriptor)
                "./clara_pt_prostate_mri_segmentation_1";
              EvTorchLoad "./clara_pt_prostate_mri_segmentation_1/models/model.pt" None]).
Proof.
  split.
  - apply (proj2 (weights_only_short_circuit string env_embedded_conf
                    (ItemIdx (IdxStr "clara_pt_brain_mri_segmentation_1"))
                    (Some "/data") true None true "model")
             (nth 4 MODEL_DESC script_descriptor)
             "/data/clara_pt_brain_mri_segmentation_1"
             [("train_conf",
               VDict [("epochs", VInt 100);
                      ("train",
                       VDict [("model",
                               VDict [("name", VStr "UNet");
                                      ("args", VDict [("dimensions", VInt 3)])])])]);
              ("model", VDict [("conv.weight", VList [VInt 1; VInt 2])])]);
      reflexivity.
  - apply (proj2 (weights_only_short_circuit string env_no_conf
                    (ItemIdx (IdxInt 0)) (Some ".") false None false "model")
             (nth 0 MODEL_DESC script_descriptor)
             "./clara_pt_prostate_mri_segmentation_1"
             [("conv.weight", VList [VInt 1; VInt 2])]);
      reflexivity.
Defined.

(** C8. When the path of the model file ends with [.ts], [load_from_mmar]
    returns what [torch.jit.load] returns, or fails as it fails, whatever
    [pretrained] and [weights_only] are: the run logs a warning for
    [pretrained] when it is unset and one for [weights_only] when it is
    set, and then calls the script-module loader; the outcome is the one of
    the run with the default options. *)
Theorem script_module_ignores_options (obj : Type) (env : Env obj) (item : item_arg)
  (mmar_dir : option string) (progress : bool) (map_location : option string)
  (pretrained weights_only : bool) (model_key : string)
  (d : ModelDescriptor) (model_dir : string) :
  outcome (@resolve_item obj item) = Ok d ->
  outcome (download_mmar env (ItemDesc d) mmar_dir progress) = Ok model_dir ->
  endswith (path_join model_dir (MODEL_FILE d)) ".ts" = true ->
  let run := load_from_mmar env item mmar_dir progress map_location
               pretrained weights_only model_key in
  let warnings :=
    (if pretrained then []
     else [EvWarn "Loading a ScriptModule, 'pretrained' option ignored."])
    ++ (if weights_only
        then [EvWarn "Loading a ScriptModule, 'weights_only' option ignored."]
        else []) in
  outcome run
  = match torch_jit_load env (path_join model_dir (MODEL_FILE d)) map_location with
    | Ok module => Ok (Script module)
    | Raise e => Raise e
    end
  /\ log_of run
     = log_of (download_mmar env (ItemDesc d) mmar_dir progress)
         ++ [available_notice d model_dir] ++ warnings
         ++ [EvJitLoad (path_join model_dir (MODEL_FILE d)) map_location]
  /\ filter is_warning (log_of run) = warnings
  /\ outcome run
     = outcome (load_from_mmar env item mmar_dir progress map_location
                  true false model_key).
Proof.
  intros Hitem Hdir Hts run warnings. unfold run.
  rewrite !(load_from_mmar_located env item mmar_dir progress map_location
              model_key d model_dir Hitem Hdir).
  rewrite Hts, !outcome_pair, !log_of_pair.
  split; [reflexivity|]. split; [|split; [|reflexivity]].
  - unfold warnings. rewrite <- !app_assoc. reflexivity.
  - rewrite !filter_app.
    rewrite (filter_none _ _ (setup_not_warning _
               (download_mmar_log env (ItemDesc d) mmar_dir progress))).
    unfold warnings. destruct pretrained, weights_only; reflexivity.
Qed.

Lemma script_module_ignores_options_witness :
  outcome (load_from_mmar env_no_conf (ItemDesc script_descriptor) (Some "/data")
             true (Some "cpu") false true "model")
  = Ok (Script "ScriptModule:/data/traced_model_1/models/model.ts")
  /\ filter is_warning
       (log_of (load_from_mmar env_no_conf (ItemDesc script_descriptor) (Some "/data")
                  true (Some "cpu") false true "model"))
     = [EvWarn "Loading a ScriptModule, 'pretrained' option ignored.";
        EvWarn "Loading a ScriptModule, 'weights_only' option ignored."].
Proof.
  pose proof (script_module_ignores_options string env_no_conf
                (ItemDesc script_descriptor) (Some "/data") true (Some "cpu")
                false true "model" script_descriptor "/data/traced_model_1"
                eq_refl eq_refl eq_refl) as H.
  cbv zeta in H. destruct H as [Hout [_ [Hwarn _]]].
  split; [exact Hout | exact Hwarn].
Defined.

(** The consultations of a run whose archive is in place. *)
Lemma load_from_mmar_consultations (obj : Type) (env : Env obj) (item : item_arg)
  (mmar_dir : option string) (progress : bool) (map_location : option string)
  (pretrained weights_only : bool) (model_key : string)
  (d : ModelDescriptor) (model_dir : string) :
  outcome (@resolve_item obj item) = Ok d ->
  outcome (download_mmar env (ItemDesc d) mmar_dir progress) = Ok model_dir ->
  consultations (log_of (load_from_mmar env item mmar_dir progress map_location
                           pretrained weights_only model_key))
  = if endswith (path_join model_dir (MODEL_FILE d)) ".ts" then []
    else match torch_load env (path_join model_dir (MODEL_FILE d)) map_location with
         | Raise _ => []
         | Ok model_dict =>
             if weights_only then []
             else log_of (find_model_config env d model_dir model_dict model_key)
         end.
Proof.
  intros Hitem Hdir.
  rewrite (load_from_mmar_located env item mmar_dir progress map_location
             model_key d model_dir Hitem Hdir).
  pose proof (filter_none _ _ (setup_not_consultation _
                (download_mmar_log env (ItemDesc d) mmar_dir progress))) as Hsetup.
  unfold consultations.
  destruct (endswith (path_join model_dir (MODEL_FILE d)) ".ts").
  - rewrite log_of_pair, !filter_app, Hsetup.
    destruct pretrained, weights_only; reflexivity.
  - destruct (torch_load env (path_join model_dir (MODEL_FILE d)) map_location)
      as [model_dict|e].
    + destruct weights_only; rewrite log_of_pair, !filter_app, Hsetup.
      * reflexivity.
      * simpl app.
        apply (model_from_config_consultations env d model_dir model_dict
                 model_key pretrained).
    + rewrite log_of_pair, !filter_app, Hsetup. reflexivity.
Qed.

(** C1 as the specification states it fails: with the weights dictionary
    [{"train_conf": {"model": 0}}] the search of [train_conf] finds the
    model key and returns its value 0; as 0 has no truth value the
    configuration file is opened and searched all the same, and then the
    weights dictionary. *)
Lemma found_falsy_train_conf_entry_is_not_final :
  getitem "model" [("model", VInt 0)] = Some (VInt 0)
  /\ @_get_val_obj string
       (get_default "train_conf" [("train_conf", VDict [("model", VInt 0)])] (VDict []))
       "model" (VDict [])
     = Ok (VInt 0)
  /\ consultations
       (log_of (load_from_mmar
                  (env_with_archive [("train_conf", VDict [("model", VInt 0)])]
                     (Ok [("epochs", VInt 100)]))
                  (ItemIdx (IdxInt 0)) (Some ".") true None true false "model"))
     = [EvSearch SrcTrainConf;
        EvOpenJson "./clara_pt_prostate_mri_segmentation_1/config_train.json";
        EvSearch SrcConfigFile; EvSearch SrcModelDict].
Proof. repeat split. Qed.

(** C1, amended. The sources of the configuration are consulted in one
    order: the search of [train_conf], the opening of the configuration
    file and its search, the search of the whole weights dictionary; every
    run stops somewhere along this sequence. When the search of
    [train_conf] gives a result that has a truth value (not [None], false,
    zero or empty), this result is the configuration, the sequence ends
    there (the configuration file is not opened and the weights dictionary
    is not searched), and the run is the same with any other reader of the
    configuration file, also one that fails. When it gives a result without
    truth value and the configuration file is read, the result of the file
    is taken if it has a truth value, and only else the weights dictionary
    is searched. *)
Theorem config_sources_in_priority_order (obj : Type) (env : Env obj) (item : item_arg)
  (mmar_dir : option string) (progress : bool) (map_location : option string)
  (pretrained : bool) (model_key : string)
  (d : ModelDescriptor) (model_dir : string) :
  outcome (@resolve_item obj item) = Ok d ->
  outcome (download_mmar env (ItemDesc d) mmar_dir progress) = Ok model_dir ->
  let model_file := path_join model_dir (MODEL_FILE d) in
  let json_path := path_join model_dir (config_file_or_default d) in
  let run := load_from_mmar env item mmar_dir progress map_location
               pretrained false model_key in
  is_prefix (consultations (log_of run))
    [EvSearch SrcTrainConf; EvOpenJson json_path; EvSearch SrcConfigFile;
     EvSearch SrcModelDict]
  /\ forall (model_dict : dict),
      endswith model_file ".ts" = false ->
      torch_load env model_file map_location = Ok model_dict ->
      let train_conf := get_default "train_conf" model_dict (VDict []) in
      (forall (cfg : value),
          @_get_val_obj obj train_conf model_key (VDict []) = Ok cfg ->
          truthy cfg = true ->
          find_model_config env d model_dir model_dict model_key
          = (Ok cfg, [EvSearch SrcTrainConf])
          /\ consultations (log_of run) = [EvSearch SrcTrainConf]
          /\ forall reader,
              load_from_mmar (with_read_json env reader) item mmar_dir progress
                map_location pretrained false model_key = run)
      /\ (forall (c1 : value) (conf_dict : dict),
             @_get_val_obj obj train_conf model_key (VDict []) = Ok c1 ->
             truthy c1 = false ->
             read_json_dict env json_path = Ok conf_dict ->
             let c2 := _get_val conf_dict model_key (VDict []) in
             outcome (find_model_config env d model_dir model_dict model_key)
             = Ok (if truthy c2 then c2 else _get_val model_dict model_key (VDict []))
             /\ consultations (log_of run)
                = [EvSearch SrcTrainConf; EvOpenJson json_path; EvSearch SrcConfigFile]
                    ++ (if truthy c2 then [] else [EvSearch SrcModelDict])).
Proof.
  intros Hitem Hdir model_file json_path run.
  pose proof (load_from_mmar_consultations obj env item mmar_dir progress
                map_location pretrained false model_key d model_dir Hitem Hdir)
    as Hcons.
  fold run model_file in Hcons.
  split.
  - rewrite Hcons.
    destruct (endswith model_file ".ts"); [eexists; reflexivity|].
    destruct (torch_load env model_file map_location) as [model_dict|e];
      [|eexists; reflexivity].
    apply find_model_config_order.
  - intros model_dict Hts Hload train_conf.
    rewrite Hts, Hload in Hcons. split.
    + intros cfg Hsearch Htruthy.
      pose proof (find_in_train_conf env d model_dir model_dict model_key cfg
                    Hsearch Htruthy) as Hfind.
      split; [exact Hfind|]. split.
      * rewrite Hcons, Hfind. reflexivity.
      * intros reader. unfold run.
        rewrite (load_from_mmar_located env item mmar_dir progress map_location
                   model_key d model_dir Hitem Hdir).
        rewrite (load_from_mmar_located (with_read_json env reader) item mmar_dir
                   progress map_location model_key d model_dir Hitem Hdir).
        fold model_file. rewrite Hts.
        change (torch_load (with_read_json env reader)) with (torch_load env).
        rewrite Hload.
        unfold model_from_config.
        rewrite (bind_Ok _ _ cfg _ Hfind).
        rewrite (bind_Ok _ _ cfg _
                   (find_in_train_conf (with_read_json env reader) d model_dir
                      model_dict model_key cfg Hsearch Htruthy)).
        reflexivity.
    + intros c1 conf_dict Hsearch Hfalsy Hread c2.
      pose proof (find_after_train_conf env d model_dir model_dict model_key c1
                    conf_dict Hsearch Hfalsy Hread) as Hfind.
      fold json_path c2 in Hfind.
      rewrite Hcons, Hfind.
      destruct (truthy c2); split; reflexivity.
Qed.

Lemma config_sources_in_priority_order_witness :
  find_model_config env_embedded_conf (nth 3 MODEL_DESC script_descriptor)
    "/data/clara_pt_pathology_metastasis_detection_1"
    [("train_conf",
      VDict [("epochs", VInt 100);
             ("train",
              VDict [("model",
                      VDict [("name", VStr "UNet");
                             ("args", VDict [("dimensions", VInt 3)])])])]);
     ("model", VDict [("conv.weight", VList [VInt 1; VInt 2])])]
    "model"
  = (Ok (VDict [("name", VStr "UNet"); ("args", VDict [("dimensions", VInt 3)])]),
     [EvSearch SrcTrainConf])
  /\ consultations
       (log_of (load_from_mmar env_embedded_conf (ItemIdx (IdxInt 3)) (Some "/data")
                  true None true false "model"))
     = [EvSearch SrcTrainConf]
  /\ outcome (load_from_mmar env_embedded_conf (ItemIdx (IdxInt 3)) (Some "/data")
                true None true false "model")
     = Ok (Model "UNet()")
  /\ consultations
       (log_of (load_from_mmar
                  (env_with_archive
                     [("train_conf", VDict [("model", VInt 0)]);
                      ("model", VDict [("conv.weight", VInt 1)])]
                     (Ok [("train", VDict [("model", VDict [("name", VStr "UNet")])])]))
                  (ItemIdx (IdxInt 3)) (Some "/data") true None true false "model"))
     = [EvSearch SrcTrainConf;
        EvOpenJson
          "/data/clara_pt_pathology_metastasis_detection_1/config/config_train.json";
        EvSearch SrcConfigFile]
  /\ consultations
       (log_of (load_from_mmar env_no_conf (ItemIdx (IdxInt 3)) (Some "/data")
                  true None true false "model"))
     = [EvSearch SrcTrainConf;
        EvOpenJson
          "/data/clara_pt_pathology_metastasis_detection_1/config/config_train.json";
        EvSearch SrcConfigFile; EvSearch SrcModelDict].
Proof.
  pose proof (config_sources_in_priority_order string env_embedded_conf
                (ItemIdx (IdxInt 3)) (Some "/data") true None true "model"
                (nth 3 MODEL_DESC script_descriptor)
                "/data/clara_pt_pathology_metastasis_detection_1"
                eq_refl eq_refl) as H.
  cbv zeta in H. destruct H as [_ H].
  specialize (H _ eq_refl eq_refl). destruct H as [H _].
  specialize (H _ eq_refl eq_refl). destruct H as [Hfind [Hcons _]].
  split; [exact Hfind|]. split; [exact Hcons|]. split; [reflexivity|].
  split.
  - pose proof (config_sources_in_priority_order string
                  (env_with_archive
                     [("train_conf", VDict [("model", VInt 0)]);
                      ("model", VDict [("conv.weight", VInt 1)])]
                     (Ok [("train", VDict [("model", VDict [("name", VStr "UNet")])])]))
                  (ItemIdx (IdxInt 3)) (Some "/data") true None true "model"
                  (nth 3 MODEL_DESC script_descriptor)
                  "/data/clara_pt_pathology_metastasis_detection_1"
                  eq_refl eq_refl) as H2.
    cbv zeta in H2. destruct H2 as [_ H2].
    specialize (H2 _ eq_refl eq_refl). destruct H2 as [_ H2].
    exact (proj2 (H2 (VInt 0) _ eq_refl eq_refl eq_refl)).
  - pose proof (config_sources_in_priority_order string env_no_conf
                  (ItemIdx (IdxInt 3)) (Some "/data") true None true "model"
                  (nth 3 MODEL_DESC script_descriptor)
                  "/data/clara_pt_pathology_metastasis_detection_1"
                  eq_refl eq_refl) as H3.
    cbv zeta in H3. destruct H3 as [_ H3].
    specialize (H3 _ eq_refl eq_refl). destruct H3 as [_ H3].
    exact (proj2 (H3 (VDict []) _ eq_refl eq_refl eq_refl)).
Defined.

(** A key that [train_conf] holds with an empty value counts as nothing
    found there: the configuration file is opened. *)
Example empty_train_conf_entry_falls_through :
  consultations
    (log_of (find_model_config env_no_conf (nth 0 MODEL_DESC script_descriptor) "."
               [("train_conf", VDict [("model", VDict [])])] "model"))
  = [EvSearch SrcTrainConf; EvOpenJson "./config_train.json";
     EvSearch SrcConfigFile; EvSearch SrcModelDict].
Proof. reflexivity. Qed.

(** C7, evaluated on the first descriptor of the table, which has no
    [config_file] entry, with an archive that holds no configuration: the
    configuration file that was opened is [config_train.json] in the
    directory of the archive, and the error names the configuration
    as [None]. *)
Theorem config_error_names_None_for_default_config :
  outcome (load_from_mmar env_no_conf (ItemIdx (IdxInt 0)) (Some ".") true None
             true false "model")
  = Raise (ValueError [Lit
      "Could not load model config dictionary from config: None, or from model file: models/model.pt."])
  /\ consultations
       (log_of (load_from_mmar env_no_conf (ItemIdx (IdxInt 0)) (Some ".") true None
                  true false "model"))
     = [EvSearch SrcTrainConf;
        EvOpenJson "./clara_pt_prostate_mri_segmentation_1/config_train.json";
        EvSearch SrcConfigFile; EvSearch SrcModelDict]
  /\ CONFIG_FILE (nth 0 MODEL_DESC script_descriptor) = None.
Proof. repeat split. Qed.

(** ** Termination of the search on an object graph *)

Module ObjectGraphFacts.
Import ObjectGraph.

Lemma _get_val_ref_unfold (fuel : nat) (st : store) (input_dict : mapping)
  (key : string) (default : ref_value) :
  _get_val_ref (S fuel) st input_dict key default =
  match getitem_ref key input_dict with
  | Some hit => Some hit
  | None =>
      search_keys (fun val => _get_val_ref fuel st val key RNone) st input_dict
        (map fst input_dict) default
  end.
Proof.
  simpl. destruct (getitem_ref key input_dict) as [hit|]; [reflexivity|].
  generalize (map fst input_dict) as keys.
  induction keys as [|sub_dict rest IH]; simpl; [reflexivity|].
  destruct (getitem_ref sub_dict input_dict) as [[| | | | |l]|]; try exact IH.
  destruct (nth_error st l) as [val|]; [|exact IH].
  destruct (_get_val_ref fuel st val key RNone) as [found_val|]; [|reflexivity].
  destruct (is_None_ref found_val); [exact IH | reflexivity].
Qed.

Lemma getitem_ref_some_in (key : string) (m : mapping) (v : ref_value) :
  getitem_ref key m = Some v -> In (key, v) m.
Proof.
  induction m as [|[k0 v0] m IH]; simpl; [discriminate|].
  destruct (String.eqb_spec key k0) as [->|Hne]; intros H.
  - inversion H; subst. left. reflexivity.
  - right. apply IH. exact H.
Qed.

Lemma path_allocated (st : store) (l l' : loc) :
  path st l l' -> l < List.length st.
Proof.
  intros H. assert (He : exists x, edge st l x) by (destruct H; eauto).
  destruct He as [x [m [k [m' [Hm _]]]]].
  apply nth_error_Some. rewrite Hm. discriminate.
Qed.

Lemma path_snoc (st : store) (a b c : loc) :
  path st a b -> edge st b c -> path st a c.
Proof.
  induction 1 as [a b Hab | a b b' Hab _ IH]; intros Hbc.
  - eapply path_more; [exact Hab | apply path_step; exact Hbc].
  - eapply path_more; [exact Hab | apply IH; exact Hbc].
Qed.

Lemma path_trans (st : store) (a b c : loc) :
  path st a b -> path st b c -> path st a c.
Proof.
  induction 1 as [a b Hab | a b b' Hab _ IH]; intros Hbc.
  - eapply path_more; eassumption.
  - eapply path_more; [exact Hab | apply IH; exact Hbc].
Qed.

(** Distinct locations of a store are no more than its mappings. *)
Lemma distinct_locations_bounded (st : store) (locs : list loc) :
  NoDup locs -> (forall l, In l locs -> l < List.length st) ->
  List.length locs <= List.length st.
Proof.
  intros Hnd Hlt.
  rewrite <- (length_seq (List.length st) 0).
  apply NoDup_incl_length; [exact Hnd|].
  intros l Hin. apply in_seq. specialize (Hlt l Hin). lia.
Qed.

(** The loop returns when every nested call that it makes returns. *)
Lemma search_keys_returns (st : store) (input_dict : mapping) (key : string)
  (bound : nat) (keys : list string) (default : ref_value) :
  (forall sub_dict l val,
      getitem_ref sub_dict input_dict = Some (RMap l) -> nth_error st l = Some val ->
      exists v, forall fuel, bound <= fuel ->
                             _get_val_ref fuel st val key RNone = Some v) ->
  exists v, forall fuel, bound <= fuel ->
    search_keys (fun val => _get_val_ref fuel st val key RNone) st input_dict
      keys default = Some v.
Proof.
  intros Hnested. induction keys as [|sub_dict rest [v IH]]; simpl.
  - exists default. reflexivity.
  - destruct (getitem_ref sub_dict input_dict) as [[| | | | |l]|] eqn:Hget;
      try (exists v; exact IH).
    destruct (nth_error st l) as [val|] eqn:Hval; [|exists v; exact IH].
    destruct (Hnested sub_dict l val Hget Hval) as [found Hfound].
    destruct (is_None_ref found) eqn:Hnone.
    + exists v. intros fuel Hfuel. rewrite (Hfound fuel Hfuel), Hnone.
      apply IH. exact Hfuel.
    + exists found. intros fuel Hfuel. rewrite (Hfound fuel Hfuel), Hnone.
      reflexivity.
Qed.

(** The search of the mapping at [l] returns within as many nested calls
    as there are mappings apart from the ones in [above], the mappings
    that the search came through. *)
Lemma search_returns_below (st : store) (key : string) :
  acyclic st ->
  forall (budget : nat) (l : loc) (m : mapping) (above : list loc)
         (default : ref_value),
    nth_error st l = Some m ->
    NoDup above ->
    (forall a, In a above -> path st a l) ->
    List.length st - List.length above <= budget ->
    exists v, forall fuel, budget <= fuel ->
                           _get_val_ref fuel st m key default = Some v.
Proof.
  intros Hacyclic.
  induction budget as [|budget IH]; intros l m above default Hm Hnd Habove Hsize.
  - exfalso.
    assert (Hfresh : ~ In l above).
    { intros Hin. apply (Hacyclic l). apply Habove. exact Hin. }
    assert (Hlen : List.length (l :: above) <= List.length st).
    { apply distinct_locations_bounded.
      - constructor; assumption.
      - intros x [<-|Hin].
        + apply nth_error_Some. rewrite Hm. discriminate.
        + apply (path_allocated st x l). apply Habove. exact Hin. }
    simpl in Hlen. lia.
  - assert (Hfresh : ~ In l above).
    { intros Hin. apply (Hacyclic l). apply Habove. exact Hin. }
    destruct (getitem_ref key m) as [hit|] eqn:Hdirect.
    + exists hit. intros [|fuel] Hfuel; [lia|].
      rewrite _get_val_ref_unfold, Hdirect. reflexivity.
    + destruct (search_keys_returns st m key budget (map fst m) default) as [v Hv].
      * intros sub_dict l' val Hget Hval.
        apply (IH l' val (l :: above) RNone Hval).
        -- constructor; assumption.
        -- assert (Hedge : edge st l l').
           { exists m, sub_dict, val. repeat split; try assumption.
             apply getitem_ref_some_in. exact Hget. }
           intros a [<-|Hin]; [apply path_step; exact Hedge|].
           eapply path_snoc; [apply Habove; exact Hin | exact Hedge].
        -- assert (Hlen : List.length (l :: above) <= List.length st).
           { apply distinct_locations_bounded.
             - constructor; assumption.
             - intros x [<-|Hin].
               + apply nth_error_Some. rewrite Hm. discriminate.
               + apply (path_allocated st x l). apply Habove. exact Hin. }
           simpl in *. lia.
      * exists v. intros [|fuel] Hfuel; [lia|].
        rewrite _get_val_ref_unfold, Hdirect. apply Hv. lia.
Qed.

(** On a mapping nested in itself the search of an absent key never
    returns: no number of nested calls suffices. *)
Lemma search_of_cycle_never_returns (fuel : nat) :
  _get_val_ref fuel self_nested [("self", RMap 0)] "model" RNone = None.
Proof.
  induction fuel as [|fuel IH]; [reflexivity|].
  rewrite _get_val_ref_unfold. simpl. rewrite IH. reflexivity.
Qed.

End ObjectGraphFacts.

(** C10. On a finite store in which no mapping is nested in itself, the
    search of any mapping of the store returns: there is a result (a found
    value or the default) that every run with at least as many nested calls
    as the store has mappings produces. Each nested call goes to a strictly
    smaller mapping: what is nested in the entry is nested in the mapping,
    and the mapping is not nested in its entry. *)
Theorem search_terminates_on_acyclic_store (st : ObjectGraph.store) :
  ObjectGraph.acyclic st ->
  (forall (l : ObjectGraph.loc) (input_dict : ObjectGraph.mapping) (key : string)
          (default : ObjectGraph.ref_value),
      nth_error st l = Some input_dict ->
      exists v,
        forall fuel, List.length st <= fuel ->
          ObjectGraph._get_val_ref fuel st input_dict key default = Some v)
  /\ (forall l l',
         ObjectGraph.edge st l l' ->
         (forall x, ObjectGraph.within st l' x -> ObjectGraph.within st l x)
         /\ ~ ObjectGraph.within st l' l).
Proof.
  intros Hacyclic. split.
  - intros l input_dict key default Hm.
    apply (ObjectGraphFacts.search_returns_below st key Hacyclic
             (List.length st) l input_dict [] default Hm).
    + constructor.
    + intros a [].
    + simpl. lia.
  - intros l l' Hedge. split.
    + intros x [<-|Hpath]; right.
      * apply ObjectGraph.path_step. exact Hedge.
      * eapply ObjectGraph.path_more; eassumption.
    + intros [->|Hpath].
      * apply (Hacyclic l). apply ObjectGraph.path_step. exact Hedge.
      * apply (Hacyclic l). eapply ObjectGraph.path_more; eassumption.
Qed.

(** A store whose references go to ever smaller ranks has no cycle. *)
Lemma ranked_store_acyclic (st : ObjectGraph.store) (rank : ObjectGraph.loc -> nat) :
  (forall l l', ObjectGraph.edge st l l' -> rank l' < rank l) ->
  ObjectGraph.acyclic st.
Proof.
  intros Hrank.
  assert (Hpath : forall l l', ObjectGraph.path st l l' -> rank l' < rank l).
  { induction 1 as [a b Hab | a b c Hab _ IH].
    - apply Hrank. exact Hab.
    - specialize (Hrank a b Hab). lia. }
  intros l Hcycle. specialize (Hpath l l Hcycle). lia.
Qed.

Lemma nested_store_acyclic : ObjectGraph.acyclic ObjectGraph.nested_store.
Proof.
  apply (ranked_store_acyclic _ (fun l => 4 - l)).
  intros l l' [m [k [m' [Hm [Hin _]]]]].
  destruct l as [|[|[|[|l]]]]; simpl in Hm; inversion Hm; subst; simpl in Hin.
  - destruct Hin as [H|[H|[]]]; inversion H; subst; lia.
  - destruct Hin as [H|[]]; inversion H; subst; lia.
  - destruct Hin as [H|[]]; inversion H.
  - destruct Hin as [H|[]]; inversion H.
  - destruct l; discriminate.
Qed.

Lemma search_terminates_on_acyclic_store_witness :
  ObjectGraph.acyclic ObjectGraph.nested_store
  /\ (exists v,
         forall fuel, 4 <= fuel ->
           ObjectGraph._get_val_ref fuel ObjectGraph.nested_store
             [("a", ObjectGraph.RMap 1); ("c", ObjectGraph.RMap 3)]
             "model" ObjectGraph.RNone = Some v)
  /\ ObjectGraph._get_val_ref 4 ObjectGraph.nested_store
       [("a", ObjectGraph.RMap 1); ("c", ObjectGraph.RMap 3)]
       "model" ObjectGraph.RNone = Some (ObjectGraph.RInt 1).
Proof.
  split; [exact nested_store_acyclic|]. split; [|reflexivity].
  apply (proj1 (search_terminates_on_acyclic_store ObjectGraph.nested_store
                  nested_store_acyclic)
           0 _ "model" ObjectGraph.RNone eq_refl).
Defined.

(** ** The tree model is the search on the store that represents it *)

Lemma wf_dict_entries (d : dict) :
  wf_value (VDict d) <->
  NoDup (map fst d) /\ Forall (fun e => wf_value (snd e)) d.
Proof.
  simpl. split; intros [Hnd Hall]; (split; [exact Hnd|]); clear Hnd.
  - induction d as [|[k v] d IH]; constructor.
    + exact (proj1 Hall).
    + apply IH. exact (proj2 Hall).
  - induction d as [|[k v] d IH]; [exact I|].
    inversion Hall; subst. split; [assumption | apply IH; assumption].
Qed.

(** A nested mapping is less deep than the mapping that holds it: each
    nested call of the search goes to a smaller mapping. *)
Lemma depth_entry (d : dict) (k : string) (v : value) :
  In (k, v) d -> depth v < depth (VDict d).
Proof.
  induction d as [|[k0 v0] d IH]; intros Hin; [contradiction|].
  change (depth (VDict ((k0, v0) :: d)))
    with (S (Nat.max (depth v0) (pred (depth (VDict d))))).
  destruct Hin as [Heq|Hin].
  - inversion Heq; subst. lia.
  - specialize (IH Hin). lia.
Qed.

Lemma represents_dict (st : ObjectGraph.store) (r : ObjectGraph.ref_value) (d : dict) :
  ObjectGraph.represents st r (VDict d) <->
  exists l m, r = ObjectGraph.RMap l /\ nth_error st l = Some m
              /\ ObjectGraph.represents_entries st d m.
Proof.
  simpl.
  assert (Hsame : forall d m,
             (fix entries (d : list (string * value)) (m : ObjectGraph.mapping)
                  {struct d} : Prop :=
                match d, m with
                | [], [] => True
                | (k', v') :: d', (k, r') :: m' =>
                    k = k' /\ ObjectGraph.represents st r' v' /\ entries d' m'
                | _, _ => False
                end) d m
             <-> ObjectGraph.represents_entries st d m).
  { clear. induction d as [|[k v] d IH]; intros [|[k0 r0] m]; simpl; try tauto.
    rewrite IH. tauto. }
  split; intros [l [m [Hr [Hm He]]]]; exists l, m; repeat split; try assumption;
    apply Hsame; exact He.
Qed.

Lemma represents_None (st : ObjectGraph.store) (r : ObjectGraph.ref_value) (v : value) :
  ObjectGraph.represents st r v -> ObjectGraph.is_None_ref r = is_None v.
Proof.
  destruct v; simpl; intros H; try (subst r; reflexivity).
  destruct H as [l [m [-> _]]]. reflexivity.
Qed.

Lemma represents_leaf (st : ObjectGraph.store) (r : ObjectGraph.ref_value) (v : value) :
  ObjectGraph.represents st r v -> is_mapping v = false ->
  forall l, r <> ObjectGraph.RMap l.
Proof.
  destruct v; simpl; intros H Hleaf loc; try (subst r; discriminate).
  discriminate Hleaf.
Qed.

Lemma represents_entries_keys (st : ObjectGraph.store) (d : dict)
  (m : ObjectGraph.mapping) :
  ObjectGraph.represents_entries st d m -> map fst m = map fst d.
Proof.
  revert m. induction d as [|[k v] d IH]; intros [|[k0 r0] m]; simpl;
    try tauto.
  intros [-> [_ H]]. rewrite (IH m H). reflexivity.
Qed.

Lemma represents_entries_getitem (st : ObjectGraph.store) (d : dict)
  (m : ObjectGraph.mapping) (key : string) :
  ObjectGraph.represents_entries st d m ->
  match getitem key d with
  | Some v => exists r, ObjectGraph.getitem_ref key m = Some r
                        /\ ObjectGraph.represents st r v
  | None => ObjectGraph.getitem_ref key m = None
  end.
Proof.
  revert m. induction d as [|[k v] d IH]; intros [|[k0 r0] m]; simpl;
    try tauto.
  intros [-> [Hv H]]. destruct (String.eqb key k).
  - exists r0. split; [reflexivity | exact Hv].
  - apply IH. exact H.
Qed.

Lemma getitem_ref_entry (m : ObjectGraph.mapping) (k : string)
  (r : ObjectGraph.ref_value) :
  NoDup (map fst m) -> In (k, r) m -> ObjectGraph.getitem_ref k m = Some r.
Proof.
  induction m as [|[k0 r0] m IH]; simpl; intros Hnd Hin; [contradiction|].
  inversion Hnd as [|? ? Hnotin Hnd']; subst.
  destruct Hin as [Heq | Hin].
  - inversion Heq; subst. rewrite String.eqb_refl. reflexivity.
  - destruct (String.eqb_spec k k0) as [->|Hne].
    + exfalso. apply Hnotin. change k0 with (fst (k0, r)). apply in_map. exact Hin.
    + apply IH; assumption.
Qed.

Lemma depth_dict_pos (d : dict) : 0 < depth (VDict d).
Proof. destruct d; cbn; lia. Qed.

Section TreeAndGraph.

Variable st : ObjectGraph.store.
Variable key : string.

(** The loop over the keys of [m], reading [m] at each key, follows the
    loop of the tree model over the entries. *)
Lemma search_keys_follows_entries (fuel : nat) (d : dict) (m : ObjectGraph.mapping)
  (default : value) (rdefault : ObjectGraph.ref_value) :
  ObjectGraph.represents st rdefault default ->
  (forall k sub msub l,
      In (k, VDict sub) d -> nth_error st l = Some msub ->
      ObjectGraph.represents_entries st sub msub ->
      exists r, ObjectGraph._get_val_ref fuel st msub key ObjectGraph.RNone = Some r
                /\ ObjectGraph.represents st r (_get_val sub key VNone)) ->
  forall (d_rest : dict) (m_rest : ObjectGraph.mapping),
    ObjectGraph.represents_entries st d_rest m_rest ->
    (forall k r, In (k, r) m_rest -> ObjectGraph.getitem_ref k m = Some r) ->
    (forall k v, In (k, v) d_rest -> In (k, v) d) ->
    exists r,
      ObjectGraph.search_keys
        (fun val => ObjectGraph._get_val_ref fuel st val key ObjectGraph.RNone)
        st m (map fst m_rest) rdefault = Some r
      /\ ObjectGraph.represents st r (search_entries d_rest key default).
Proof.
  intros Hdefault Hnested.
  induction d_rest as [|[k v] d_rest IH]; intros [|[k0 r0] m_rest] Hrep Hread Hsub;
    simpl in Hrep; try contradiction.
  - exists rdefault. split; [reflexivity | exact Hdefault].
  - destruct Hrep as [-> [Hv Hrest]].
    assert (Hgo : exists r,
               ObjectGraph.search_keys
                 (fun val => ObjectGraph._get_val_ref fuel st val key ObjectGraph.RNone)
                 st m (map fst m_rest) rdefault = Some r
               /\ ObjectGraph.represents st r (search_entries d_rest key default)).
    { apply IH; [exact Hrest | |].
      - intros k' r' Hin. apply Hread. right. exact Hin.
      - intros k' v' Hin. apply Hsub. right. exact Hin. }
    simpl map. simpl ObjectGraph.search_keys.
    rewrite (Hread k r0 (or_introl eq_refl)).
    destruct v as [| b | z | s | items | sub];
      try (simpl in Hv; subst r0; exact Hgo).
    apply represents_dict in Hv. destruct Hv as [l [msub [-> [Hl Hentries]]]].
    rewrite Hl.
    destruct (Hnested k sub msub l (Hsub k (VDict sub) (or_introl eq_refl))
                Hl Hentries) as [found [Hfound Hrepr]].
    rewrite Hfound, (represents_None st found _ Hrepr).
    simpl search_entries.
    destruct (is_None (_get_val sub key VNone)); [exact Hgo|].
    exists found. split; [reflexivity | exact Hrepr].
Qed.

(** The search of the tree model gives what the transcribed search gives on
    any store that represents the tree, as soon as the nested calls allowed
    reach the depth of the tree. *)
Lemma tree_search_on_store (v : value) :
  forall (d : dict), v = VDict d ->
  forall (m : ObjectGraph.mapping) (default : value)
         (rdefault : ObjectGraph.ref_value) (fuel : nat),
    wf_value v ->
    ObjectGraph.represents_entries st d m ->
    ObjectGraph.represents st rdefault default ->
    depth v <= fuel ->
    exists r, ObjectGraph._get_val_ref fuel st m key rdefault = Some r
              /\ ObjectGraph.represents st r (_get_val d key default).
Proof.
  induction v as [| | | | l _ | d0 IH] using value_nested_ind;
    intros d Heq; try discriminate Heq.
  inversion Heq; subst d0. clear Heq.
  intros m default rdefault fuel Hwf Hrep Hdefault Hdepth.
  destruct fuel as [|fuel]; [pose proof (depth_dict_pos d); lia|].
  rewrite ObjectGraphFacts._get_val_ref_unfold, _get_val_unfold.
  pose proof (represents_entries_getitem st d m key Hrep) as Hdirect.
  destruct (getitem key d) as [hit|].
  - destruct Hdirect as [r [Hr Hhit]]. rewrite Hr. exists r. split; [reflexivity|exact Hhit].
  - rewrite Hdirect.
    apply wf_dict_entries in Hwf. destruct Hwf as [Hnodup Hwf].
    apply (search_keys_follows_entries fuel d m default rdefault Hdefault).
    + intros k sub msub l Hin Hl Hentries.
      apply (proj1 (Forall_forall _ _) IH (k, VDict sub) Hin sub eq_refl
               msub VNone ObjectGraph.RNone fuel).
      * exact (proj1 (Forall_forall _ _) Hwf (k, VDict sub) Hin).
      * exact Hentries.
      * reflexivity.
      * pose proof (depth_entry d k (VDict sub) Hin). cbn [snd]. lia.
    + exact Hrep.
    + intros k r Hin. apply getitem_ref_entry; [|exact Hin].
      rewrite (represents_entries_keys st d m Hrep). exact Hnodup.
    + intros k v Hin. exact Hin.
Qed.

End TreeAndGraph.

(** X23. [_get_val] of the tree model is total, and it is the result of the
    search transcribed with its recursion and its reads [input_dict[sub_dict]]:
    on a store that represents a dictionary without repeated keys, the
    transcribed search returns the representation of [_get_val]'s result
    when it may nest as deep as the dictionary. *)
Theorem tree_model_is_transcribed_search (st : ObjectGraph.store) (d : dict)
  (m : ObjectGraph.mapping) (key : string) (default : value)
  (rdefault : ObjectGraph.ref_value) (fuel : nat) :
  wf_value (VDict d) ->
  ObjectGraph.represents_entries st d m ->
  ObjectGraph.represents st rdefault default ->
  depth (VDict d) <= fuel ->
  exists r, ObjectGraph._get_val_ref fuel st m key rdefault = Some r
            /\ ObjectGraph.represents st r (_get_val d key default).
Proof.
  intros Hwf Hrep Hdefault Hdepth.
  exact (tree_search_on_store st key (VDict d) d eq_refl m default rdefault fuel
           Hwf Hrep Hdefault Hdepth).
Qed.

(** [nested_store] represents [{"a": {"b": {"model": 1}}, "c": {"model": 2}}],
    and the two searches agree on it. *)
Lemma tree_model_is_transcribed_search_witness :
  exists r,
    ObjectGraph._get_val_ref 3 ObjectGraph.nested_store
      [("a", ObjectGraph.RMap 1); ("c", ObjectGraph.RMap 3)]
      "model" ObjectGraph.RNone = Some r
    /\ ObjectGraph.represents ObjectGraph.nested_store r
         (_get_val [("a", VDict [("b", VDict [("model", VInt 1)])]);
                    ("c", VDict [("model", VInt 2)])] "model" VNone).
Proof.
  apply tree_model_is_transcribed_search.
  - simpl. repeat split; repeat constructor; simpl; intuition discriminate.
  - simpl. repeat split.
    + exists 1, [("b", ObjectGraph.RMap 2)]. repeat split.
      exists 2, [("model", ObjectGraph.RInt 1)]. repeat split.
    + exists 3, [("model", ObjectGraph.RInt 2)]. repeat split.
  - reflexivity.
  - simpl. lia.
Defined.

(** * Further properties of the resolver *)

(** ** Descriptor resolution by index and by id *)

Lemma tuple_index_some_range {A : Type} (t : list A) (i : Z) (x : A) :
  tuple_index t i = Some x ->
  (- Z.of_nat (List.length t) <= i < Z.of_nat (List.length t))%Z /\ In x t.
Proof.
  intros H. split.
  - destruct (Z_lt_ge_dec i (- Z.of_nat (List.length t))) as [Hlo|Hlo].
    + rewrite (tuple_index_out_of_range t i (or_introl Hlo)) in H. discriminate.
    + destruct (Z_lt_ge_dec i (Z.of_nat (List.length t))) as [Hhi|Hhi]; [lia|].
      assert (Hge : (Z.of_nat (List.length t) <= i)%Z) by lia.
      rewrite (tuple_index_out_of_range t i (or_intror Hge)) in H. discriminate.
  - unfold tuple_index in H.
    destruct (((if (i <? 0)%Z then (i + Z.of_nat (List.length t))%Z else i) <? 0)%Z
              || (Z.of_nat (List.length t)
                  <=? (if (i <? 0)%Z then (i + Z.of_nat (List.length t))%Z else i))%Z);
      [discriminate|].
    eapply nth_error_In. exact H.
Qed.

(** X1. Whatever the request, a descriptor that [_get_model_spec] returns
    is an entry of the table, and a lookup that succeeds prints nothing;
    for a string request the id of the entry is the request up to letter
    case and surrounding whitespace, for an integer request the index lies
    in [-len, len). *)
Theorem resolution_returns_table_entry (obj : Type) (idx : index)
  (d : ModelDescriptor) (log : list (event obj)) :
  @_get_model_spec obj idx = (Ok d, log) ->
  In d MODEL_DESC /\ log = []
  /\ (forall s, idx = IdxStr s -> matches_id s (ID d))
  /\ (forall i, idx = IdxInt i ->
        (- Z.of_nat (List.length MODEL_DESC) <= i < Z.of_nat (List.length MODEL_DESC))%Z).
Proof.
  destruct idx as [i|s|shown]; unfold _get_model_spec, unknown_request.
  - destruct (tuple_index MODEL_DESC i) as [d0|] eqn:Hidx; intros H; inversion H; subst.
    destruct (tuple_index_some_range MODEL_DESC i d Hidx) as [Hrange Hin].
    split; [exact Hin|]. split; [reflexivity|]. split.
    + intros s Hs. discriminate Hs.
    + intros j Hj. inversion Hj; subst. exact Hrange.
  - destruct (scan_ids (lower (strip s)) MODEL_DESC) as [d0|] eqn:Hscan;
      intros H; inversion H; subst.
    destruct (scan_ids_some _ _ _ Hscan) as [Hin Hkey].
    split; [exact Hin|]. split; [reflexivity|]. split.
    + intros s0 Hs0. inversion Hs0; subst s0.
      apply matches_id_normalized.
      * exact (proj1 (Forall_forall _ _) MODEL_DESC_ids_stripped d Hin).
      * symmetry. exact Hkey.
    + intros j Hj. discriminate Hj.
  - intros H. inversion H.
Qed.

Lemma resolution_returns_table_entry_witness :
  exists d,
    @_get_model_spec unit (IdxStr " CLARA_PT_BRAIN_MRI_SEGMENTATION_1") = (Ok d, [])
    /\ In d MODEL_DESC
    /\ matches_id " CLARA_PT_BRAIN_MRI_SEGMENTATION_1" (ID d).
Proof.
  eexists. split; [reflexivity|].
  destruct (resolution_returns_table_entry unit
              (IdxStr " CLARA_PT_BRAIN_MRI_SEGMENTATION_1") _ [] eq_refl)
    as [Hin [_ [Hmatch _]]].
  split; [exact Hin | exact (Hmatch _ eq_refl)].
Defined.

(** X2. An index from 0 to [len - 1] returns the descriptor at that
    position, and the index [i - len] returns the same descriptor. *)
Theorem valid_index_returns_position (obj : Type) (i : Z) :
  (0 <= i < Z.of_nat (List.length MODEL_DESC))%Z ->
  exists d,
    nth_error MODEL_DESC (Z.to_nat i) = Some d
    /\ @_get_model_spec obj (IdxInt i) = (Ok d, [])
    /\ @_get_model_spec obj (IdxInt (i - Z.of_nat (List.length MODEL_DESC))) = (Ok d, []).
Proof.
  intros H. destruct (tuple_index_in_range MODEL_DESC i H) as [d [Hnth Hidx]].
  exists d. split; [exact Hnth|]. split.
  - unfold _get_model_spec. rewrite Hidx. reflexivity.
  - destruct (tuple_index_negative MODEL_DESC
                (i - Z.of_nat (List.length MODEL_DESC))) as [d' [Hnth' Hidx']]; [lia|].
    replace (Z.of_nat (List.length MODEL_DESC)
             + (i - Z.of_nat (List.length MODEL_DESC)))%Z with i in Hnth' by lia.
    rewrite Hnth in Hnth'. inversion Hnth'; subst d'.
    unfold _get_model_spec. rewrite Hidx'. reflexivity.
Qed.

Lemma valid_index_returns_position_witness :
  exists d,
    nth_error MODEL_DESC 2 = Some d
    /\ @_get_model_spec unit (IdxInt 2) = (Ok d, [])
    /\ @_get_model_spec unit (IdxInt (-6)) = (Ok d, []).
Proof.
  apply (valid_index_returns_position unit 2). simpl. lia.
Defined.

(** X3. An index below [-len] or from [len] on is an [IndexError], and the
    table is not printed for it (it is printed for an unknown id only). *)
Theorem index_out_of_range_raises (obj : Type) (i : Z) :
  (i < - Z.of_nat (List.length MODEL_DESC) \/ Z.of_nat (List.length MODEL_DESC) <= i)%Z ->
  @_get_model_spec obj (IdxInt i) = (Raise IndexError, []).
Proof.
  intros H. unfold _get_model_spec.
  rewrite (tuple_index_out_of_range MODEL_DESC i H). reflexivity.
Qed.

Lemma index_out_of_range_raises_witness :
  @_get_model_spec unit (IdxInt 8) = (Raise IndexError, [])
  /\ @_get_model_spec unit (IdxInt (-9)) = (Raise IndexError, []).
Proof.
  split; apply index_out_of_range_raises; simpl; lia.
Defined.

Lemma matching_id_resolves (obj : Type) (d : ModelDescriptor) (s : string) :
  In d MODEL_DESC -> matches_id s (ID d) ->
  @_get_model_spec obj (IdxStr s) = (Ok d, []).
Proof.
  intros Hin Hmatch.
  pose proof (proj1 (Forall_forall _ _) MODEL_DESC_ids_stripped d Hin) as Hstrip.
  pose proof (proj1 (Forall_forall _ _) MODEL_DESC_scan_own_id d Hin) as Hscan.
  apply (matches_id_normalized s (ID d) Hstrip) in Hmatch.
  unfold _get_model_spec. fold (normalized s). rewrite Hmatch, Hscan. reflexivity.
Qed.

(** X4. Index, descriptor, id and back: the id of the descriptor found at
    an index, in any letter case and with whitespace around it, resolves
    to that same descriptor. *)
Theorem lookup_by_index_then_by_id (obj : Type) (i : Z) (d : ModelDescriptor)
  (log : list (event obj)) (s : string) :
  @_get_model_spec obj (IdxInt i) = (Ok d, log) ->
  matches_id s (ID d) ->
  @_get_model_spec obj (IdxStr s) = (Ok d, []).
Proof.
  intros Hidx Hmatch. apply matching_id_resolves; [|exact Hmatch].
  unfold _get_model_spec in Hidx.
  destruct (tuple_index MODEL_DESC i) as [d0|] eqn:Hi; inversion Hidx; subst.
  exact (proj2 (tuple_index_some_range MODEL_DESC i d Hi)).
Qed.

Lemma lookup_by_index_then_by_id_witness :
  exists d,
    @_get_model_spec unit (IdxInt (-1)) = (Ok d, [])
    /\ @_get_model_spec unit (IdxStr "Clara_PT_Pancreas_and_Tumor_CT_Segmentation_1  ")
       = (Ok d, []).
Proof.
  eexists. split; [reflexivity|].
  apply (lookup_by_index_then_by_id unit (-1) _ [] _ eq_refl).
  exists "", "Clara_PT_Pancreas_and_Tumor_CT_Segmentation_1", "  ". repeat split.
Defined.

(** ** [download_mmar] *)

Section Download.

Context {obj : Type}.
Variable env : Env obj.

(** The run of [download_mmar] for an item that resolves to [d]. *)
Lemma download_mmar_run (item : item_arg) (mmar_dir : option string)
  (progress : bool) (d : ModelDescriptor) :
  outcome (@resolve_item obj item) = Ok d ->
  download_mmar env item mmar_dir progress
  = match base_dir env mmar_dir with
    | None =>
        (Raise (ValueError [Lit
           "mmar_dir=None, but no suitable default directory computed. Upgrade Pytorch to 1.6+ ?"]),
         [])
    | Some base =>
        (match download_and_extract env (request_for d base progress) with
         | None => Ok (path_join base (ID d))
         | Some e => Raise e
         end,
         [EvDownload (request_for d base progress)])
    end.
Proof.
  intros Hitem. unfold download_mmar, base_dir.
  rewrite (bind_Ok _ _ d [] (resolve_item_success item d Hitem)).
  assert (Hrun : forall base,
             (outcome
                (mmar_dir0 <- ret base ;;
                 emit (EvDownload (request_for d mmar_dir0 progress)) ;;
                 lift_unit (download_and_extract env (request_for d mmar_dir0 progress)) ;;
                 ret (path_join mmar_dir0 (ID d)))%mmar,
              [] ++ log_of
                (mmar_dir0 <- ret base ;;
                 emit (EvDownload (request_for d mmar_dir0 progress)) ;;
                 lift_unit (download_and_extract env (request_for d mmar_dir0 progress)) ;;
                 ret (path_join mmar_dir0 (ID d)))%mmar)
             = (match download_and_extract env (request_for d base progress) with
                | None => Ok (path_join base (ID d))
                | Some e => Raise e
                end,
                [EvDownload (request_for d base progress)])).
  { intros base. unfold bind, ret, emit, lift_unit, raise, outcome, log_of.
    destruct (download_and_extract env (request_for d base progress)); reflexivity. }
  destruct mmar_dir as [dir|]; simpl no_dir.
  - destruct (String.eqb dir "").
    + destruct (hub_get_dir env) as [home|]; [|reflexivity].
      apply (Hrun (path_join home "mmars")).
    + apply (Hrun dir).
  - destruct (hub_get_dir env) as [home|]; [|reflexivity].
    apply (Hrun (path_join home "mmars")).
Qed.

Lemma download_mmar_unresolved (item : item_arg) (mmar_dir : option string)
  (progress : bool) (e : exn obj) :
  outcome (@resolve_item obj item) = Raise e ->
  download_mmar env item mmar_dir progress = (Raise e, log_of (@resolve_item obj item)).
Proof.
  intros Hitem. unfold download_mmar.
  apply bind_Raise. rewrite <- Hitem. apply pair_outcome_log.
Qed.

End Download.

(** X5. A directory that [download_mmar] returns is the directory of the
    archives joined with the id of the resolved descriptor; it is the
    [output_dir] of the one request made to [download_and_extract], which
    did not fail, with the archive file named by id and file type beside
    it and [has_base] unset. *)
Theorem download_returns_requested_directory (obj : Type) (env : Env obj)
  (item : item_arg) (mmar_dir : option string) (progress : bool) (dir : string) :
  outcome (download_mmar env item mmar_dir progress) = Ok dir ->
  exists d base,
    outcome (@resolve_item obj item) = Ok d
    /\ base_dir env mmar_dir = Some base
    /\ dir = path_join base (ID d)
    /\ log_of (download_mmar env item mmar_dir progress)
       = [EvDownload (request_for d base progress)]
    /\ download_and_extract env (request_for d base progress) = None
    /\ dl_output_dir (request_for d base progress) = dir
    /\ dl_filepath (request_for d base progress)
       = path_join base (ID d ++ "." ++ FILE_TYPE d)
    /\ dl_has_base (request_for d base progress) = false.
Proof.
  intros Hdir.
  destruct (outcome (@resolve_item obj item)) as [d|e] eqn:Hitem.
  - rewrite (download_mmar_run env item mmar_dir progress d Hitem) in Hdir |- *.
    destruct (base_dir env mmar_dir) as [base|]; [|discriminate Hdir].
    rewrite outcome_pair in Hdir. rewrite log_of_pair.
    destruct (download_and_extract env (request_for d base progress)) eqn:Hdl;
      [discriminate Hdir|].
    inversion Hdir; subst dir.
    exists d, base. repeat split; try reflexivity. exact Hdl.
  - rewrite (download_mmar_unresolved env item mmar_dir progress e Hitem) in Hdir.
    discriminate Hdir.
Qed.

Lemma download_returns_requested_directory_witness :
  exists d base,
    outcome (@resolve_item string (ItemIdx (IdxInt 0))) = Ok d
    /\ base_dir env_embedded_conf None = Some base
    /\ "/home/user/.cache/torch/hub/mmars/clara_pt_prostate_mri_segmentation_1"
       = path_join base (ID d)
    /\ dl_filepath (request_for d base true)
       = "/home/user/.cache/torch/hub/mmars/clara_pt_prostate_mri_segmentation_1.zip".
Proof.
  destruct (download_returns_requested_directory string env_embedded_conf
              (ItemIdx (IdxInt 0)) None true
              "/home/user/.cache/torch/hub/mmars/clara_pt_prostate_mri_segmentation_1"
              eq_refl)
    as [d [base [Hitem [Hbase [Hdir [_ [_ [_ [Hfile _]]]]]]]]].
  exists d, base. split; [exact Hitem|]. split; [exact Hbase|]. split; [exact Hdir|].
  rewrite Hfile. inversion Hitem; subst d. inversion Hbase; subst base. reflexivity.
Defined.

(** X6. The target directory is computed from the request alone: two runs
    of [download_mmar] for the same item and directory that both succeed
    return the same directory, whatever the progress flags and whatever the
    collaborators do, provided [torch.hub] names the same directory. *)
Theorem download_directory_is_stable (obj : Type) (env1 env2 : Env obj)
  (item : item_arg) (mmar_dir : option string) (progress1 progress2 : bool)
  (dir1 dir2 : string) :
  hub_get_dir env1 = hub_get_dir env2 ->
  outcome (download_mmar env1 item mmar_dir progress1) = Ok dir1 ->
  outcome (download_mmar env2 item mmar_dir progress2) = Ok dir2 ->
  dir1 = dir2.
Proof.
  intros Hhub H1 H2.
  destruct (outcome (@resolve_item obj item)) as [d|e] eqn:Hitem.
  - rewrite (download_mmar_run env1 item mmar_dir progress1 d Hitem) in H1.
    rewrite (download_mmar_run env2 item mmar_dir progress2 d Hitem) in H2.
    unfold base_dir in H1, H2. rewrite <- Hhub in H2.
    destruct (if no_dir mmar_dir
              then match hub_get_dir env1 with
                   | Some home => Some (path_join home "mmars")
                   | None => None
                   end
              else mmar_dir) as [base|]; [|discriminate H1].
    rewrite outcome_pair in H1, H2.
    destruct (download_and_extract env1 _); [discriminate H1|].
    destruct (download_and_extract env2 _); [discriminate H2|].
    inversion H1. inversion H2. reflexivity.
  - rewrite (download_mmar_unresolved env1 item mmar_dir progress1 e Hitem) in H1.
    discriminate H1.
Qed.

Lemma download_directory_is_stable_witness :
  exists dir1 dir2,
    outcome (download_mmar env_embedded_conf
               (ItemIdx (IdxStr "clara_pt_brain_mri_segmentation_1")) None true)
    = Ok dir1
    /\ outcome (download_mmar (with_read_json env_embedded_conf (fun _ => Ok []))
                  (ItemIdx (IdxStr "clara_pt_brain_mri_segmentation_1")) None false)
       = Ok dir2
    /\ dir1 = dir2.
Proof.
  eexists. eexists. split; [reflexivity|]. split; [reflexivity|].
  exact (download_directory_is_stable string env_embedded_conf
           (with_read_json env_embedded_conf (fun _ => Ok []))
           (ItemIdx (IdxStr "clara_pt_brain_mri_segmentation_1")) None
           true false _ _ eq_refl eq_refl eq_refl).
Defined.

(** X7. Without a directory ([None] or the empty string) and without
    [torch.hub], [download_mmar] fails with its [ValueError] before any
    request is made; and when [download_and_extract] fails, its error is
    the error of [download_mmar], after that one request, and no directory
    is returned. *)
Theorem download_failures (obj : Type) (env : Env obj) (item : item_arg)
  (mmar_dir : option string) (progress : bool) (d : ModelDescriptor) :
  outcome (@resolve_item obj item) = Ok d ->
  (no_dir mmar_dir = true -> hub_get_dir env = None ->
   download_mmar env item mmar_dir progress
   = (Raise (ValueError [Lit
        "mmar_dir=None, but no suitable default directory computed. Upgrade Pytorch to 1.6+ ?"]),
      []))
  /\ (forall base e,
         base_dir env mmar_dir = Some base ->
         download_and_extract env (request_for d base progress) = Some e ->
         download_mmar env item mmar_dir progress
         = (Raise e, [EvDownload (request_for d base progress)])).
Proof.
  intros Hitem. rewrite (download_mmar_run env item mmar_dir progress d Hitem).
  split.
  - intros Hnone Hhub. unfold base_dir. rewrite Hnone, Hhub. reflexivity.
  - intros base e Hbase Hdl. rewrite Hbase, Hdl. reflexivity.
Qed.

Lemma download_failures_witness :
  download_mmar env_no_conf (ItemIdx (IdxInt 1)) (Some "") true
  = (Raise (ValueError [Lit
       "mmar_dir=None, but no suitable default directory computed. Upgrade Pytorch to 1.6+ ?"]),
     []).
Proof.
  exact (proj1 (download_failures string env_no_conf (ItemIdx (IdxInt 1)) (Some "")
                  true (nth 1 MODEL_DESC script_descriptor) eq_refl)
           eq_refl eq_refl).
Defined.

(** X8. A request by index or id is the request for the descriptor that it
    resolves to: [download_mmar] and [load_from_mmar] run the same, with the
    same log, on the key and on the descriptor. *)
Theorem key_is_its_descriptor (obj : Type) (env : Env obj) (item : item_arg)
  (d : ModelDescriptor) (mmar_dir : option string) (progress : bool)
  (map_location : option string) (pretrained weights_only : bool)
  (model_key : string) :
  outcome (@resolve_item obj item) = Ok d ->
  download_mmar env item mmar_dir progress
  = download_mmar env (ItemDesc d) mmar_dir progress
  /\ load_from_mmar env item mmar_dir progress map_location pretrained weights_only
       model_key
     = load_from_mmar env (ItemDesc d) mmar_dir progress map_location pretrained
         weights_only model_key.
Proof.
  intros Hitem. pose proof (resolve_item_success item d Hitem) as Hres.
  split.
  - unfold download_mmar. rewrite (bind_Ok _ _ d [] Hres).
    rewrite (bind_Ok _ _ d [] (eq_refl : @resolve_item obj (ItemDesc d) = (Ok d, []))).
    reflexivity.
  - unfold load_from_mmar. rewrite (bind_Ok _ _ d [] Hres).
    rewrite (bind_Ok _ _ d [] (eq_refl : @resolve_item obj (ItemDesc d) = (Ok d, []))).
    reflexivity.
Qed.

Lemma key_is_its_descriptor_witness :
  load_from_mmar env_embedded_conf (ItemIdx (IdxStr " Clara_PT_Brain_MRI_Segmentation_1"))
    (Some "/data") true None true false "model"
  = load_from_mmar env_embedded_conf (ItemDesc (nth 4 MODEL_DESC script_descriptor))
      (Some "/data") true None true false "model".
Proof.
  exact (proj2 (key_is_its_descriptor string env_embedded_conf
                  (ItemIdx (IdxStr " Clara_PT_Brain_MRI_Segmentation_1"))
                  (nth 4 MODEL_DESC script_descriptor) (Some "/data") true None
                  true false "model" eq_refl)).
Defined.

(** ** [load_from_mmar]: what runs, and what never does *)

Section LoadFailures.

Context {obj : Type}.
Variable env : Env obj.
Context (item : item_arg) (mmar_dir : option string) (progress : bool)
  (map_location : option string) (pretrained weights_only : bool)
  (model_key : string).

Lemma load_from_mmar_unresolved (e : exn obj) :
  outcome (@resolve_item obj item) = Raise e ->
  load_from_mmar env item mmar_dir progress map_location pretrained weights_only
    model_key
  = (Raise e, log_of (@resolve_item obj item)).
Proof.
  intros Hitem. unfold load_from_mmar.
  apply bind_Raise. rewrite <- Hitem. apply pair_outcome_log.
Qed.

Lemma load_from_mmar_not_downloaded (d : ModelDescriptor) (e : exn obj) :
  outcome (@resolve_item obj item) = Ok d ->
  outcome (download_mmar env (ItemDesc d) mmar_dir progress) = Raise e ->
  load_from_mmar env item mmar_dir progress map_location pretrained weights_only
    model_key
  = (Raise e, log_of (download_mmar env (ItemDesc d) mmar_dir progress)).
Proof.
  intros Hitem Hdir. unfold load_from_mmar.
  rewrite (bind_Ok _ _ d [] (resolve_item_success item d Hitem)).
  assert (Hdl : download_mmar env (ItemDesc d) mmar_dir progress
                = (Raise e, log_of (download_mmar env (ItemDesc d) mmar_dir progress))).
  { rewrite <- Hdir. apply pair_outcome_log. }
  rewrite (bind_Raise _ _ e _ Hdl). reflexivity.
Qed.

End LoadFailures.

(** X9. When the descriptor cannot be resolved or the archive cannot be
    fetched, [load_from_mmar] fails with that very error, and its log is
    the log of the failed step: nothing is deserialized, no source is
    consulted and nothing is built. *)
Theorem setup_failure_loads_nothing (obj : Type) (env : Env obj) (item : item_arg)
  (mmar_dir : option string) (progress : bool) (map_location : option string)
  (pretrained weights_only : bool) (model_key : string) (e : exn obj) :
  outcome (@resolve_item obj item) = Raise e
  \/ (exists d, outcome (@resolve_item obj item) = Ok d
                /\ outcome (download_mmar env (ItemDesc d) mmar_dir progress) = Raise e) ->
  let run := load_from_mmar env item mmar_dir progress map_location pretrained
               weights_only model_key in
  outcome run = Raise e
  /\ Forall (fun ev => is_setup ev = true) (log_of run)
  /\ filter is_loader (log_of run) = []
  /\ Forall (fun ev => after_loading ev = false) (log_of run).
Proof.
  intros H run.
  assert (Hrun : outcome run = Raise e
                 /\ Forall (fun ev => is_setup ev = true) (log_of run)).
  { unfold run. destruct H as [Hitem | [d [Hitem Hdir]]].
    - rewrite (load_from_mmar_unresolved env item mmar_dir progress map_location
                 pretrained weights_only model_key e Hitem).
      split; [reflexivity | apply resolve_item_log].
    - rewrite (load_from_mmar_not_downloaded env item mmar_dir progress map_location
                 pretrained weights_only model_key d e Hitem Hdir).
      split; [reflexivity | apply download_mmar_log]. }
  destruct Hrun as [Hout Hlog]. split; [exact Hout|]. split; [exact Hlog|]. split.
  - apply filter_none. revert Hlog. apply Forall_impl.
    intros [] Hs; try discriminate Hs; reflexivity.
  - apply setup_not_after_loading. exact Hlog.
Qed.

Lemma setup_failure_loads_nothing_witness :
  outcome (load_from_mmar env_no_conf (ItemIdx (IdxStr "clara_pt_unknown")) None true
             None true false "model")
  = Raise (ValueError [Lit "Unknown MODEL_DESC request: clara_pt_unknown"])
  /\ outcome (load_from_mmar env_no_conf (ItemIdx (IdxInt 0)) None true None true
                false "model")
     = Raise (ValueError [Lit
         "mmar_dir=None, but no suitable default directory computed. Upgrade Pytorch to 1.6+ ?"]).
Proof.
  split.
  - exact (proj1 (setup_failure_loads_nothing string env_no_conf
                    (ItemIdx (IdxStr "clara_pt_unknown")) None true None true false
                    "model" _ (or_introl eq_refl))).
  - exact (proj1 (setup_failure_loads_nothing string env_no_conf
                    (ItemIdx (IdxInt 0)) None true None true false "model" _
                    (or_intror (ex_intro _ (nth 0 MODEL_DESC script_descriptor)
                                  (conj eq_refl eq_refl))))).
Defined.

(** ** Suffixes of joined paths *)

Lemma str_length_append (a b : string) :
  String.length (a ++ b) = String.length a + String.length b.
Proof. induction a as [|c a IH]; simpl; [reflexivity | rewrite IH; reflexivity]. Qed.

Lemma substring_whole (s : string) : String.substring 0 (String.length s) s = s.
Proof. induction s as [|c s IH]; simpl; [reflexivity | rewrite IH; reflexivity]. Qed.

Lemma endswith_cons (c : ascii) (s suffix : string) :
  String.length suffix <= String.length s ->
  endswith (String c s) suffix = endswith s suffix.
Proof.
  intros Hlen. unfold endswith. cbn [String.length].
  replace (S (String.length s) - String.length suffix)
    with (S (String.length s - String.length suffix)) by lia.
  cbn [String.substring].
  destruct (Nat.leb_spec (String.length suffix) (S (String.length s))); [|lia].
  destruct (Nat.leb_spec (String.length suffix) (String.length s)); [|lia].
  reflexivity.
Qed.

(** A suffix no longer than [s] is a suffix of [x ++ s] when it is one of [s]. *)
Lemma endswith_append (x s suffix : string) :
  String.length suffix <= String.length s ->
  endswith (x ++ s) suffix = endswith s suffix.
Proof.
  intros Hlen. induction x as [|c x IH]; [reflexivity|].
  simpl append. rewrite endswith_cons; [exact IH|].
  rewrite str_length_append. lia.
Qed.

Lemma endswith_split (s suffix : string) :
  endswith s suffix = true -> exists p, s = (p ++ suffix)%string.
Proof.
  induction s as [|c s IH]; intros H.
  - unfold endswith in H. simpl in H.
    destruct suffix; [exists ""; reflexivity | discriminate H].
  - destruct (Nat.leb_spec (String.length suffix) (String.length s)) as [Hle|Hgt].
    + rewrite (endswith_cons c s suffix Hle) in H.
      destruct (IH H) as [p Hp]. exists (String c p). simpl. rewrite <- Hp. reflexivity.
    + unfold endswith in H. apply andb_true_iff in H. destruct H as [Hm Heq].
      apply Nat.leb_le in Hm. cbn [String.length] in Hm, Heq.
      assert (Hlen : String.length suffix = S (String.length s)) by lia.
      rewrite Hlen, Nat.sub_diag in Heq.
      change (S (String.length s)) with (String.length (String c s)) in Heq.
      rewrite substring_whole in Heq. apply String.eqb_eq in Heq.
      exists "". simpl. exact Heq.
Qed.

(** Two ways of cutting a string at the same distance from its end. *)
Lemma append_same_tail (p1 p2 s1 s2 : string) :
  (p1 ++ s1)%string = (p2 ++ s2)%string ->
  String.length s1 = String.length s2 -> s1 = s2.
Proof.
  revert p2. induction p1 as [|c p1 IH]; intros [|c2 p2] Heq Hlen; simpl in Heq.
  - exact Heq.
  - exfalso. rewrite Heq in Hlen. simpl in Hlen. rewrite str_length_append in Hlen. lia.
  - exfalso. rewrite <- Heq in Hlen. simpl in Hlen. rewrite str_length_append in Hlen. lia.
  - inversion Heq. eapply IH; eassumption.
Qed.

(** A joined path is its second part behind nothing or behind something
    that ends with the separator. *)
Lemma path_join_tail (a b : string) :
  exists x, path_join a b = (x ++ b)%string
            /\ (x = EmptyString \/ exists x', x = (x' ++ "/")%string).
Proof.
  unfold path_join.
  destruct (startswith b "/"); [exists ""; split; [reflexivity | left; reflexivity]|].
  destruct (String.eqb_spec a "") as [->|Ha]; simpl orb.
  - exists "". split; [reflexivity | left; reflexivity].
  - destruct (endswith a "/") eqn:Hsep.
    + exists a. split; [reflexivity|]. right. apply endswith_split. exact Hsep.
    + exists (a ++ "/")%string. split; [apply eq_sym, append_assoc|].
      right. exists a. reflexivity.
Qed.

(** Whether the path of the model file ends with [.ts] is decided by the
    [model_file] entry alone, whatever the directory. *)
Lemma endswith_ts_path_join (a b : string) :
  endswith (path_join a b) ".ts" = endswith b ".ts".
Proof.
  destruct (path_join_tail a b) as [x [-> Hx]].
  destruct (Nat.leb_spec 3 (String.length b)) as [Hlong|Hshort].
  - apply endswith_append. exact Hlong.
  - assert (Hb : endswith b ".ts" = false).
    { unfold endswith. destruct (Nat.leb_spec (String.length ".ts") (String.length b));
        [simpl in *; lia | reflexivity]. }
    rewrite Hb. destruct (endswith (x ++ b) ".ts") eqn:Hends; [exfalso|reflexivity].
    destruct (endswith_split _ _ Hends) as [p Hp].
    destruct Hx as [->|[x' ->]].
    + simpl in Hp. rewrite Hp, str_length_append in Hshort. simpl in Hshort. lia.
    + rewrite append_assoc in Hp. simpl in Hp.
      destruct b as [|c1 [|c2 [|c3 b]]]; [| | |simpl in Hshort; lia].
      * change (p ++ ".ts")%string with (p ++ (".t" ++ "s"))%string in Hp.
        rewrite <- append_assoc in Hp.
        pose proof (append_same_tail _ _ _ _ Hp eq_refl) as H. discriminate H.
      * change (p ++ ".ts")%string with (p ++ ("." ++ "ts"))%string in Hp.
        rewrite <- append_assoc in Hp.
        pose proof (append_same_tail _ _ _ _ Hp eq_refl) as H. discriminate H.
      * pose proof (append_same_tail _ _ _ _ Hp eq_refl) as H. discriminate H.
Qed.

(** ** Deserializers, warnings and the kind of the result *)

Section AfterLoading.

Context {obj : Type}.
Variable env : Env obj.
Context (item : ModelDescriptor) (model_dir : string) (model_dict : dict)
  (model_key : string) (pretrained : bool).

(** From the configuration on, a run prints, consults and builds; it does
    not download, deserialize or warn. *)
Lemma model_from_config_events :
  Forall (fun ev => is_loader ev = false /\ is_warning ev = false
                    /\ is_download ev = false)
    (log_of (model_from_config env item model_dir model_dict model_key pretrained)).
Proof.
  unfold model_from_config, find_model_config, check_model_config,
    resolve_model_class, registry_class, path_class, build_model, when, lift,
    lift_unit.
  split_log.
  all: repeat split.
Qed.

Lemma bind_outcome_Ok {A B : Type} (m : M obj A) (f : A -> M obj B) (b : B) :
  outcome (bind m f) = Ok b ->
  exists a, outcome m = Ok a /\ outcome (f a) = Ok b.
Proof.
  destruct m as [[a|e] log]; unfold bind, outcome; simpl.
  - intros H. exists a. split; [reflexivity|]. destruct (f a); exact H.
  - discriminate.
Qed.

End AfterLoading.

Section Provenance.

Context {obj : Type}.
Variable env : Env obj.

Lemma check_model_config_Ok (item : ModelDescriptor) (found : value) (cfg : dict) :
  outcome (@check_model_config obj item found) = Ok cfg ->
  found = VDict cfg /\ cfg <> [].
Proof.
  unfold check_model_config. destruct found as [| | | | |d]; try discriminate.
  destruct d as [|e d]; simpl; [discriminate|].
  intros H. inversion H; subst. split; [reflexivity | discriminate].
Qed.

(** A model that [build_model] returns was made by the class, called with
    the arguments of the configuration, and took the weights without error
    when they were to be loaded. *)
Lemma build_model_Ok (item : ModelDescriptor) (model_dict : dict)
  (model_key : string) (pretrained : bool) (cfg : dict) (cls : obj) (r : loaded) :
  outcome (build_model env item model_dict model_key pretrained cfg cls) = Ok r ->
  exists inst,
    r = Model inst
    /\ construct env cls (kwargs_of cfg) = Ok inst
    /\ (pretrained = true ->
        load_state_dict env inst (weights_of model_dict model_key) = None).
Proof.
  unfold build_model, kwargs_of, when, lift, lift_unit, bind, emit, ret, raise, outcome.
  destruct (get_default "args" cfg VNone) as [|b|z|s|l|[|e kw]]; simpl;
    try destruct b; try destruct (Z.eqb z 0); try destruct (String.eqb s "");
    try destruct l; simpl; try discriminate.
  all: match goal with
       | |- context [construct env ?c ?k] =>
           destruct (construct env c k) as [inst|err] eqn:Hc; simpl;
           [|discriminate]
       end.
  all: destruct pretrained; simpl.
  all: try match goal with
           | |- context [load_state_dict env ?i ?w] =>
               destruct (load_state_dict env i w) eqn:Hl; simpl; [discriminate|]
           end.
  all: intros H; inversion H; subst; exists inst.
  all: split; [reflexivity|]; split; [reflexivity|]; intros Hp.
  all: first [exact Hl | discriminate Hp].
Qed.

End Provenance.

Lemma setup_not_loader {obj : Type} (log : list (event obj)) :
  Forall (fun ev => is_setup ev = true) log ->
  Forall (fun ev => is_loader ev = false) log.
Proof.
  apply Forall_impl. intros [] H; try discriminate H; reflexivity.
Qed.

(** X10. Once the archive is in place, a run of [load_from_mmar] calls
    exactly one deserializer, once, on the model file under the directory
    that [download_mmar] returned: [torch.jit.load] when the [model_file]
    entry of the descriptor ends with [.ts], [torch.load] otherwise. The
    directory has no part in the choice. *)
Theorem loader_decided_by_model_file (obj : Type) (env : Env obj) (item : item_arg)
  (mmar_dir : option string) (progress : bool) (map_location : option string)
  (pretrained weights_only : bool) (model_key : string)
  (d : ModelDescriptor) (model_dir : string) :
  outcome (@resolve_item obj item) = Ok d ->
  outcome (download_mmar env (ItemDesc d) mmar_dir progress) = Ok model_dir ->
  filter is_loader
    (log_of (load_from_mmar env item mmar_dir progress map_location pretrained
               weights_only model_key))
  = [if endswith (MODEL_FILE d) ".ts"
     then EvJitLoad (path_join model_dir (MODEL_FILE d)) map_location
     else EvTorchLoad (path_join model_dir (MODEL_FILE d)) map_location].
Proof.
  intros Hitem Hdir.
  rewrite (load_from_mmar_located env item mmar_dir progress map_location
             model_key d model_dir Hitem Hdir).
  rewrite endswith_ts_path_join.
  pose proof (filter_none _ _ (setup_not_loader _
                (download_mmar_log env (ItemDesc d) mmar_dir progress))) as Hsetup.
  destruct (endswith (MODEL_FILE d) ".ts").
  - rewrite log_of_pair, !filter_app, Hsetup.
    destruct pretrained, weights_only; reflexivity.
  - destruct (torch_load env (path_join model_dir (MODEL_FILE d)) map_location)
      as [model_dict|e]; [destruct weights_only|];
      rewrite log_of_pair, !filter_app, Hsetup; try reflexivity.
    rewrite (filter_none is_loader
               (log_of (model_from_config env d model_dir model_dict model_key
                          pretrained))).
    + reflexivity.
    + eapply Forall_impl;
        [|apply (model_from_config_events env d model_dir model_dict model_key
                   pretrained)].
      intros ev [H _]. exact H.
Qed.

Lemma loader_decided_by_model_file_witness :
  filter is_loader
    (log_of (load_from_mmar env_embedded_conf (ItemDesc script_descriptor)
               (Some "/data.ts") true None true false "model"))
  = [EvJitLoad "/data.ts/traced_model_1/models/model.ts" None]
  /\ filter is_loader
       (log_of (load_from_mmar env_embedded_conf (ItemIdx (IdxInt 3))
                  (Some "/data.ts") true None true false "model"))
     = [EvTorchLoad "/data.ts/clara_pt_pathology_metastasis_detection_1/models/model.pt"
          None].
Proof.
  split.
  - exact (loader_decided_by_model_file string env_embedded_conf
             (ItemDesc script_descriptor) (Some "/data.ts") true None true false
             "model" script_descriptor "/data.ts/traced_model_1" eq_refl eq_refl).
  - exact (loader_decided_by_model_file string env_embedded_conf
             (ItemIdx (IdxInt 3)) (Some "/data.ts") true None true false
             "model" (nth 3 MODEL_DESC script_descriptor)
             "/data.ts/clara_pt_pathology_metastasis_detection_1" eq_refl eq_refl).
Defined.

(** No model file of the table is a script module. *)
Lemma MODEL_DESC_no_script_module :
  Forall (fun d => endswith (MODEL_FILE d) ".ts" = false) MODEL_DESC.
Proof. repeat constructor. Qed.

(** X11. For every descriptor of the table, wherever the archive is put,
    the run does not take the script-module path: it calls [torch.load] and
    never [torch.jit.load], and it logs no warning, whatever [pretrained]
    and [weights_only] are. *)
Theorem table_entries_use_torch_load (obj : Type) (env : Env obj) (item : item_arg)
  (mmar_dir : option string) (progress : bool) (map_location : option string)
  (pretrained weights_only : bool) (model_key : string)
  (d : ModelDescriptor) (model_dir : string) :
  In d MODEL_DESC ->
  outcome (@resolve_item obj item) = Ok d ->
  outcome (download_mmar env (ItemDesc d) mmar_dir progress) = Ok model_dir ->
  let run := load_from_mmar env item mmar_dir progress map_location pretrained
               weights_only model_key in
  endswith (path_join model_dir (MODEL_FILE d)) ".ts" = false
  /\ In (EvTorchLoad (path_join model_dir (MODEL_FILE d)) map_location) (log_of run)
  /\ (forall path ml, ~ In (EvJitLoad path ml) (log_of run))
  /\ filter is_warning (log_of run) = [].
Proof.
  intros Hin Hitem Hdir run.
  pose proof (proj1 (Forall_forall _ _) MODEL_DESC_no_script_module d Hin) as Hpt.
  assert (Hts : endswith (path_join model_dir (MODEL_FILE d)) ".ts" = false).
  { rewrite endswith_ts_path_join. exact Hpt. }
  split; [exact Hts|].
  unfold run.
  rewrite (load_from_mmar_located env item mmar_dir progress map_location
             model_key d model_dir Hitem Hdir).
  rewrite Hts.
  pose proof (download_mmar_log env (ItemDesc d) mmar_dir progress) as Hsetup.
  assert (Hnojit : forall l path ml,
             Forall (fun ev : event obj => is_setup ev = true) l ->
             ~ In (EvJitLoad path ml) l).
  { intros l path ml Hl Hj.
    pose proof (proj1 (Forall_forall _ _) Hl _ Hj) as H. discriminate H. }
  assert (Hconf : forall model_dict,
             Forall (fun ev : event obj =>
                       is_loader ev = false /\ is_warning ev = false
                       /\ is_download ev = false)
               (log_of (model_from_config env d model_dir model_dict model_key
                          pretrained)))
    by (intros; apply model_from_config_events).
  destruct (torch_load env (path_join model_dir (MODEL_FILE d)) map_location)
    as [model_dict|e]; [destruct weights_only|]; rewrite log_of_pair.
  - split; [|split].
    + apply in_or_app. right. left. reflexivity.
    + intros path ml Hj. apply in_app_or in Hj. destruct Hj as [Hj|Hj].
      * apply in_app_or in Hj. destruct Hj as [Hj|[Hj|[]]];
          [exact (Hnojit _ path ml Hsetup Hj) | discriminate Hj].
      * destruct Hj as [Hj|[]]. discriminate Hj.
    + rewrite !filter_app, (filter_none _ _ (setup_not_warning _ Hsetup)).
      reflexivity.
  - split; [|split].
    + apply in_or_app. right. apply in_or_app. left. left. reflexivity.
    + intros path ml Hj. apply in_app_or in Hj. destruct Hj as [Hj|Hj].
      * apply in_app_or in Hj. destruct Hj as [Hj|[Hj|[]]];
          [exact (Hnojit _ path ml Hsetup Hj) | discriminate Hj].
      * apply in_app_or in Hj. destruct Hj as [[Hj|[]]|Hj]; [discriminate Hj|].
        pose proof (proj1 (Forall_forall _ _) (Hconf model_dict) _ Hj) as [H _].
        discriminate H.
    + rewrite !filter_app, (filter_none _ _ (setup_not_warning _ Hsetup)).
      rewrite (filter_none is_warning (log_of (model_from_config _ _ _ _ _ _))).
      * reflexivity.
      * eapply Forall_impl; [|apply Hconf]. intros ev [_ [H _]]. exact H.
  - split; [|split].
    + apply in_or_app. right. left. reflexivity.
    + intros path ml Hj. apply in_app_or in Hj. destruct Hj as [Hj|Hj].
      * apply in_app_or in Hj. destruct Hj as [Hj|[Hj|[]]];
          [exact (Hnojit _ path ml Hsetup Hj) | discriminate Hj].
      * destruct Hj as [Hj|[]]. discriminate Hj.
    + rewrite !filter_app, (filter_none _ _ (setup_not_warning _ Hsetup)).
      reflexivity.
Qed.

Lemma table_entries_use_torch_load_witness :
  filter is_warning
    (log_of (load_from_mmar env_embedded_conf (ItemIdx (IdxInt (-2))) (Some "/ts")
               true None false true "model"))
  = [].
Proof.
  exact (proj2 (proj2 (proj2
           (table_entries_use_torch_load string env_embedded_conf
              (ItemIdx (IdxInt (-2))) (Some "/ts") true None false true "model"
              (nth 6 MODEL_DESC script_descriptor)
              "/ts/clara_pt_liver_and_tumor_ct_segmentation_1"
              (or_intror (or_intror (or_intror (or_intror (or_intror (or_intror
                 (or_introl eq_refl)))))))
              eq_refl eq_refl)))).
Defined.

(** X12. What [load_from_mmar] returns tells how it was made. A script
    module is what [torch.jit.load] returned for a model file ending with
    [.ts]. Weights are returned only with [weights_only] set and are the
    entry of the loaded dictionary under [model_key], or the dictionary. A
    model instance is returned only with [weights_only] unset: it is what
    the resolved class returned when called with the arguments of the
    non-empty configuration mapping that the search found, and when
    [pretrained] is set the weights were loaded into it without error. *)
Theorem result_provenance (obj : Type) (env : Env obj) (item : item_arg)
  (mmar_dir : option string) (progress : bool) (map_location : option string)
  (pretrained weights_only : bool) (model_key : string)
  (d : ModelDescriptor) (model_dir : string) (r : @loaded obj) :
  outcome (@resolve_item obj item) = Ok d ->
  outcome (download_mmar env (ItemDesc d) mmar_dir progress) = Ok model_dir ->
  outcome (load_from_mmar env item mmar_dir progress map_location pretrained
             weights_only model_key) = Ok r ->
  let model_file := path_join model_dir (MODEL_FILE d) in
  match r with
  | Script module =>
      endswith (MODEL_FILE d) ".ts" = true
      /\ torch_jit_load env model_file map_location = Ok module
  | Weights w =>
      endswith (MODEL_FILE d) ".ts" = false /\ weights_only = true
      /\ exists model_dict,
          torch_load env model_file map_location = Ok model_dict
          /\ w = weights_of model_dict model_key
  | Model inst =>
      endswith (MODEL_FILE d) ".ts" = false /\ weights_only = false
      /\ exists model_dict cfg cls,
          torch_load env model_file map_location = Ok model_dict
          /\ outcome (find_model_config env d model_dir model_dict model_key)
             = Ok (VDict cfg)
          /\ cfg <> []
          /\ outcome (resolve_model_class env model_dir cfg) = Ok cls
          /\ construct env cls (kwargs_of cfg) = Ok inst
          /\ (pretrained = true ->
              load_state_dict env inst (weights_of model_dict model_key) = None)
  end.
Proof.
  intros Hitem Hdir Hrun model_file.
  rewrite (load_from_mmar_located env item mmar_dir progress map_location
             model_key d model_dir Hitem Hdir) in Hrun.
  rewrite endswith_ts_path_join in Hrun.
  destruct (endswith (MODEL_FILE d) ".ts").
  - rewrite outcome_pair in Hrun. fold model_file in Hrun.
    destruct (torch_jit_load env model_file map_location) as [module|e];
      inversion Hrun; subst r. split; reflexivity.
  - fold model_file in Hrun.
    destruct (torch_load env model_file map_location) as [model_dict|e];
      [|discriminate Hrun].
    destruct weights_only; rewrite outcome_pair in Hrun.
    + inversion Hrun; subst r. split; [reflexivity|]. split; [reflexivity|].
      exists model_dict. split; reflexivity.
    + unfold model_from_config in Hrun.
      apply bind_outcome_Ok in Hrun. destruct Hrun as [found [Hfind Hrun]].
      apply bind_outcome_Ok in Hrun. destruct Hrun as [cfg [Hcheck Hrun]].
      apply bind_outcome_Ok in Hrun. destruct Hrun as [cls [Hcls Hrun]].
      apply check_model_config_Ok in Hcheck. destruct Hcheck as [-> Hne].
      destruct (build_model_Ok env d model_dict model_key pretrained cfg cls r Hrun)
        as [inst [-> [Hmake Hload]]].
      split; [reflexivity|]. split; [reflexivity|].
      exists model_dict, cfg, cls. repeat split; assumption.
Qed.

Lemma result_provenance_witness :
  exists model_dict cfg cls,
    torch_load env_embedded_conf
      "/data/clara_pt_brain_mri_segmentation_1/models/model.pt" None = Ok model_dict
    /\ cfg = [("name", VStr "UNet"); ("args", VDict [("dimensions", VInt 3)])]
    /\ cls = "UNet"
    /\ construct env_embedded_conf cls (kwargs_of cfg) = Ok "UNet()"
    /\ load_state_dict env_embedded_conf "UNet()" (weights_of model_dict "model") = None.
Proof.
  pose proof (result_provenance string env_embedded_conf (ItemIdx (IdxInt 4))
                (Some "/data") true None true false "model"
                (nth 4 MODEL_DESC script_descriptor)
                "/data/clara_pt_brain_mri_segmentation_1" (Model "UNet()")
                eq_refl eq_refl eq_refl) as H.
  cbv zeta in H.
  destruct H as [_ [_ [model_dict [cfg [cls [Hload [Hfind [_ [Hcls [Hmake Hw]]]]]]]]]].
  exists model_dict, cfg, cls.
  assert (Hcfg : cfg = [("name", VStr "UNet"); ("args", VDict [("dimensions", VInt 3)])]).
  { simpl in Hload. inversion Hload; subst model_dict.
    vm_compute in Hfind. inversion Hfind. reflexivity. }
  subst cfg.
  assert (Hc : cls = "UNet").
  { vm_compute in Hcls. inversion Hcls. reflexivity. }
  subst cls.
  split; [exact Hload|]. split; [reflexivity|]. split; [reflexivity|].
  split; [exact Hmake | exact (Hw eq_refl)].
Defined.

(** X13. With [pretrained] unset no run of [load_from_mmar] calls
    [load_state_dict], whatever the item, the archive and the
    configuration are. *)
Theorem without_pretrained_no_weights_loaded (obj : Type) (env : Env obj)
  (item : item_arg) (mmar_dir : option string) (progress : bool)
  (map_location : option string) (weights_only : bool) (model_key : string) :
  Forall (fun ev => is_load_state ev = false)
    (log_of (load_from_mmar env item mmar_dir progress map_location false
               weights_only model_key)).
Proof.
  unfold load_from_mmar.
  apply log_of_bind_Forall.
  { eapply Forall_impl; [|apply resolve_item_log].
    intros [] H; try discriminate H; reflexivity. }
  intros d. apply log_of_bind_Forall.
  { eapply Forall_impl; [|apply download_mmar_log].
    intros [] H; try discriminate H; reflexivity. }
  intros model_dir.
  unfold model_from_config, find_model_config, check_model_config,
    resolve_model_class, registry_class, path_class, build_model, when, lift,
    lift_unit, available_notice.
  split_log.
Qed.

(** ** The fallback between the configuration sources: what ends it *)

Section Fallback.

Context {obj : Type}.
Variable env : Env obj.
Context (item : item_arg) (mmar_dir : option string) (progress : bool)
  (map_location : option string) (pretrained : bool) (model_key : string)
  (d : ModelDescriptor) (model_dir : string) (model_dict : dict).

Hypothesis Hitem : outcome (@resolve_item obj item) = Ok d.
Hypothesis Hdir : outcome (download_mmar env (ItemDesc d) mmar_dir progress) = Ok model_dir.
Hypothesis Hts : endswith (path_join model_dir (MODEL_FILE d)) ".ts" = false.
Hypothesis Hload :
  torch_load env (path_join model_dir (MODEL_FILE d)) map_location = Ok model_dict.

(** The outcome and the consultations of a run that searches for the
    configuration are those of the search and of what follows it. *)
Lemma load_from_mmar_from_config :
  outcome (load_from_mmar env item mmar_dir progress map_location pretrained false
             model_key)
  = outcome (model_from_config env d model_dir model_dict model_key pretrained)
  /\ consultations
       (log_of (load_from_mmar env item mmar_dir progress map_location pretrained
                  false model_key))
     = log_of (find_model_config env d model_dir model_dict model_key).
Proof.
  split.
  - rewrite (load_from_mmar_located env item mmar_dir progress map_location
               model_key d model_dir Hitem Hdir).
    rewrite Hts, Hload. reflexivity.
  - rewrite (load_from_mmar_consultations obj env item mmar_dir progress
               map_location pretrained false model_key d model_dir Hitem Hdir).
    rewrite Hts, Hload. reflexivity.
Qed.

Lemma model_from_config_not_found (e : exn obj) (log : list (event obj)) :
  find_model_config env d model_dir model_dict model_key = (Raise e, log) ->
  model_from_config env d model_dir model_dict model_key pretrained = (Raise e, log).
Proof. intros H. unfold model_from_config. apply bind_Raise. exact H. Qed.

End Fallback.

Lemma find_train_conf_raises (obj : Type) (env : Env obj) (d : ModelDescriptor)
  (model_dir : string) (model_dict : dict) (model_key : string) (e : exn obj) :
  @_get_val_obj obj (get_default "train_conf" model_dict (VDict [])) model_key
    (VDict []) = Raise e ->
  find_model_config env d model_dir model_dict model_key
  = (Raise e, [EvSearch SrcTrainConf]).
Proof. intros H. unfold find_model_config. rewrite H. reflexivity. Qed.

(** X14. When the search of [train_conf] gives nothing and the
    configuration file cannot be read (it is missing, or it is not a JSON
    dictionary), [load_from_mmar] fails with the error of the read: the
    third source, the weights dictionary, is not searched, whatever it
    holds under the model key. *)
Theorem unreadable_config_file_is_fatal (obj : Type) (env : Env obj) (item : item_arg)
  (mmar_dir : option string) (progress : bool) (map_location : option string)
  (pretrained : bool) (model_key : string)
  (d : ModelDescriptor) (model_dir : string) (model_dict : dict)
  (c1 : value) (e : exn obj) :
  outcome (@resolve_item obj item) = Ok d ->
  outcome (download_mmar env (ItemDesc d) mmar_dir progress) = Ok model_dir ->
  endswith (path_join model_dir (MODEL_FILE d)) ".ts" = false ->
  torch_load env (path_join model_dir (MODEL_FILE d)) map_location = Ok model_dict ->
  @_get_val_obj obj (get_default "train_conf" model_dict (VDict [])) model_key
    (VDict []) = Ok c1 ->
  truthy c1 = false ->
  read_json_dict env (path_join model_dir (config_file_or_default d)) = Raise e ->
  let run := load_from_mmar env item mmar_dir progress map_location pretrained
               false model_key in
  outcome run = Raise e
  /\ consultations (log_of run)
     = [EvSearch SrcTrainConf;
        EvOpenJson (path_join model_dir (config_file_or_default d))].
Proof.
  intros Hitem Hdir Hts Hload Hsearch Hfalsy Hread run.
  destruct (load_from_mmar_from_config env item mmar_dir progress map_location
              pretrained model_key d model_dir model_dict Hitem Hdir Hts Hload)
    as [Hout Hcons].
  pose proof (find_unreadable_config env d model_dir model_dict model_key c1 e
                Hsearch Hfalsy Hread) as Hfind.
  unfold run. rewrite Hout, Hcons, Hfind.
  rewrite (model_from_config_not_found env pretrained model_key d model_dir
             model_dict e _ Hfind).
  split; reflexivity.
Qed.

Lemma unreadable_config_file_is_fatal_witness :
  _get_val [("model", VDict [("name", VStr "UNet")])] "model" (VDict [])
  = VDict [("name", VStr "UNet")]
  /\ outcome (load_from_mmar
                (env_with_archive
               [("model", VDict [("name", VStr "UNet")])]
               (Raise (ExternalError "No such file or directory")))
                (ItemIdx (IdxInt 0)) (Some "/data") true None true
                false "model")
     = Raise (ExternalError "No such file or directory").
Proof.
  split; [reflexivity|].
  exact (proj1 (unreadable_config_file_is_fatal string
                  (env_with_archive
               [("model", VDict [("name", VStr "UNet")])]
               (Raise (ExternalError "No such file or directory")))
                  (ItemIdx (IdxInt 0))
                  (Some "/data") true None true "model"
                  (nth 0 MODEL_DESC script_descriptor)
                  "/data/clara_pt_prostate_mri_segmentation_1"
                  [("model", VDict [("name", VStr "UNet")])] (VDict [])
                  (ExternalError "No such file or directory")
                  eq_refl eq_refl eq_refl eq_refl eq_refl eq_refl eq_refl)).
Defined.

(** X15. The first source that gives a value with a truth value ends the
    search, also when that value is not a mapping: if the search of
    [train_conf] returns such a value, [load_from_mmar] fails with the
    configuration error, and neither the configuration file nor the
    weights dictionary is consulted for a usable configuration. *)
Theorem non_mapping_hit_is_fatal (obj : Type) (env : Env obj) (item : item_arg)
  (mmar_dir : option string) (progress : bool) (map_location : option string)
  (pretrained : bool) (model_key : string)
  (d : ModelDescriptor) (model_dir : string) (model_dict : dict) (hit : value) :
  outcome (@resolve_item obj item) = Ok d ->
  outcome (download_mmar env (ItemDesc d) mmar_dir progress) = Ok model_dir ->
  endswith (path_join model_dir (MODEL_FILE d)) ".ts" = false ->
  torch_load env (path_join model_dir (MODEL_FILE d)) map_location = Ok model_dict ->
  @_get_val_obj obj (get_default "train_conf" model_dict (VDict [])) model_key
    (VDict []) = Ok hit ->
  truthy hit = true ->
  is_mapping hit = false ->
  let run := load_from_mmar env item mmar_dir progress map_location pretrained
               false model_key in
  outcome run = Raise (config_error d)
  /\ consultations (log_of run) = [EvSearch SrcTrainConf].
Proof.
  intros Hitem Hdir Hts Hload Hsearch Htruthy Hmap run.
  destruct (load_from_mmar_from_config env item mmar_dir progress map_location
              pretrained model_key d model_dir model_dict Hitem Hdir Hts Hload)
    as [Hout Hcons].
  pose proof (find_in_train_conf env d model_dir model_dict model_key hit
                Hsearch Htruthy) as Hfind.
  unfold run. rewrite Hout, Hcons, Hfind.
  rewrite (missing_config_raises env d model_dir model_dict model_key pretrained
             hit _ Hfind (or_intror Hmap)).
  split; reflexivity.
Qed.

Lemma non_mapping_hit_is_fatal_witness :
  outcome (load_from_mmar
                (env_with_archive
               [("train_conf", VDict [("model", VStr "UNet")])]
               (Ok [("model", VDict [("name", VStr "UNet")])]))
                (ItemIdx (IdxInt 3)) (Some "/data") true None true
             false "model")
  = Raise (ValueError [Lit
      "Could not load model config dictionary from config: config/config_train.json, or from model file: models/model.pt."]).
Proof.
  exact (proj1 (non_mapping_hit_is_fatal string
                  (env_with_archive
               [("train_conf", VDict [("model", VStr "UNet")])]
               (Ok [("model", VDict [("name", VStr "UNet")])]))
                  (ItemIdx (IdxInt 3))
                  (Some "/data") true None true "model"
                  (nth 3 MODEL_DESC script_descriptor)
                  "/data/clara_pt_pathology_metastasis_detection_1"
                  [("train_conf", VDict [("model", VStr "UNet")])] (VStr "UNet")
                  eq_refl eq_refl eq_refl eq_refl eq_refl eq_refl eq_refl)).
Defined.

(** X16. A [train_conf] entry that is [None], a boolean, an integer or a
    non-empty string cannot be searched: [load_from_mmar] fails with a
    [TypeError] in the first search, before the configuration file is
    opened. *)
Theorem unsearchable_train_conf_raises (obj : Type) (env : Env obj) (item : item_arg)
  (mmar_dir : option string) (progress : bool) (map_location : option string)
  (pretrained : bool) (model_key : string)
  (d : ModelDescriptor) (model_dir : string) (model_dict : dict) (v : value) :
  outcome (@resolve_item obj item) = Ok d ->
  outcome (download_mmar env (ItemDesc d) mmar_dir progress) = Ok model_dir ->
  endswith (path_join model_dir (MODEL_FILE d)) ".ts" = false ->
  torch_load env (path_join model_dir (MODEL_FILE d)) map_location = Ok model_dict ->
  getitem "train_conf" model_dict = Some v ->
  match v with
  | VNone | VBool _ | VInt _ => True
  | VStr s => s <> ""
  | VList _ | VDict _ => False
  end ->
  let run := load_from_mmar env item mmar_dir progress map_location pretrained
               false model_key in
  outcome run = Raise TypeError
  /\ consultations (log_of run) = [EvSearch SrcTrainConf].
Proof.
  intros Hitem Hdir Hts Hload Hget Hv run.
  destruct (load_from_mmar_from_config env item mmar_dir progress map_location
              pretrained model_key d model_dir model_dict Hitem Hdir Hts Hload)
    as [Hout Hcons].
  assert (Hsearch : @_get_val_obj obj (get_default "train_conf" model_dict (VDict []))
                      model_key (VDict []) = Raise TypeError).
  { unfold get_default. rewrite Hget.
    destruct v as [| | |s| |]; try reflexivity; try contradiction.
    simpl. destruct (String.eqb_spec s ""); [contradiction | reflexivity]. }
  pose proof (find_train_conf_raises obj env d model_dir model_dict model_key _ Hsearch)
    as Hfind.
  unfold run. rewrite Hout, Hcons, Hfind.
  rewrite (model_from_config_not_found env pretrained model_key d model_dir
             model_dict _ _ Hfind).
  split; reflexivity.
Qed.

Lemma unsearchable_train_conf_raises_witness :
  outcome (load_from_mmar
                (env_with_archive
               [("train_conf", VNone); ("model", VDict [("name", VStr "UNet")])]
               (Ok [("model", VDict [("name", VStr "UNet")])]))
                (ItemIdx (IdxInt 0)) (Some "/data") true None true
             false "model")
  = Raise TypeError.
Proof.
  exact (proj1 (unsearchable_train_conf_raises string
                  (env_with_archive
               [("train_conf", VNone); ("model", VDict [("name", VStr "UNet")])]
               (Ok [("model", VDict [("name", VStr "UNet")])]))
                  (ItemIdx (IdxInt 0))
                  (Some "/data") true None true "model"
                  (nth 0 MODEL_DESC script_descriptor)
                  "/data/clara_pt_prostate_mri_segmentation_1"
                  [("train_conf", VNone); ("model", VDict [("name", VStr "UNet")])]
                  VNone eq_refl eq_refl eq_refl eq_refl eq_refl I)).
Defined.

(** ** The class of the model *)

Lemma rsplit_dot_no_dot (s : string) : no_dot s = true -> rsplit_dot s = None.
Proof.
  induction s as [|c s IH]; simpl; [reflexivity|].
  intros H. apply andb_true_iff in H. destruct H as [Hc Hs].
  rewrite (IH Hs). apply negb_true_iff in Hc. rewrite Hc. reflexivity.
Qed.

(** The split is at the last dot. *)
Lemma rsplit_dot_last (module name : string) :
  no_dot name = true ->
  rsplit_dot (module ++ "." ++ name) = Some (module, name).
Proof.
  intros Hname. induction module as [|c module IH]; simpl.
  - rewrite (rsplit_dot_no_dot name Hname). reflexivity.
  - simpl in IH. rewrite IH. reflexivity.
Qed.

Lemma dotted_not_empty (module name : string) :
  String.eqb (module ++ "." ++ name) "" = false.
Proof. destruct module; reflexivity. Qed.

(** X17. A configuration with a ["name"] entry that has a truth value is
    resolved in the registry of [monai.networks.nets] alone: whatever its
    ["path"] entry holds, no import is attempted; a string that the
    registry knows gives its class and any other string is a [KeyError]. *)
Theorem name_takes_precedence_over_path (obj : Type) (env : Env obj)
  (model_dir : string) (model_config : dict) (name : value) :
  getitem "name" model_config = Some name ->
  truthy name = true ->
  log_of (resolve_model_class env model_dir model_config) = [EvRegistry name]
  /\ filter is_import (log_of (resolve_model_class env model_dir model_config)) = []
  /\ (forall s, name = VStr s ->
        outcome (resolve_model_class env model_dir model_config)
        = match nets_lookup env s with
          | Some cls => Ok cls
          | None => Raise (KeyError (VStr s))
          end).
Proof.
  intros Hget Htruthy. unfold resolve_model_class, get_default.
  rewrite Hget, Htruthy. unfold registry_class.
  destruct name as [| | |s| |]; try (repeat split; intros s0 Hs; discriminate Hs).
  destruct (nets_lookup env s) as [cls|] eqn:Hlookup.
  - repeat split. intros s0 Hs. inversion Hs; subst s0. rewrite Hlookup. reflexivity.
  - repeat split. intros s0 Hs. inversion Hs; subst s0. rewrite Hlookup. reflexivity.
Qed.

Lemma name_takes_precedence_over_path_witness :
  resolve_model_class
    (env_with_archive [] (Ok [])) "/data/m"
    [("path", VStr "custom.nets.MyNet"); ("name", VStr "UNet")]
  = (Ok "UNet", [EvRegistry (VStr "UNet")]).
Proof.
  destruct (name_takes_precedence_over_path string (env_with_archive [] (Ok []))
              "/data/m" [("path", VStr "custom.nets.MyNet"); ("name", VStr "UNet")]
              (VStr "UNet") eq_refl eq_refl) as [Hlog [_ Hout]].
  rewrite (pair_outcome_log (resolve_model_class _ _ _)), Hlog, (Hout "UNet" eq_refl).
  reflexivity.
Defined.

(** X18. Without a usable name, a ["path"] entry [module.name] is split at
    its last dot: [name] is imported from [module], in one attempt, and a
    failed import is the [ValueError] that quotes the path and the
    directory of the archive. A path without a dot is refused before any
    import, with the error of the failed unpacking. *)
Theorem dotted_path_is_imported (obj : Type) (env : Env obj)
  (model_dir : string) (model_config : dict) :
  truthy (get_default "name" model_config VNone) = false ->
  (forall module name,
      getitem "path" model_config = Some (VStr (module ++ "." ++ name)) ->
      no_dot name = true ->
      resolve_model_class env model_dir model_config
      = (match import_class env module name with
         | Some cls => Ok cls
         | None =>
             Raise (ValueError [Lit
               ("Could not load MMAR model config " ++ (module ++ "." ++ name)
                ++ ", Please make sure MMAR's sub-folders in '" ++ model_dir
                ++ "' is on the PYTHONPATH."
                ++ "See also: https://docs.nvidia.com/clara/clara-train-sdk/pt/byom.html")])
         end,
         [EvImport module name]))
  /\ (forall path,
         getitem "path" model_config = Some (VStr path) ->
         path <> "" -> no_dot path = true ->
         resolve_model_class env model_dir model_config
         = (Raise (ValueError [Lit "not enough values to unpack (expected 2, got 1)"]),
            [])).
Proof.
  intros Hname. split.
  - intros module name Hpath Hdot.
    unfold resolve_model_class, get_default. fold (get_default "name" model_config VNone).
    rewrite Hname, Hpath. cbn [truthy]. rewrite dotted_not_empty. cbn [negb].
    unfold path_class. rewrite (rsplit_dot_last module name Hdot).
    destruct (import_class env module name); reflexivity.
  - intros path Hpath Hne Hdot.
    unfold resolve_model_class, get_default. fold (get_default "name" model_config VNone).
    rewrite Hname, Hpath. cbn [truthy].
    destruct (String.eqb_spec path ""); [contradiction|]. cbn [negb].
    unfold path_class. rewrite (rsplit_dot_no_dot path Hdot). reflexivity.
Qed.

Lemma dotted_path_is_imported_witness :
  resolve_model_class (env_with_archive [] (Ok [])) "/data/m"
    [("name", VStr ""); ("path", VStr "custom.nets.MyNet")]
  = (Ok "custom.nets.MyNet", [EvImport "custom.nets" "MyNet"])
  /\ resolve_model_class (env_with_archive [] (Ok [])) "/data/m"
       [("path", VStr "MyNet")]
     = (Raise (ValueError [Lit "not enough values to unpack (expected 2, got 1)"]), []).
Proof.
  split.
  - exact (proj1 (dotted_path_is_imported string (env_with_archive [] (Ok []))
                    "/data/m" [("name", VStr ""); ("path", VStr "custom.nets.MyNet")]
                    eq_refl)
             "custom.nets" "MyNet" eq_refl eq_refl).
  - refine (proj2 (dotted_path_is_imported string (env_with_archive [] (Ok []))
                     "/data/m" [("path", VStr "MyNet")] eq_refl)
              "MyNet" eq_refl _ eq_refl).
    discriminate.
Defined.

(** ** From the configuration to the model *)

Section Building.

Context {obj : Type}.
Variable env : Env obj.

Lemma bind_outcome {A B : Type} (m : M obj A) (f : A -> M obj B) (a : A) :
  outcome m = Ok a -> outcome (bind m f) = outcome (f a).
Proof.
  destruct m as [[a0|e] log]; unfold outcome, bind; simpl; intros H;
    inversion H; subst. destruct (f a); reflexivity.
Qed.

Lemma check_model_config_accepts (item : ModelDescriptor) (cfg : dict) :
  cfg <> [] -> @check_model_config obj item (VDict cfg) = (Ok cfg, []).
Proof. destruct cfg; [contradiction | reflexivity]. Qed.

(** [build_model] on arguments that are missing, without truth value or a
    mapping, when the class and the weights raise no error. *)
Lemma build_model_succeeds (item : ModelDescriptor) (model_dict : dict)
  (model_key : string) (pretrained : bool) (cfg : dict) (cls inst : obj) :
  (truthy (get_default "args" cfg VNone) = true ->
   is_mapping (get_default "args" cfg VNone) = true) ->
  construct env cls (kwargs_of cfg) = Ok inst ->
  (pretrained = true ->
   load_state_dict env inst (weights_of model_dict model_key) = None) ->
  outcome (build_model env item model_dict model_key pretrained cfg cls)
  = Ok (Model inst)
  /\ filter is_load_state
       (log_of (build_model env item model_dict model_key pretrained cfg cls))
     = if pretrained
       then [EvLoadStateDict inst (weights_of model_dict model_key)]
       else [].
Proof.
  unfold build_model, kwargs_of, when, lift, lift_unit, bind, emit, ret, raise,
    outcome, log_of.
  intros Hargs Hmake Hload.
  destruct (get_default "args" cfg VNone) as [|b|z|s|l|[|e kw]]; simpl in *;
    try (destruct b; [discriminate (Hargs eq_refl)|]);
    try (destruct (Z.eqb z 0); [|discriminate (Hargs eq_refl)]);
    try (destruct (String.eqb s ""); [|discriminate (Hargs eq_refl)]);
    try (destruct l; [|discriminate (Hargs eq_refl)]);
    simpl; rewrite Hmake; simpl;
    (destruct pretrained; simpl; [rewrite (Hload eq_refl)|]); split; reflexivity.
Qed.

(** The class resolution loads no weights. *)
Lemma resolve_model_class_no_weights (model_dir : string) (cfg : dict) :
  Forall (fun ev => is_load_state ev = false)
    (log_of (resolve_model_class env model_dir cfg)).
Proof.
  unfold resolve_model_class, registry_class, path_class. split_log.
Qed.

End Building.

(** X19. The way to a model: when the search finds a non-empty mapping,
    its class resolves, its ["args"] entry is missing, without truth value
    or a mapping, and neither the call of the class nor, with [pretrained],
    the loading of the weights raises an error, then [load_from_mmar]
    returns the instance that the class made. The weights are loaded
    exactly when [pretrained] is set, once, and they are the weights that
    the same call with [weights_only] returns. *)
Theorem model_is_built_from_config (obj : Type) (env : Env obj) (item : item_arg)
  (mmar_dir : option string) (progress : bool) (map_location : option string)
  (pretrained : bool) (model_key : string)
  (d : ModelDescriptor) (model_dir : string) (model_dict cfg : dict)
  (cls inst : obj) :
  outcome (@resolve_item obj item) = Ok d ->
  outcome (download_mmar env (ItemDesc d) mmar_dir progress) = Ok model_dir ->
  endswith (path_join model_dir (MODEL_FILE d)) ".ts" = false ->
  torch_load env (path_join model_dir (MODEL_FILE d)) map_location = Ok model_dict ->
  outcome (find_model_config env d model_dir model_dict model_key) = Ok (VDict cfg) ->
  cfg <> [] ->
  outcome (resolve_model_class env model_dir cfg) = Ok cls ->
  (truthy (get_default "args" cfg VNone) = true ->
   is_mapping (get_default "args" cfg VNone) = true) ->
  construct env cls (kwargs_of cfg) = Ok inst ->
  (pretrained = true ->
   load_state_dict env inst (weights_of model_dict model_key) = None) ->
  let run := load_from_mmar env item mmar_dir progress map_location pretrained
               false model_key in
  outcome run = Ok (Model inst)
  /\ filter is_load_state (log_of run)
     = (if pretrained
        then [EvLoadStateDict inst (weights_of model_dict model_key)]
        else [])
  /\ outcome (load_from_mmar env item mmar_dir progress map_location pretrained
                true model_key)
     = Ok (Weights (weights_of model_dict model_key)).
Proof.
  intros Hitem Hdir Hts Hload Hfind Hne Hcls Hargs Hmake Hweights run.
  destruct (build_model_succeeds env d model_dict model_key pretrained cfg cls inst
              Hargs Hmake Hweights) as [Hbuild Hbuildlog].
  unfold run.
  rewrite !(load_from_mmar_located env item mmar_dir progress map_location
              model_key d model_dir Hitem Hdir).
  rewrite Hts, Hload, !outcome_pair, log_of_pair.
  split; [|split; [|reflexivity]].
  - unfold model_from_config.
    rewrite (bind_outcome _ _ _ Hfind).
    rewrite (bind_outcome _ _ cfg
               (f_equal outcome (check_model_config_accepts d cfg Hne))).
    rewrite (bind_outcome _ _ _ Hcls). exact Hbuild.
  - rewrite !filter_app.
    rewrite (filter_none is_load_state
               (log_of (download_mmar env (ItemDesc d) mmar_dir progress))).
    2:{ eapply Forall_impl; [|apply download_mmar_log].
        intros [] H; try discriminate H; reflexivity. }
    unfold model_from_config.
    rewrite log_of_bind, Hfind, filter_app.
    rewrite (filter_none is_load_state (log_of (find_model_config _ _ _ _ _))).
    2:{ eapply Forall_impl; [|apply find_model_config_log].
        intros [] H; try discriminate H; reflexivity. }
    rewrite log_of_bind, (check_model_config_accepts d cfg Hne).
    rewrite outcome_pair, log_of_pair, log_of_bind, Hcls. cbn [app].
    rewrite !filter_app.
    rewrite (filter_none is_load_state (log_of (resolve_model_class _ _ _))).
    2:{ apply resolve_model_class_no_weights. }
    simpl. exact Hbuildlog.
Qed.

Lemma model_is_built_from_config_witness :
  outcome (load_from_mmar
             (env_with_archive
                [("model", VDict [("conv.weight", VInt 1)])]
                (Ok [("train", VDict [("model", VDict [("path", VStr "custom.nets.MyNet")])])]))
             (ItemIdx (IdxInt 3)) (Some "/data") true None true false "model")
  = Ok (Model "custom.nets.MyNet()")
  /\ filter is_load_state
       (log_of (load_from_mmar
                  (env_with_archive
                     [("model", VDict [("conv.weight", VInt 1)])]
                     (Ok [("train", VDict [("model", VDict [("path", VStr "custom.nets.MyNet")])])]))
                  (ItemIdx (IdxInt 3)) (Some "/data") true None true false "model"))
     = [EvLoadStateDict "custom.nets.MyNet()" (VDict [("conv.weight", VInt 1)])].
Proof.
  pose proof (model_is_built_from_config string
                (env_with_archive
                   [("model", VDict [("conv.weight", VInt 1)])]
                   (Ok [("train", VDict [("model", VDict [("path", VStr "custom.nets.MyNet")])])]))
                (ItemIdx (IdxInt 3)) (Some "/data") true None true "model"
                (nth 3 MODEL_DESC script_descriptor)
                "/data/clara_pt_pathology_metastasis_detection_1"
                [("model", VDict [("conv.weight", VInt 1)])]
                [("path", VStr "custom.nets.MyNet")]
                "custom.nets.MyNet" "custom.nets.MyNet()"
                eq_refl eq_refl eq_refl eq_refl eq_refl) as H.
  cbv zeta in H.
  destruct H as [Hout [Hlog _]]; try reflexivity; try discriminate.
  split; [exact Hout | exact Hlog].
Defined.

(** ** More on the nested search *)

(** The loop returns the default, or a value other than [None] that does
    not depend on the default. *)
Lemma search_entries_default (entries : dict) (key : string) :
  (exists r, r <> VNone /\ forall default, search_entries entries key default = r)
  \/ (forall default, search_entries entries key default = default).
Proof.
  induction entries as [|[k val] entries IH]; simpl; [right; reflexivity|].
  destruct val; try exact IH.
  destruct (is_None (_get_val d key VNone)) eqn:Hnone; [exact IH|].
  left. exists (_get_val d key VNone). split; [|reflexivity].
  apply is_None_false. exact Hnone.
Qed.

(** X20. The default has no part in the search: either the search returns
    the default whatever it is, or it returns one and the same value for
    every default; a value so found below the top level is never [None]. *)
Theorem default_only_matters_when_absent (m : dict) (key : string) :
  (exists r,
      (forall default, _get_val m key default = r)
      /\ (getitem key m = None -> r <> VNone))
  \/ (forall default, _get_val m key default = default).
Proof.
  destruct (getitem key m) as [hit|] eqn:Hdirect.
  - left. exists hit. split.
    + intros default. rewrite _get_val_unfold, Hdirect. reflexivity.
    + discriminate.
  - destruct (search_entries_default m key) as [[r [Hr Hall]]|Hall].
    + left. exists r. split; [|intros _; exact Hr].
      intros default. rewrite _get_val_unfold, Hdirect. apply Hall.
    + right. intros default. rewrite _get_val_unfold, Hdirect. apply Hall.
Qed.

(** X21. Only mappings are searched: an entry under another key whose value
    is not a mapping (a list of mappings, say) can be removed without
    changing the result, so a key that occurs inside a list only is not
    found. *)
Theorem non_mapping_entries_are_not_searched (pre post : dict) (k : string)
  (v : value) (key : string) (default : value) :
  is_mapping v = false ->
  k <> key ->
  _get_val (pre ++ (k, v) :: post) key default = _get_val (pre ++ post) key default.
Proof.
  intros Hleaf Hne.
  rewrite !_get_val_unfold, (getitem_app_skip pre post key k v Hne).
  destruct (getitem key (pre ++ post)); [reflexivity|].
  rewrite !search_entries_app. f_equal.
  destruct v; try reflexivity. discriminate Hleaf.
Qed.

Lemma non_mapping_entries_are_not_searched_witness :
  _get_val [("epochs", VInt 10);
            ("models", VList [VDict [("model", VDict [("name", VStr "UNet")])]]);
            ("lr", VInt 1)]
    "model" (VDict [])
  = VDict [].
Proof.
  refine (eq_trans
            (non_mapping_entries_are_not_searched
               [("epochs", VInt 10)] [("lr", VInt 1)] "models"
               (VList [VDict [("model", VDict [("name", VStr "UNet")])]])
               "model" (VDict []) eq_refl _)
            eq_refl).
  discriminate.
Defined.

(** The keys before the nested mapping are passed over. *)
Lemma search_keys_skip (nested : ObjectGraph.mapping -> option ObjectGraph.ref_value)
  (st : ObjectGraph.store) (m : ObjectGraph.mapping) (pre rest : list string)
  (default : ObjectGraph.ref_value) :
  no_nested_mapping st m pre ->
  ObjectGraph.search_keys nested st m (pre ++ rest) default
  = ObjectGraph.search_keys nested st m rest default.
Proof.
  intros Hpre. induction pre as [|k pre IH]; [reflexivity|].
  assert (IH' : ObjectGraph.search_keys nested st m (pre ++ rest) default
                = ObjectGraph.search_keys nested st m rest default).
  { apply IH. intros k' l Hin. apply Hpre. right. exact Hin. }
  simpl. destruct (ObjectGraph.getitem_ref k m) as [[| | | | |l]|] eqn:Hget;
    try exact IH'.
  rewrite (Hpre k l (or_introl eq_refl) Hget). exact IH'.
Qed.

(** X22. A mapping that is nested in itself hangs the search: when the key
    is not a direct entry and the first entry that refers to a mapping
    refers to the mapping itself, no number of nested calls makes the
    search return. *)
Theorem self_reference_never_returns (st : ObjectGraph.store) (l : ObjectGraph.loc)
  (m : ObjectGraph.mapping) (key k : string) (pre post : list string) :
  nth_error st l = Some m ->
  ObjectGraph.getitem_ref key m = None ->
  map fst m = pre ++ k :: post ->
  no_nested_mapping st m pre ->
  ObjectGraph.getitem_ref k m = Some (ObjectGraph.RMap l) ->
  forall fuel default, ObjectGraph._get_val_ref fuel st m key default = None.
Proof.
  intros Hm Hdirect Hkeys Hpre Hself.
  induction fuel as [|fuel IH]; intros default; [reflexivity|].
  rewrite ObjectGraphFacts._get_val_ref_unfold, Hdirect, Hkeys.
  rewrite (search_keys_skip _ st m pre (k :: post) default Hpre).
  simpl. rewrite Hself, Hm, (IH ObjectGraph.RNone). reflexivity.
Qed.

Lemma self_reference_never_returns_witness :
    ObjectGraph._get_val_ref 1000
      [[("name", ObjectGraph.RStr "net"); ("parent", ObjectGraph.RMap 0);
        ("child", ObjectGraph.RMap 1)];
       [("model", ObjectGraph.RInt 1)]]
      [("name", ObjectGraph.RStr "net"); ("parent", ObjectGraph.RMap 0);
       ("child", ObjectGraph.RMap 1)]
      "model" ObjectGraph.RNone = None.
Proof.
  apply (self_reference_never_returns _ 0 _ "model" "parent" ["name"] ["child"]);
    try reflexivity.
  intros k l [<-|[]] H. discriminate H.
Defined.
